(** * HTML page change detector: model of [html_page_detector.py]

    The development embeds the three parts of the detector that carry its
    logic: the structure extractor ([extract_xpath_structure] and its two
    helpers), the diff engine ([compare_structures] and the four
    per-category comparisons) and the scan orchestrator ([scan_url] with the
    [DatabaseManager] it writes to). Around them it embeds the loop that
    calls the scans ([monitor_urls]) and the configuration object of
    [config.py] ([Config.get] and [Config.update]).

    Conventions.
    - A Python [dict] with string keys is an association list in insertion
      order; lookups take the first binding, and [dict_set] keeps keys unique.
    - A Python [set] is a [gset string]; its iteration order is whatever
      [elements] gives, as Python leaves it unspecified.
    - Exceptions are values of [exn] carried by [result]; code with effects
      runs in the state-and-exception monad [M].
    - What the interpreter and the libraries provide ([str], [json], [md5],
      the lxml parser) enters through the record [PyLib]; what the outside
      world answers (HTTP, SQLite faults, the clock) through [World]. *)

From Stdlib Require Import ZArith Lia.
From stdpp Require Import base option list strings gmap pretty.

Open Scope string_scope.
Open Scope list_scope.

(* ===================================================================== *)
(** ** Python values used by the detector *)
(* ===================================================================== *)

(** Iteration over a Python set of strings. *)
Definition py_set_iter (s : gset string) : list string := elements s.

(** [set(a) | set(b)] for two key lists. *)
Definition py_set_union (a b : list string) : gset string :=
  list_to_set a ∪ list_to_set b.

Definition dict (V : Type) : Type := list (string * V).

Definition dict_keys {V} (d : dict V) : list string := d.*1.

(** [d.get(k)] *)
Fixpoint dict_get {V} (d : dict V) (k : string) : option V :=
  match d with
  | [] => None
  | (k', v) :: d' => if decide (k' = k) then Some v else dict_get d' k
  end.

(** [k in d] *)
Definition dict_mem {V} (d : dict V) (k : string) : bool :=
  bool_decide (k ∈ dict_keys d).

(** [d[k] = v]: an existing key keeps its position, a new one goes last. *)
Fixpoint dict_set {V} (d : dict V) (k : string) (v : V) : dict V :=
  match d with
  | [] => [(k, v)]
  | (k', v') :: d' =>
      if decide (k' = k) then (k, v) :: d' else (k', v') :: dict_set d' k v
  end.

(** [str.isspace] on one character. Characters are code points below 256:
    the white space among them is TAB..CR, FS..US, SPACE, NEL and NBSP. *)
Definition py_isspace (c : Ascii.ascii) : bool :=
  let n := Ascii.nat_of_ascii c in
  ((9 <=? n)%nat && (n <=? 13)%nat) || ((28 <=? n)%nat && (n <=? 32)%nat)
  || (n =? 133)%nat || (n =? 160)%nat.

Fixpoint py_lstrip (s : string) : string :=
  match s with
  | EmptyString => EmptyString
  | String c s' => if py_isspace c then py_lstrip s' else s
  end.

(** [s.strip()] *)
Definition py_strip (s : string) : string :=
  String.rev (py_lstrip (String.rev (py_lstrip s))).

(** [s[:n]] *)
Fixpoint py_prefix (n : nat) (s : string) : string :=
  match n, s with
  | S n', String c s' => String c (py_prefix n' s')
  | _, _ => EmptyString
  end.

(** Truth value of a string: [if s]. *)
Definition py_truthy (s : string) : bool :=
  match s with EmptyString => false | String _ _ => true end.

(** The [.tag] of a comment or of a processing instruction is not a string
    but the function that makes such nodes ([etree.Comment],
    [etree.ProcessingInstruction]): an object that is true in an [if] and
    that [json.dumps] refuses. Tags are strings in the model; this one
    string, which is no tag name since it starts with ['<'], stands for the
    function. *)
Definition function_tag : string := "<cyfunction Comment>".

Definition is_function_tag (tag : string) : bool :=
  bool_decide (tag = function_tag).

(* ===================================================================== *)
(** ** Exceptions *)
(* ===================================================================== *)

Inductive exn : Type :=
| ParserError        (* lxml.etree.ParserError and kin, from html.fromstring *)
| JSONDecodeError    (* json.JSONDecodeError *)
| AttributeError     (* [.get] on a value that is not a dict *)
| RequestException   (* requests.RequestException *)
| sqlite3_Error      (* sqlite3.Error *)
| TypeError.         (* from [json.dumps], of a value that is no JSON *)

#[global] Instance exn_eq_dec : EqDecision exn.
Proof. solve_decision. Defined.

Inductive result (A : Type) : Type :=
| Returned (a : A)
| Raised (e : exn).
Arguments Returned {A} a.
Arguments Raised {A} e.

(** [try: body  except Exception: handler] *)
Definition try_except {A} (body : result A) (handler : exn → result A)
  : result A :=
  match body with
  | Returned a => Returned a
  | Raised e => handler e
  end.

(* ===================================================================== *)
(** ** Data model *)
(* ===================================================================== *)

(** The value dictionaries are records: extraction writes all their keys,
    and [json.dumps] followed by [json.loads] gives them back, so that the
    [.get(key)] and [.get(key, default)] of the comparisons find the key. *)

(** [{'tag': .., 'text': .., 'tail': ..}]; the tag is [function_tag] in
    the snapshot of a comment or of a processing instruction. *)
Record ElementSnapshot : Type := mkElementSnapshot {
  tag : string;
  text : string;
  tail : string
}.

(** [{'headers': .., 'row_count': .., 'column_count': ..}] *)
Record TableSnapshot : Type := mkTableSnapshot {
  headers : list string;
  row_count : nat;
  column_count : nat
}.

(** [{'type': .., 'name': .., 'id': .., 'class': ..}] *)
Record InputInfo : Type := mkInputInfo {
  input_type : string;
  input_name : string;
  input_id : string;
  input_class : string
}.

(** [{'action': .., 'method': .., 'inputs': [..]}] *)
Record FormSnapshot : Type := mkFormSnapshot {
  action : string;
  method : string;
  inputs : list InputInfo
}.

(** The structure dictionary. A category is [None] when its key is absent,
    which is the case for all four in the [{}] that a failed extraction
    returns; the comparisons read every category with [.get(key, {})]. *)
Record PageStructure : Type := mkPageStructure {
  elements : option (dict ElementSnapshot);
  attributes : option (dict (dict string));
  tables : option (dict TableSnapshot);
  forms : option (dict FormSnapshot)
}.

(** [{}] *)
Definition empty_structure : PageStructure :=
  mkPageStructure None None None None.

#[global] Instance ElementSnapshot_eq_dec : EqDecision ElementSnapshot.
Proof. solve_decision. Defined.
#[global] Instance TableSnapshot_eq_dec : EqDecision TableSnapshot.
Proof. solve_decision. Defined.
#[global] Instance InputInfo_eq_dec : EqDecision InputInfo.
Proof. solve_decision. Defined.
#[global] Instance FormSnapshot_eq_dec : EqDecision FormSnapshot.
Proof. solve_decision. Defined.

(** The fixed set of [change_type] literals. *)
Inductive ChangeType : Type :=
| element_removed | element_added | element_text_changed
| attribute_added | attribute_removed | attribute_modified
| table_removed | table_added | table_headers_changed | table_columns_changed
| form_added | form_removed | form_inputs_changed.

#[global] Instance ChangeType_eq_dec : EqDecision ChangeType.
Proof. solve_decision. Defined.

(** The literal the source writes for each. *)
Definition change_type_literal (c : ChangeType) : string :=
  match c with
  | element_removed => "element_removed"
  | element_added => "element_added"
  | element_text_changed => "element_text_changed"
  | attribute_added => "attribute_added"
  | attribute_removed => "attribute_removed"
  | attribute_modified => "attribute_modified"
  | table_removed => "table_removed"
  | table_added => "table_added"
  | table_headers_changed => "table_headers_changed"
  | table_columns_changed => "table_columns_changed"
  | form_added => "form_added"
  | form_removed => "form_removed"
  | form_inputs_changed => "form_inputs_changed"
  end.

(** [@dataclass ChangeDetails] *)
Record ChangeDetails : Type := mkChangeDetails {
  change_type : ChangeType;
  xpath : string;
  old_value : option string;
  new_value : option string;
  element_type : string;
  timestamp : Z
}.

#[global] Instance ChangeDetails_eq_dec : EqDecision ChangeDetails.
Proof. solve_decision. Defined.

(* ===================================================================== *)
(** ** The parsed document, as the detector reads it through lxml *)
(* ===================================================================== *)

(** The nodes of the tree that [doc.iter()] visits. An element carries
    what the source reads from it: [tag], [attrib], [text], [tail], the
    answer of [getroottree().getpath(element)] ([None] when that call
    raises) and its child nodes in document order. A comment (and likewise
    a processing instruction) has text, tail and path, no attributes and no
    children, and a function as its [.tag]. *)
Module lxml.

#[local] Set Warnings "-register-all".

Inductive element : Type :=
| Element (tag : string) (attrib : dict string)
          (text tail : option string) (getpath : option string)
          (children : list element)
| Comment (text tail : option string) (getpath : option string).

Definition tag (e : element) : string :=
  match e with
  | Element t _ _ _ _ _ => t
  | Comment _ _ _ => function_tag
  end.
Definition attrib (e : element) : dict string :=
  match e with
  | Element _ a _ _ _ _ => a
  | Comment _ _ _ => []
  end.
Definition text (e : element) : option string :=
  match e with
  | Element _ _ t _ _ _ => t
  | Comment t _ _ => t
  end.
Definition tail (e : element) : option string :=
  match e with
  | Element _ _ _ t _ _ => t
  | Comment _ t _ => t
  end.
Definition getpath (e : element) : option string :=
  match e with
  | Element _ _ _ _ p _ => p
  | Comment _ _ p => p
  end.
Definition children (e : element) : list element :=
  match e with
  | Element _ _ _ _ _ cs => cs
  | Comment _ _ _ => []
  end.

(** [element.get(name, default)], which the source asks of elements. *)
Definition get (e : element) (name dflt : string) : string :=
  default dflt (dict_get (attrib e) name).

(** [element.iter()]: the node, then its descendants, document order,
    comments and processing instructions among them. *)
Fixpoint iter (e : element) : list element :=
  match e with
  | Element _ _ _ _ _ cs => e :: flat_map iter cs
  | Comment _ _ _ => [e]
  end.

(** The proper descendants, document order (the axis of [.//x]). *)
Definition descendants (e : element) : list element :=
  flat_map iter (children e).

(** [element.text_content()]: all text below the element, in order. The
    text of a comment is no text of the document; its tail is. *)
Fixpoint text_content (e : element) : string :=
  match e with
  | Element _ _ t _ _ cs =>
      default "" t +:+
      String.concat ""
        (map (λ c, text_content c +:+ default "" (tail c)) cs)
  | Comment _ _ _ => ""
  end.

Definition tag_in (names : list string) (e : element) : bool :=
  bool_decide (tag e ∈ names).

(** [e.xpath('.//a | .//b | ..')] for plain tag names, which no comment
    answers to. *)
Definition xpath_descendants (names : list string) (e : element)
  : list element :=
  List.filter (tag_in names) (descendants e).

(** The proper descendants of [e], each with the flag: does it lie below
    a [thead] that is itself a proper descendant of the context node?
    [under_thead] is that flag for [e]'s children. *)
Fixpoint descendants_thead (under_thead : bool) (e : element)
  : list (bool * element) :=
  match e with
  | Element _ _ _ _ _ cs =>
      flat_map
        (λ c, (under_thead, c)
              :: descendants_thead
                   (under_thead || bool_decide (tag c = "thead")) c)
        cs
  | Comment _ _ _ => []
  end.

(** [table.xpath('.//th | .//thead//td')] *)
Definition xpath_header_cells (table : element) : list element :=
  map snd
    (List.filter
       (λ p : bool * element,
          bool_decide (tag p.2 = "th")
          || (p.1 && bool_decide (tag p.2 = "td")))
       (descendants_thead false table)).

(** [doc.xpath('//name')]: every element of the document with that tag. *)
Definition xpath_all (name : string) (doc : element) : list element :=
  List.filter (tag_in [name]) (iter doc).

End lxml.

(* ===================================================================== *)
(** ** What the interpreter and the libraries provide *)
(* ===================================================================== *)

(** What [json.loads] hands back: a structure dictionary as
    [save_scan_result] stores them, or some JSON value that is not an object
    (a list, a string, a number, [null]). A JSON object of another shape is
    outside the model: what the comparisons do with it depends on the
    shape. *)
Inductive json_value : Type :=
| json_structure (s : PageStructure)
| json_not_object.

Record PyLib : Type := mkPyLib {
  (** [lxml.html.fromstring] *)
  html_fromstring : string → result lxml.element;
  (** [hashlib.md5(s.encode()).hexdigest()] *)
  md5_hexdigest : string → string;
  (** the text [json.dumps] gives for a structure it can serialise *)
  json_dumps : PageStructure → string;
  json_loads : string → result json_value;
  (** [str(x)] at the types the diff applies it to *)
  str_element : ElementSnapshot → string;
  str_table : TableSnapshot → string;
  str_form : FormSnapshot → string;
  str_headers : list string → string;
  str_int : nat → string;
  str_inputs : list InputInfo → string
}.

(** Can [json.dumps] serialise the structure? It can unless the tag of
    some element snapshot is a function. *)
Definition structure_serialisable (s : PageStructure) : bool :=
  forallb (λ kv : string * ElementSnapshot, negb (is_function_tag (tag kv.2)))
    (default [] (elements s)).

(** [json.dumps(structure)]: [TypeError] on a structure that holds a
    function. *)
Definition py_json_dumps (L : PyLib) (s : PageStructure) : result string :=
  if structure_serialisable s then Returned (json_dumps L s)
  else Raised TypeError.

(* ===================================================================== *)
(** ** StructureExtractor *)
(* ===================================================================== *)

(** [_get_element_xpath]: the path, or [""] when lxml raises. *)
Definition _get_element_xpath (element : lxml.element) : string :=
  default "" (lxml.getpath element).

(** [_extract_table_structure]. The xpath calls of the [try] block do not
    raise on an element, so the handler is never entered. *)
Definition _extract_table_structure (table : lxml.element) : TableSnapshot :=
  let headers := lxml.xpath_header_cells table in
  let rows := lxml.xpath_descendants ["tr"] table in
  {| headers :=
       List.filter py_truthy
         (map (λ h, py_strip (lxml.text_content h)) headers);
     row_count := length rows;
     column_count :=
       match rows with
       | [] => 0
       | first_row :: _ =>
           length (lxml.xpath_descendants ["td"; "th"] first_row)
       end |}.

(** [_extract_form_structure] *)
Definition _extract_form_structure (form : lxml.element) : FormSnapshot :=
  {| action := lxml.get form "action" "";
     method := lxml.get form "method" "";
     inputs :=
       map (λ inp,
              {| input_type := lxml.get inp "type" (lxml.tag inp);
                 input_name := lxml.get inp "name" "";
                 input_id := lxml.get inp "id" "";
                 input_class := lxml.get inp "class" "" |})
           (lxml.xpath_descendants ["input"; "select"; "textarea"] form) |}.

(** One turn of [for element in doc.iter()]. *)
Definition extract_element
    (acc : dict ElementSnapshot * dict (dict string))
    (element : lxml.element) : dict ElementSnapshot * dict (dict string) :=
  if py_truthy (lxml.tag element) then
    let xpath := _get_element_xpath element in
    (dict_set acc.1 xpath
       {| tag := lxml.tag element;
          text := py_prefix 100 (py_strip (default "" (lxml.text element)));
          tail := py_prefix 100 (py_strip (default "" (lxml.tail element))) |},
     match lxml.attrib element with
     | [] => acc.2
     | _ :: _ => dict_set acc.2 xpath (lxml.attrib element)
     end)
  else acc.

(** The body of [extract_xpath_structure] once the document is parsed. *)
Definition extract_from_document (doc : lxml.element) : PageStructure :=
  let ea := foldl extract_element ([], []) (lxml.iter doc) in
  {| elements := Some ea.1;
     attributes := Some ea.2;
     tables :=
       Some (foldl (λ d table,
                      dict_set d (_get_element_xpath table)
                        (_extract_table_structure table))
                   [] (lxml.xpath_all "table" doc));
     forms :=
       Some (foldl (λ d form,
                      dict_set d (_get_element_xpath form)
                        (_extract_form_structure form))
                   [] (lxml.xpath_all "form" doc)) |}.

(** [extract_xpath_structure]: [except Exception] turns every failure of
    the [try] block into the empty dictionary. *)
Definition extract_xpath_structure (L : PyLib) (html_content : string)
  : result PageStructure :=
  try_except
    (match html_fromstring L html_content with
     | Returned doc => Returned (extract_from_document doc)
     | Raised e => Raised e
     end)
    (λ _, Returned empty_structure).

(* ===================================================================== *)
(** ** Reading a table *)
(* ===================================================================== *)

(** The number of proper descendants of [e] with a tag among [names],
    counted along the tree. *)
Fixpoint count_tags (names : list string) (e : lxml.element) : nat :=
  match e with
  | lxml.Element _ _ _ _ _ cs =>
      list_sum
        (map (λ c, (if lxml.tag_in names c then 1 else 0)
                   + count_tags names c) cs)
  | lxml.Comment _ _ _ => 0
  end.

(** The row [_extract_table_structure] takes its columns from. *)
Definition first_row (table : lxml.element) : option lxml.element :=
  head (lxml.xpath_descendants ["tr"] table).

(** The cells that are children of a row. *)
Definition cell_children (row : lxml.element) : list lxml.element :=
  List.filter (lxml.tag_in ["td"; "th"]) (lxml.children row).

(** No child of the row has a cell below it. *)
Definition cells_are_flat (row : lxml.element) : Prop :=
  Forall (λ c, count_tags ["td"; "th"] c = 0) (lxml.children row).

(** The rows of the table's own body: the [tr] children of the table and
    of its [tbody] children. *)
Definition body_rows (table : lxml.element) : list lxml.element :=
  flat_map
    (λ c, if bool_decide (lxml.tag c = "tr") then [c]
          else if bool_decide (lxml.tag c = "tbody")
          then List.filter (lxml.tag_in ["tr"]) (lxml.children c)
          else [])
    (lxml.children table).

(** The counts as the specification words them: the number of body rows,
    and the number of cell children of the first row, [0] without rows. *)
Definition spec_row_count (table : lxml.element) : nat :=
  length (body_rows table).

Definition spec_column_count (table : lxml.element) : nat :=
  match first_row table with
  | Some row => length (cell_children row)
  | None => 0
  end.

(** No white space at the front. *)
Definition starts_clean (s : string) : Prop :=
  match s with
  | EmptyString => True
  | String c _ => py_isspace c = false
  end.

(** A string that [strip] leaves as it is. *)
Definition is_trimmed (s : string) : Prop := py_strip s = s.

(* ===================================================================== *)
(** ** DiffEngine *)
(* ===================================================================== *)

Section DiffEngine.

Context (L : PyLib).

(** [_compare_elements]. In the loops over the keys of a dictionary the
    subscript [d[xpath]] finds its key, so the [None] branches are dead. *)
Definition _compare_elements
    (old_elements new_elements : dict ElementSnapshot) (timestamp : Z)
  : list ChangeDetails :=
  (* Find removed elements *)
  flat_map
    (λ xpath,
       if negb (dict_mem new_elements xpath) then
         match dict_get old_elements xpath with
         | Some e =>
             [mkChangeDetails element_removed xpath
                (Some (str_element L e)) None (tag e) timestamp]
         | None => []
         end
       else [])
    (dict_keys old_elements)
  (* Find added elements *)
  ++ flat_map
    (λ xpath,
       if negb (dict_mem old_elements xpath) then
         match dict_get new_elements xpath with
         | Some e =>
             [mkChangeDetails element_added xpath
                None (Some (str_element L e)) (tag e) timestamp]
         | None => []
         end
       else [])
    (dict_keys new_elements)
  (* Find modified elements *)
  ++ flat_map
    (λ xpath,
       if dict_mem new_elements xpath then
         match dict_get old_elements xpath, dict_get new_elements xpath with
         | Some old_elem, Some new_elem =>
             if bool_decide (text old_elem ≠ text new_elem) then
               [mkChangeDetails element_text_changed xpath
                  (Some (text old_elem)) (Some (text new_elem))
                  (tag old_elem) timestamp]
             else []
         | _, _ => []
         end
       else [])
    (dict_keys old_elements).

(** [_compare_attributes] *)
Definition _compare_attributes
    (old_attrs new_attrs : dict (dict string)) (timestamp : Z)
  : list ChangeDetails :=
  let all_xpaths := py_set_union (dict_keys old_attrs) (dict_keys new_attrs) in
  flat_map
    (λ xpath,
       let old_attr := default [] (dict_get old_attrs xpath) in
       let new_attr := default [] (dict_get new_attrs xpath) in
       let all_attr_names :=
         py_set_union (dict_keys old_attr) (dict_keys new_attr) in
       flat_map
         (λ attr_name,
            let old_value := dict_get old_attr attr_name in
            let new_value := dict_get new_attr attr_name in
            if bool_decide (old_value ≠ new_value) then
              let change_type :=
                match old_value, new_value with
                | None, _ => attribute_added
                | Some _, None => attribute_removed
                | Some _, Some _ => attribute_modified
                end in
              [mkChangeDetails change_type (xpath +:+ "/@" +:+ attr_name)
                 old_value new_value "attribute" timestamp]
            else [])
         (py_set_iter all_attr_names))
    (py_set_iter all_xpaths).

(** [_compare_tables] *)
Definition _compare_tables
    (old_tables new_tables : dict TableSnapshot) (timestamp : Z)
  : list ChangeDetails :=
  (* Find removed tables *)
  flat_map
    (λ xpath,
       if negb (dict_mem new_tables xpath) then
         match dict_get old_tables xpath with
         | Some t =>
             [mkChangeDetails table_removed xpath
                (Some (str_table L t)) None "table" timestamp]
         | None => []
         end
       else [])
    (dict_keys old_tables)
  (* Find added tables *)
  ++ flat_map
    (λ xpath,
       if negb (dict_mem old_tables xpath) then
         match dict_get new_tables xpath with
         | Some t =>
             [mkChangeDetails table_added xpath
                None (Some (str_table L t)) "table" timestamp]
         | None => []
         end
       else [])
    (dict_keys new_tables)
  (* Find modified tables *)
  ++ flat_map
    (λ xpath,
       if dict_mem new_tables xpath then
         match dict_get old_tables xpath, dict_get new_tables xpath with
         | Some old_table, Some new_table =>
             (* Compare headers *)
             (if bool_decide (headers old_table ≠ headers new_table) then
                [mkChangeDetails table_headers_changed xpath
                   (Some (str_headers L (headers old_table)))
                   (Some (str_headers L (headers new_table)))
                   "table" timestamp]
              else [])
             (* Compare column count *)
             ++ (if bool_decide
                      (column_count old_table ≠ column_count new_table) then
                   [mkChangeDetails table_columns_changed xpath
                      (Some (str_int L (column_count old_table)))
                      (Some (str_int L (column_count new_table)))
                      "table" timestamp]
                 else [])
         | _, _ => []
         end
       else [])
    (dict_keys old_tables).

(** [_compare_forms]. A path of the union is a key on one side at least;
    were it on neither, the first branch would print [str(None)]. *)
Definition _compare_forms
    (old_forms new_forms : dict FormSnapshot) (timestamp : Z)
  : list ChangeDetails :=
  let all_xpaths := py_set_union (dict_keys old_forms) (dict_keys new_forms) in
  flat_map
    (λ xpath,
       match dict_get old_forms xpath, dict_get new_forms xpath with
       | None, new_form =>
           [mkChangeDetails form_added xpath None
              (Some (from_option (str_form L) "None" new_form))
              "form" timestamp]
       | Some old_form, None =>
           [mkChangeDetails form_removed xpath
              (Some (str_form L old_form)) None "form" timestamp]
       | Some old_form, Some new_form =>
           (* Compare form inputs *)
           let old_inputs := inputs old_form in
           let new_inputs := inputs new_form in
           if bool_decide (length old_inputs ≠ length new_inputs)
              || bool_decide (old_inputs ≠ new_inputs) then
             [mkChangeDetails form_inputs_changed xpath
                (Some (str_inputs L old_inputs))
                (Some (str_inputs L new_inputs)) "form" timestamp]
           else []
       end)
    (py_set_iter all_xpaths).

(** [compare_structures]; [current_time] is what [datetime.now()] reads. *)
Definition compare_structures
    (old_structure new_structure : PageStructure) (current_time : Z)
  : list ChangeDetails :=
  _compare_elements
    (default [] (elements old_structure))
    (default [] (elements new_structure)) current_time
  ++ _compare_attributes
    (default [] (attributes old_structure))
    (default [] (attributes new_structure)) current_time
  ++ _compare_tables
    (default [] (tables old_structure))
    (default [] (tables new_structure)) current_time
  ++ _compare_forms
    (default [] (forms old_structure))
    (default [] (forms new_structure)) current_time.

End DiffEngine.

(* ===================================================================== *)
(** ** Reading a changeset *)
(* ===================================================================== *)

(** The change types that report a path present on one side only. *)
Definition is_presence_change (ct : ChangeType) : bool :=
  match ct with
  | element_removed | element_added
  | attribute_added | attribute_removed
  | table_removed | table_added
  | form_added | form_removed => true
  | _ => false
  end.

(** Added for removed and back; the other types stay. *)
Definition swap_change_type (ct : ChangeType) : ChangeType :=
  match ct with
  | element_removed => element_added
  | element_added => element_removed
  | attribute_added => attribute_removed
  | attribute_removed => attribute_added
  | table_removed => table_added
  | table_added => table_removed
  | form_added => form_removed
  | form_removed => form_added
  | ct => ct
  end.

(** A change as the opposite diff reports it: [change_type] swapped, and
    [old_value] and [new_value] exchanged. *)
Definition swap_change (c : ChangeDetails) : ChangeDetails :=
  {| change_type := swap_change_type (change_type c);
     xpath := xpath c;
     old_value := new_value c;
     new_value := old_value c;
     element_type := element_type c;
     timestamp := timestamp c |}.

(** A change as a diff run at another time stamps it. *)
Definition with_timestamp (t : Z) (c : ChangeDetails) : ChangeDetails :=
  {| change_type := change_type c;
     xpath := xpath c;
     old_value := old_value c;
     new_value := new_value c;
     element_type := element_type c;
     timestamp := t |}.

(** The xpaths a changeset flags with a given change type. *)
Definition flagged (ct : ChangeType) (changes : list ChangeDetails)
  : list string :=
  xpath <$> List.filter (λ c, bool_decide (change_type c = ct)) changes.

(** The change types [_compare_tables] emits. *)
Definition is_table_change (ct : ChangeType) : bool :=
  match ct with
  | table_removed | table_added
  | table_headers_changed | table_columns_changed => true
  | _ => false
  end.

(* ===================================================================== *)
(** ** DatabaseManager *)
(* ===================================================================== *)

(** A row of [scan_history]. *)
Record ScanRow : Type := mkScanRow {
  sh_id : nat;
  sh_url : string;
  sh_scan_time : Z;
  sh_html_hash : string;
  sh_xpath_structure : string;
  sh_changes_detected : nat
}.

(** A row of [detected_changes]. *)
Record ChangeRow : Type := mkChangeRow {
  dc_id : nat;
  dc_scan_id : nat;
  dc_change_type : string;
  dc_xpath : string;
  dc_old_value : option string;
  dc_new_value : option string;
  dc_element_type : string;
  dc_detection_time : Z
}.

(** The two tables, rows in insertion order. *)
Record Database : Type := mkDatabase {
  scan_history : list ScanRow;
  detected_changes : list ChangeRow
}.

(** What the outside world answers during one scan. *)
Record World : Type := mkWorld {
  (** [session.get(url, timeout=30)] followed by [raise_for_status()] and
      [.text] *)
  session_get : string → result string;
  (** the clock, read by [datetime.now()] and [CURRENT_TIMESTAMP] *)
  clock : Z;
  (** does SQLite raise during [get_last_scan]? *)
  sqlite_read_fails : bool;
  (** does SQLite raise during [save_scan_result], before the commit? *)
  sqlite_write_fails : bool
}.

(** The keys of the configuration dictionary that [scan_url] reads.
    [email_enabled] decides whether [email_notifier] is set; a missing
    ['recipients'] is the empty list. *)
Record Config : Type := mkConfig {
  email_enabled : bool;
  recipients : list string;
  generate_diff : bool
}.

(** The calls [scan_url] makes to its collaborators, in order. *)
Inductive event : Type :=
| ev_fetch_page (url : string)
| ev_extract_xpath_structure (html_content : string)
| ev_get_last_scan (url : string)
| ev_compare_structures (old_structure : json_value)
                        (new_structure : PageStructure)
| ev_send_alert (recipient url : string) (changes : list ChangeDetails)
                (html_diff : string)
| ev_save_scan_result (url html_hash xpath_structure : string)
                      (changes : list ChangeDetails).

Definition is_send_alert (e : event) : bool :=
  match e with ev_send_alert _ _ _ _ => true | _ => false end.
Definition is_save_scan_result (e : event) : bool :=
  match e with ev_save_scan_result _ _ _ _ => true | _ => false end.
Definition is_compare_structures (e : event) : bool :=
  match e with ev_compare_structures _ _ => true | _ => false end.

(** The state a scan runs in: the database and the calls made so far. *)
Record state : Type := mkState {
  db : Database;
  trace : list event
}.

(** State and exceptions: a computation ends by returning or by raising,
    and leaves the state it reached either way. *)
Definition M (A : Type) : Type := state → result A * state.

Definition ret {A} (a : A) : M A := λ s, (Returned a, s).
Definition raise {A} (e : exn) : M A := λ s, (Raised e, s).
Definition bind {A B} (m : M A) (k : A → M B) : M B :=
  λ s, match m s with
       | (Returned a, s') => k a s'
       | (Raised e, s') => (Raised e, s')
       end.
Definition lift {A} (r : result A) : M A := λ s, (r, s).
Definition emit (e : event) : M unit :=
  λ s, (Returned tt, mkState (db s) (trace s ++ [e])).
Definition get_db : M Database := λ s, (Returned (db s), s).
Definition put_db (d : Database) : M unit :=
  λ s, (Returned tt, mkState d (trace s)).

(** [try: body  except exception_class: handler] *)
Definition try_catch {A} (body : M A) (catches : exn → bool)
    (handler : exn → M A) : M A :=
  λ s, match body s with
       | (Returned a, s') => (Returned a, s')
       | (Raised e, s') =>
           if catches e then handler e s' else (Raised e, s')
       end.

#[global] Instance M_ret : MRet M := @ret.
#[global] Instance M_bind : MBind M := λ A B k m, bind m k.

(** [for x in xs: body(x)] *)
Fixpoint for_each {A} (xs : list A) (body : A → M unit) : M unit :=
  match xs with
  | [] => ret tt
  | x :: xs' => body x;; for_each xs' body
  end.

(** [cursor.lastrowid] of an insert into an [AUTOINCREMENT] table from
    which nothing is ever deleted: one more than the largest id. *)
Definition next_id (ids : list nat) : nat := S (foldr Nat.max 0 ids).

(** [ORDER BY scan_time DESC LIMIT 1] over the rows of one URL. Among rows
    of equal [scan_time] ([CURRENT_TIMESTAMP] counts in seconds) SQLite
    answers the one it meets first, which is the one inserted first. *)
Definition latest_row (rows : list ScanRow) (url : string) : option ScanRow :=
  foldl
    (λ best r,
       if bool_decide (sh_url r = url) then
         match best with
         | Some b =>
             if (sh_scan_time b <? sh_scan_time r)%Z then Some r else Some b
         | None => Some r
         end
       else best)
    None rows.

(** [DatabaseManager.get_last_scan] *)
Definition get_last_scan (W : World) (url : string)
  : M (option (string * string)) :=
  (emit (ev_get_last_scan url);;
   if sqlite_read_fails W then raise sqlite3_Error else
   d ← get_db;
   ret ((λ r, (sh_html_hash r, sh_xpath_structure r))
          <$> latest_row (scan_history d) url)).

(** The rows [save_scan_result] inserts into [detected_changes]. *)
Fixpoint change_rows (W : World) (scan_id first_id : nat)
    (changes : list ChangeDetails) : list ChangeRow :=
  match changes with
  | [] => []
  | change :: rest =>
      mkChangeRow first_id scan_id
        (change_type_literal (change_type change)) (xpath change)
        (old_value change) (new_value change) (element_type change)
        (clock W)
      :: change_rows W scan_id (S first_id) rest
  end.

(** [DatabaseManager.save_scan_result]. Nothing is visible before
    [conn.commit()], so a failure leaves the database as it was. *)
Definition save_scan_result (W : World)
    (url html_hash xpath_structure : string) (changes : list ChangeDetails)
  : M nat :=
  (emit (ev_save_scan_result url html_hash xpath_structure changes);;
   if sqlite_write_fails W then raise sqlite3_Error else
   d ← get_db;
   let scan_id := next_id (sh_id <$> scan_history d) in
   put_db
     (mkDatabase
        (scan_history d
         ++ [mkScanRow scan_id url (clock W) html_hash xpath_structure
               (length changes)])
        (detected_changes d
         ++ change_rows W scan_id (next_id (dc_id <$> detected_changes d))
              changes));;
   ret scan_id).

(* ===================================================================== *)
(** ** ScanOrchestrator *)
(* ===================================================================== *)

Section ScanOrchestrator.

Context (L : PyLib) (W : World) (config : Config).

(** [fetch_page]: [except requests.RequestException] gives [None]. *)
Definition fetch_page (url : string) : M (option string) :=
  (emit (ev_fetch_page url);;
   match session_get W url with
   | Returned response_text => ret (Some response_text)
   | Raised RequestException => ret None
   | Raised e => raise e
   end).

(** [EmailNotifier.send_alert]: its own [except Exception] keeps every
    failure of the delivery inside, so the call always returns. *)
Definition send_alert (recipient url : string)
    (changes : list ChangeDetails) (html_diff : string) : M unit :=
  emit (ev_send_alert recipient url changes html_diff).

(** [self.compare_structures(last_structure, current_structure)] on what
    [json.loads] returned. The call is made whatever the value is; on one
    that is not a dictionary it fails at its first [.get]. *)
Definition call_compare_structures (last_structure : json_value)
    (current_structure : PageStructure) : M (list ChangeDetails) :=
  emit (ev_compare_structures last_structure current_structure);;
  match last_structure with
  | json_structure old =>
      ret (compare_structures L old current_structure (clock W))
  | json_not_object => raise AttributeError
  end.

(** The [try] block of [scan_url]. *)
Definition diff_and_notify (url last_structure_json : string)
    (current_structure : PageStructure) : M (list ChangeDetails) :=
  (last_structure ← lift (json_loads L last_structure_json);
   changes ← call_compare_structures last_structure current_structure;
   match changes with
   | _ :: _ =>
       let html_diff :=
         if generate_diff config
         then "HTML diff generation requires storing full HTML content"
         else "" in
       (if email_enabled config && bool_decide (recipients config ≠ [])
        then for_each (recipients config)
               (λ recipient, send_alert recipient url changes html_diff)
        else ret tt);;
       ret changes
   | [] => ret changes
   end).

(** The [if last_scan:] statement of [scan_url], which leaves the
    changeset in [changes]; [changes = []] is its value where no branch
    assigns it. *)
Definition detect_changes (url current_hash : string)
    (current_structure : PageStructure)
    (last_scan : option (string * string)) : M (list ChangeDetails) :=
  match last_scan with
  | Some (last_hash, last_structure_json) =>
      (* Check if content changed *)
      if bool_decide (current_hash ≠ last_hash) then
        try_catch
          (diff_and_notify url last_structure_json current_structure)
          (λ e, bool_decide (e = JSONDecodeError))
          (λ _, ret [])
      else ret []
  | None => ret []
  end.

(** [scan_url] *)
Definition scan_url (url : string) : M bool :=
  (* Fetch current HTML *)
  current_html ← fetch_page url;
  match current_html with
  | None => ret false
  | Some current_html =>
      if negb (py_truthy current_html) then ret false else
      (* Generate hash and structure *)
      let current_hash := md5_hexdigest L current_html in
      emit (ev_extract_xpath_structure current_html);;
      current_structure ← lift (extract_xpath_structure L current_html);
      (* Get last scan data *)
      last_scan ← get_last_scan W url;
      changes ← detect_changes url current_hash current_structure last_scan;
      (* Save current scan result *)
      xpath_structure ← lift (py_json_dumps L current_structure);
      save_scan_result W url current_hash xpath_structure changes;;
      ret (0 <? length changes)%nat
  end.

End ScanOrchestrator.

(** One scan against a database: the outcome and the state it leaves. *)
Definition run_scan (L : PyLib) (W : World) (config : Config)
    (d : Database) (url : string) : result bool * state :=
  scan_url L W config url (mkState d []).

(** Does the [try] block of [scan_url] come back, by returning or through
    its handler? It does when there is no earlier scan of the URL, when the
    hashes agree, and when [json.loads] hands back a dictionary or raises
    [JSONDecodeError]. *)
Definition diff_stage_returns (L : PyLib) (d : Database)
    (url current_html : string) : bool :=
  match latest_row (scan_history d) url with
  | None => true
  | Some r =>
      if bool_decide (md5_hexdigest L current_html ≠ sh_html_hash r) then
        match json_loads L (sh_xpath_structure r) with
        | Returned (json_structure _) => true
        | Returned json_not_object => false
        | Raised e => bool_decide (e = JSONDecodeError)
        end
      else true
  end.

(** Can [json.dumps] serialise the structure of the page? (The extraction
    always returns; see [extract_xpath_structure].) *)
Definition page_serialisable (L : PyLib) (current_html : string) : bool :=
  match extract_xpath_structure L current_html with
  | Returned current_structure => structure_serialisable current_structure
  | Raised _ => false
  end.

(** The changeset of a scan whose diff stage comes back: the diff of the
    stored structure against the current one when the last record of the URL
    has another hash and reads as a structure dictionary, and the empty list
    in every other case. *)
Definition changeset_against_prior (L : PyLib) (W : World) (d : Database)
    (url current_html : string) (current_structure : PageStructure)
  : list ChangeDetails :=
  match latest_row (scan_history d) url with
  | Some r =>
      if bool_decide (md5_hexdigest L current_html ≠ sh_html_hash r) then
        match json_loads L (sh_xpath_structure r) with
        | Returned (json_structure old) =>
            compare_structures L old current_structure (clock W)
        | _ => []
        end
      else []
  | None => []
  end.

(** The names of the calls in a trace. *)
Definition event_name (e : event) : string :=
  match e with
  | ev_fetch_page _ => "fetch_page"
  | ev_extract_xpath_structure _ => "extract_xpath_structure"
  | ev_get_last_scan _ => "get_last_scan"
  | ev_compare_structures _ _ => "compare_structures"
  | ev_send_alert _ _ _ _ => "send_alert"
  | ev_save_scan_result _ _ _ _ => "save_scan_result"
  end.

(* ===================================================================== *)
(** ** A concrete setting for the examples *)
(* ===================================================================== *)

Module Demo.

Definition url : string := "https://example.com".

(** A page lxml cannot parse (it holds no markup at all), and two it can. *)
Definition page_blank : string := " ".
Definition page_hello : string := "<html><body><p>Hello</p></body></html>".
Definition page_goodbye : string :=
  "<html><body><p>Goodbye</p></body></html>".

Definition leaf (tag : string) (text : option string) (path : string)
  : lxml.element :=
  lxml.Element tag [] text None (Some path) [].

Definition doc_of (p_text : string) : lxml.element :=
  lxml.Element "html" [] None None (Some "/html")
    [lxml.Element "body" [] None None (Some "/html/body")
       [leaf "p" (Some p_text) "/html/body/p"]].

Definition structure_hello : PageStructure :=
  extract_from_document (doc_of "Hello").

(** [str] and [json.dumps] written out for the values of the examples,
    whose strings need no escaping: [q] is the quote, ['] for [str] and the
    double quote for JSON. *)
Definition double_quote : string := String (Ascii.ascii_of_nat 34) "".

Definition quoted (q s : string) : string := q +:+ s +:+ q.

Definition render_dict {V} (q : string) (render : V → string) (d : dict V)
  : string :=
  "{" +:+ String.concat ", "
            (map (λ kv : string * V, quoted q kv.1 +:+ ": " +:+ render kv.2) d)
      +:+ "}".

Definition render_list {V} (render : V → string) (l : list V) : string :=
  "[" +:+ String.concat ", " (map render l) +:+ "]".

Definition render_element (q : string) (e : ElementSnapshot) : string :=
  render_dict q id
    [("tag", quoted q (tag e)); ("text", quoted q (text e));
     ("tail", quoted q (tail e))].

Definition render_table (q : string) (t : TableSnapshot) : string :=
  render_dict q id
    [("headers", render_list (quoted q) (headers t));
     ("row_count", pretty (row_count t));
     ("column_count", pretty (column_count t))].

Definition render_input (q : string) (i : InputInfo) : string :=
  render_dict q id
    [("type", quoted q (input_type i)); ("name", quoted q (input_name i));
     ("id", quoted q (input_id i)); ("class", quoted q (input_class i))].

Definition render_form (q : string) (f : FormSnapshot) : string :=
  render_dict q id
    [("action", quoted q (action f)); ("method", quoted q (method f));
     ("inputs", render_list (render_input q) (inputs f))].

Definition render_structure (q : string) (s : PageStructure) : string :=
  render_dict q id
    (from_option
       (λ d, [("elements", render_dict q (render_element q) d)])
       [] (elements s)
     ++ from_option
       (λ d, [("attributes", render_dict q (render_dict q (quoted q)) d)])
       [] (attributes s)
     ++ from_option
       (λ d, [("tables", render_dict q (render_table q) d)])
       [] (tables s)
     ++ from_option
       (λ d, [("forms", render_dict q (render_form q) d)])
       [] (forms s)).

Definition hash_blank : string := "7215ee9c7d9dc229d2921a40e899ec5f".
Definition hash_hello : string := "8af93763d19bce5c89c7aa08cbec1391".
Definition hash_goodbye : string := "c7a9379056d248a091004892f251b8c1".
Definition hash_empty : string := "d41d8cd98f00b204e9800998ecf8427e".

Definition json_hello : string :=
  Eval vm_compute in render_structure double_quote structure_hello.

(** The library. The parser, the hash and [json.loads] are tabulated on the
    inputs the examples use. *)
Definition lib : PyLib :=
  {| html_fromstring := λ s,
       if bool_decide (s = page_hello) then Returned (doc_of "Hello")
       else if bool_decide (s = page_goodbye) then Returned (doc_of "Goodbye")
       else Raised ParserError;
     md5_hexdigest := λ s,
       if bool_decide (s = page_blank) then hash_blank
       else if bool_decide (s = page_hello) then hash_hello
       else if bool_decide (s = page_goodbye) then hash_goodbye
       else hash_empty;
     json_dumps := render_structure double_quote;
     json_loads := λ s,
       if bool_decide (s = "{}") then Returned (json_structure empty_structure)
       else if bool_decide (s = json_hello)
       then Returned (json_structure structure_hello)
       else if bool_decide (s = "[]") then Returned json_not_object
       else Raised JSONDecodeError;
     str_element := render_element "'";
     str_table := render_table "'";
     str_form := render_form "'";
     str_headers := render_list (quoted "'");
     str_int := pretty;
     str_inputs := render_list (render_input "'") |}.

(** A world that serves [page] and in which SQLite works. *)
Definition world (page : string) : World :=
  {| session_get := λ _, Returned page;
     clock := 1700000000;
     sqlite_read_fails := false;
     sqlite_write_fails := false |}.

(** The same, with a store that fails on writing. *)
Definition world_store_down (page : string) : World :=
  {| session_get := λ _, Returned page;
     clock := 1700000000;
     sqlite_read_fails := false;
     sqlite_write_fails := true |}.

(** A world in which the fetch fails. *)
Definition world_offline : World :=
  {| session_get := λ _, Raised RequestException;
     clock := 1700000000;
     sqlite_read_fails := false;
     sqlite_write_fails := false |}.

Definition config_quiet : Config := mkConfig false [] false.
Definition config_mail : Config := mkConfig true ["ops@example.com"] true.

Definition db_empty : Database := mkDatabase [] [].

(** One earlier scan of [url] whose page did not parse. *)
Definition db_after_blank : Database :=
  mkDatabase [mkScanRow 1 url 1699990000 hash_blank "{}" 0] [].

(** One earlier scan whose stored structure is cut off after its first
    character. *)
Definition row_corrupt : ScanRow :=
  mkScanRow 1 url 1699990000 hash_blank "{" 0.
Definition db_corrupt : Database := mkDatabase [row_corrupt] [].

(** One earlier scan whose stored structure reads as a JSON list. *)
Definition db_not_object : Database :=
  mkDatabase [mkScanRow 1 url 1699990000 hash_blank "[]" 0] [].

(** One earlier scan of [page_hello]. *)
Definition row_hello : ScanRow :=
  mkScanRow 1 url 1699990000 hash_hello json_hello 0.
Definition db_after_hello : Database := mkDatabase [row_hello] [].

(** A table whose only row holds a nested table:
    [<table><tr><td>a<table><tr><td>b</td></tr></table></td></tr></table>] *)
Definition nested_row : lxml.element :=
  lxml.Element "tr" [] None None (Some "/html/body/table/tr")
    [lxml.Element "td" [] (Some "a") None (Some "/html/body/table/tr/td")
       [lxml.Element "table" [] None None
          (Some "/html/body/table/tr/td/table")
          [lxml.Element "tr" [] None None
             (Some "/html/body/table/tr/td/table/tr")
             [leaf "td" (Some "b") "/html/body/table/tr/td/table/tr/td"]]]].

Definition nested_table : lxml.element :=
  lxml.Element "table" [] None None (Some "/html/body/table") [nested_row].

(** A table with a header section and one body row:
    [<table><thead><tr><th> Name </th><td>Age</td><th> </th></tr></thead>
     <tbody><tr><td>Ann</td><td>7</td></tr></tbody></table>] *)
Definition header_row : lxml.element :=
  lxml.Element "tr" [] None None (Some "/html/body/table/thead/tr")
    [leaf "th" (Some " Name ") "/html/body/table/thead/tr/th[1]";
     leaf "td" (Some "Age") "/html/body/table/thead/tr/td";
     leaf "th" (Some " ") "/html/body/table/thead/tr/th[2]"].

Definition plain_table : lxml.element :=
  lxml.Element "table" [] None None (Some "/html/body/table")
    [lxml.Element "thead" [] None None (Some "/html/body/table/thead")
       [header_row];
     lxml.Element "tbody" [] None None (Some "/html/body/table/tbody")
       [lxml.Element "tr" [] None None (Some "/html/body/table/tbody/tr")
          [leaf "td" (Some "Ann") "/html/body/table/tbody/tr/td[1]";
           leaf "td" (Some "7") "/html/body/table/tbody/tr/td[2]"]]].

(** Two structures with the same table at [table_path], two rows in the
    one and five in the other; the first has a second table as well. *)
Definition table_path : string := "/html/body/table".
Definition other_table_path : string := "/html/body/div/table".

Definition structure_two_rows : PageStructure :=
  {| elements := Some [];
     attributes := Some [];
     tables :=
       Some [(table_path, mkTableSnapshot ["Name"; "Age"] 2 2);
             (other_table_path, mkTableSnapshot [] 1 1)];
     forms := Some [] |}.

Definition structure_five_rows : PageStructure :=
  {| elements := Some [];
     attributes := Some [];
     tables := Some [(table_path, mkTableSnapshot ["Name"; "Age"] 5 2)];
     forms := Some [] |}.

Definition other_table_removed : ChangeDetails :=
  mkChangeDetails table_removed other_table_path
    (Some "{'headers': [], 'row_count': 1, 'column_count': 1}") None
    "table" 0.

Definition paragraph_added : ChangeDetails :=
  mkChangeDetails element_added "/html/body/p" None
    (Some "{'tag': 'p', 'text': 'Hello', 'tail': ''}") "p" 0.

End Demo.

(* ===================================================================== *)
(** ** Reading a fingerprint *)
(* ===================================================================== *)

(** No white space at the end. *)
Definition ends_clean (s : string) : Prop := starts_clean (String.rev s).

(** What an element snapshot always satisfies: a tag, and text and tail
    within the bound of 100 characters and without leading white space. *)
Definition snapshot_in_bounds (e : ElementSnapshot) : Prop :=
  tag e ≠ ""
  ∧ (String.length (text e) ≤ 100)%nat
  ∧ (String.length (tail e) ≤ 100)%nat
  ∧ starts_clean (text e) ∧ starts_clean (tail e).

(** Two texts that are the same, or that share their first 100 characters,
    the first and the hundredth of them not being white space. *)
Definition same_up_to_bound (t1 t2 : option string) : Prop :=
  t1 = t2
  ∨ ∃ a x y, t1 = Some (a +:+ x) ∧ t2 = Some (a +:+ y)
             ∧ String.length a = 100 ∧ starts_clean a ∧ ends_clean a.

(** Two elements that differ at most in their text and tail beyond the
    bound. *)
Definition same_up_to_bound_element (e1 e2 : lxml.element) : Prop :=
  lxml.tag e1 = lxml.tag e2
  ∧ lxml.attrib e1 = lxml.attrib e2
  ∧ lxml.getpath e1 = lxml.getpath e2
  ∧ same_up_to_bound (lxml.text e1) (lxml.text e2)
  ∧ same_up_to_bound (lxml.tail e1) (lxml.tail e2).

(** Two dictionaries with the same keys. *)
Definition same_keys {V W} (d1 : dict V) (d2 : dict W) : Prop :=
  ∀ k, k ∈ dict_keys d1 ↔ k ∈ dict_keys d2.

(** What the four comparisons look at: the paths and the text of the
    elements; the value of every attribute of every path; the paths, the
    headers and the column count of the tables; the paths and the inputs of
    the forms. *)
Definition elements_agree (d1 d2 : dict ElementSnapshot) : Prop :=
  same_keys d1 d2
  ∧ ∀ k e1 e2, dict_get d1 k = Some e1 → dict_get d2 k = Some e2 →
               text e1 = text e2.

Definition attributes_agree (d1 d2 : dict (dict string)) : Prop :=
  ∀ p n, dict_get (default [] (dict_get d1 p)) n
         = dict_get (default [] (dict_get d2 p)) n.

Definition tables_agree (d1 d2 : dict TableSnapshot) : Prop :=
  same_keys d1 d2
  ∧ ∀ k t1 t2, dict_get d1 k = Some t1 → dict_get d2 k = Some t2 →
               headers t1 = headers t2 ∧ column_count t1 = column_count t2.

Definition forms_agree (d1 d2 : dict FormSnapshot) : Prop :=
  same_keys d1 d2
  ∧ ∀ k f1 f2, dict_get d1 k = Some f1 → dict_get d2 k = Some f2 →
               inputs f1 = inputs f2.

Definition structures_agree (A B : PageStructure) : Prop :=
  elements_agree (default [] (elements A)) (default [] (elements B))
  ∧ attributes_agree (default [] (attributes A)) (default [] (attributes B))
  ∧ tables_agree (default [] (tables A)) (default [] (tables B))
  ∧ forms_agree (default [] (forms A)) (default [] (forms B)).

(** The change types that report something new on the current side, and
    those that report something gone. *)
Definition is_addition (ct : ChangeType) : bool :=
  match ct with
  | element_added | attribute_added | table_added | form_added => true
  | _ => false
  end.

Definition is_removal (ct : ChangeType) : bool :=
  match ct with
  | element_removed | attribute_removed | table_removed | form_removed => true
  | _ => false
  end.

(** The change types each comparison emits. *)
Definition is_element_change (ct : ChangeType) : bool :=
  match ct with
  | element_removed | element_added | element_text_changed => true
  | _ => false
  end.

Definition is_attribute_change (ct : ChangeType) : bool :=
  match ct with
  | attribute_added | attribute_removed | attribute_modified => true
  | _ => false
  end.

Definition is_form_change (ct : ChangeType) : bool :=
  match ct with
  | form_added | form_removed | form_inputs_changed => true
  | _ => false
  end.

(* ===================================================================== *)
(** ** Reading the store *)
(* ===================================================================== *)

(** The database after a [save_scan_result] that commits. *)
Definition with_scan_record (W : World) (d : Database)
    (url html_hash xpath_structure : string) (changes : list ChangeDetails)
  : Database :=
  let scan_id := next_id (sh_id <$> scan_history d) in
  mkDatabase
    (scan_history d
     ++ [mkScanRow scan_id url (clock W) html_hash xpath_structure
           (length changes)])
    (detected_changes d
     ++ change_rows W scan_id (next_id (dc_id <$> detected_changes d))
          changes).

(** The rows of [detected_changes] that belong to a scan. *)
Definition changes_of_scan (d : Database) (scan_id : nat) : list ChangeRow :=
  List.filter (λ c, bool_decide (dc_scan_id c = scan_id)) (detected_changes d).

(** What the schema and the writer promise together: the ids of each table
    are unique, every change refers to a scan of [scan_history], and the
    [changes_detected] of a scan is the number of its rows in
    [detected_changes]. *)
Definition db_consistent (d : Database) : Prop :=
  NoDup (sh_id <$> scan_history d)
  ∧ NoDup (dc_id <$> detected_changes d)
  ∧ Forall (λ c, dc_scan_id c ∈ sh_id <$> scan_history d)
      (detected_changes d)
  ∧ Forall (λ r, sh_changes_detected r = length (changes_of_scan d (sh_id r)))
      (scan_history d).

(** The text [scan_url] hands to the notifier as [html_diff]. *)
Definition html_diff_of (config : Config) : string :=
  if generate_diff config
  then "HTML diff generation requires storing full HTML content"
  else "".

(** The alerts of a scan with the changeset [changes]: one for each
    recipient, in the order of the configuration, when the changeset is not
    empty and the notifier is set. *)
Definition alerts_of (config : Config) (url : string)
    (changes : list ChangeDetails) : list event :=
  match changes with
  | [] => []
  | _ :: _ =>
      if email_enabled config
      then map (λ r, ev_send_alert r url changes (html_diff_of config))
             (recipients config)
      else []
  end.

(** The calls every scan that reaches the database starts with. *)
Definition scan_prologue (url current_html : string) : list event :=
  [ev_fetch_page url; ev_extract_xpath_structure current_html;
   ev_get_last_scan url].

(** The calls of the diff stage: the comparison, when the last record of
    the URL has another hash and [json.loads] returns, and the alerts for
    its changeset. *)
Definition diff_calls (L : PyLib) (W : World) (config : Config)
    (d : Database) (url current_html : string)
    (current_structure : PageStructure) : list event :=
  match latest_row (scan_history d) url with
  | Some r =>
      if bool_decide (md5_hexdigest L current_html ≠ sh_html_hash r) then
        match json_loads L (sh_xpath_structure r) with
        | Returned last_structure =>
            ev_compare_structures last_structure current_structure
            :: alerts_of config url
                 (changeset_against_prior L W d url current_html
                    current_structure)
        | Raised _ => []
        end
      else []
  | None => []
  end.

(** What one scan leaves to the next: the tables stay consistent and
    keep their rows. *)
Definition store_extends (d d' : Database) : Prop :=
  (db_consistent d → db_consistent d')
  ∧ scan_history d `prefix_of` scan_history d'
  ∧ detected_changes d `prefix_of` detected_changes d'.

(* ===================================================================== *)
(** ** The monitoring loop *)
(* ===================================================================== *)

(** What [monitor_urls] does, scan by scan: a call of [scan_url], with the
    calls it made and how it ended, or a [time.sleep]. *)
Inductive monitor_event : Type :=
| mon_scan (url : string) (calls : list event) (outcome : result bool)
| mon_sleep (seconds : Z).

(** The state of the loop: the database, the number of scans made since
    the start, and what has happened so far. *)
Record monitor_state : Type := mkMonitorState {
  m_db : Database;
  m_scans : nat;
  m_log : list monitor_event
}.


(** The URLs scanned, in the order of the scans. *)
Definition scanned_urls (log : list monitor_event) : list string :=
  flat_map (λ e, match e with mon_scan url _ _ => [url] | mon_sleep _ => [] end)
    log.

Section Monitor.

(** The world changes from scan to scan: [worlds n] is the one that the
    scan number [n] of the run meets. *)
Context (L : PyLib) (config : Config) (worlds : nat → World).

(** [self.scan_url(url)], seen from the loop. *)
Definition monitored_scan (url : string) (s : monitor_state)
  : result bool * monitor_state :=
  let out := run_scan L (worlds (m_scans s)) config (m_db s) url in
  (out.1,
   mkMonitorState (db out.2) (S (m_scans s))
     (m_log s ++ [mon_scan url (trace out.2) out.1])).

(** [time.sleep(seconds)] with [seconds] not below zero. *)
Definition sleep (seconds : Z) (s : monitor_state) : monitor_state :=
  mkMonitorState (m_db s) (m_scans s) (m_log s ++ [mon_sleep seconds]).

(** [for url in urls: self.scan_url(url); time.sleep(5)] *)
Fixpoint scan_each (urls : list string) (s : monitor_state)
  : result unit * monitor_state :=
  match urls with
  | [] => (Returned tt, s)
  | url :: rest =>
      match monitored_scan url s with
      | (Returned _, s') => scan_each rest (sleep 5 s')
      | (Raised e, s') => (Raised e, s')
      end
  end.

(** One pass of the body of [while True]. Every exception of the model is
    an [Exception], so the second handler takes each of them; so it does
    with the [ValueError] that [time.sleep] raises on a negative
    interval. *)
Definition monitor_cycle (urls : list string) (interval : Z)
    (s : monitor_state) : monitor_state :=
  match scan_each urls s with
  | (Returned _, s') =>
      if (interval <? 0)%Z then sleep 60 s' else sleep interval s'
  | (Raised _, s') => sleep 60 s'
  end.

(** [monitor_urls], observed for a number of passes. The loop has no exit
    of its own: it ends on [KeyboardInterrupt] only. *)
Fixpoint monitor_urls (cycles : nat) (urls : list string) (interval : Z)
    (s : monitor_state) : monitor_state :=
  match cycles with
  | O => s
  | S n => monitor_urls n urls interval (monitor_cycle urls interval s)
  end.

End Monitor.

(* ===================================================================== *)
(** ** The configuration object of [config.py] *)
(* ===================================================================== *)

(** [s.split(sep)] for a separator of one character: the pieces between
    the separators, of which there is always one at least. *)
Fixpoint py_split (sep : Ascii.ascii) (s : string) : list string :=
  match s with
  | EmptyString => [EmptyString]
  | String c s' =>
      if decide (c = sep) then EmptyString :: py_split sep s'
      else match py_split sep s' with
           | piece :: pieces => String c piece :: pieces
           | [] => [String c EmptyString]
           end
  end.

(** The separator of the keys of a setting: ['.'] *)
Definition full_stop : Ascii.ascii := Ascii.ascii_of_nat 46.

Module ConfigFile.

#[local] Set Warnings "-register-all".

(** A value of the configuration: a dictionary, or anything else (a
    string, a number, a boolean, [None], a list, or an object that is no
    JSON). Of the latter the code asks only whether it is a dictionary;
    subscripting it with a string, or testing a string for membership and
    then subscripting, raises [TypeError] whichever it is. *)
Inductive value (V : Type) : Type :=
| other (v : V)
| dictionary (entries : dict (value V)).
Arguments other {V} v.
Arguments dictionary {V} entries.

(** Can [json.dump] write the value? *)
Class Serialisable (V : Type) : Type := json_serialisable : V → bool.

(** The object: [self.config], and the configuration that the file
    [self.config_file] holds ([None]: no file, or a file that holds no
    complete JSON text). The values come from [json.load], so no dictionary
    is shared between two places. *)
Record Config (V : Type) : Type := mkConfig {
  config : value V;
  config_file : option (value V)
}.
Arguments mkConfig {V} config config_file.
Arguments config {V} c.
Arguments config_file {V} c.

(** How a call of [update] ends. *)
Inductive outcome : Type :=
| Updated
| TypeError   (* a value on the way is not a dictionary, or [json.dump]
                 met a value that is no JSON *)
| OSError.    (* [open(self.config_file, 'w')] failed *)

#[global] Instance outcome_eq_dec : EqDecision outcome.
Proof. solve_decision. Defined.

Section Values.

Context {V : Type} `{Serialisable V}.

(** Can [json.dump] write the configuration? It can when it can write
    every value in it. *)
Fixpoint serialisable (v : value V) : bool :=
  match v with
  | other x => json_serialisable x
  | dictionary d =>
      (fix all (d : dict (value V)) : bool :=
         match d with
         | [] => true
         | (_, v') :: d' => serialisable v' && all d'
         end) d
  end.

(** The loop of [get]: one [value = value[k]] for each key, [default] at
    the first key that is missing or asked of something that is not a
    dictionary. *)
Fixpoint get_from (v : value V) (keys : list string) (default : value V)
  : value V :=
  match keys with
  | [] => v
  | k :: keys' =>
      match v with
      | dictionary d =>
          if dict_mem d k then
            match dict_get d k with
            | Some v' => get_from v' keys' default
            | None => default
            end
          else default
      | other _ => default
      end
  end.

(** [Config.get] *)
Definition get (self : Config V) (key : string) (default : value V)
  : value V :=
  get_from (config self) (py_split full_stop key) default.

(** The loop of [update] over [keys[:-1]] and the assignment that follows
    it, on the dictionary [c] that [config] refers to. The answer says
    whether the assignment was reached ([false]: [TypeError]) and what [c]
    holds afterwards: the dictionaries are changed in place, so what the
    loop has created stays when a later step raises. *)
Fixpoint assign_at (c : value V) (path : list string) (last_key : string)
    (v : V) : bool * value V :=
  match path with
  | [] =>
      match c with
      | dictionary d => (true, dictionary (dict_set d last_key (other v)))
      | other _ => (false, c)
      end
  | k :: path' =>
      match c with
      | dictionary d =>
          let d1 :=
            if negb (dict_mem d k) then dict_set d k (dictionary []) else d in
          match dict_get d1 k with
          | Some sub =>
              let r := assign_at sub path' last_key v in
              (r.1, dictionary (dict_set d1 k r.2))
          | None => (false, dictionary d1)
          end
      | other _ => (false, c)
      end
  end.

(** [Config.update] with a value that is not a dictionary. [save_config]
    comes last, when [self.config] has been changed already: it opens the
    file for writing, which empties it, and [json.dump] writes the
    configuration piece by piece, up to the first value that is no JSON. *)
Definition update (open_fails : bool) (self : Config V) (key : string)
    (v : V) : outcome * Config V :=
  let keys := py_split full_stop key in
  let r := assign_at (config self) (removelast keys) (List.last keys "") v in
  if r.1 then
    if open_fails then (OSError, mkConfig r.2 (config_file self))
    else if serialisable r.2 then (Updated, mkConfig r.2 (Some r.2))
    else (TypeError, mkConfig r.2 None)
  else (TypeError, mkConfig r.2 (config_file self)).

(** The value at the end of a path of keys, when every key is there. *)
Fixpoint at_path (v : value V) (keys : list string) : option (value V) :=
  match keys with
  | [] => Some v
  | k :: keys' =>
      match v with
      | dictionary d =>
          match dict_get d k with
          | Some v' => at_path v' keys'
          | None => None
          end
      | other _ => None
      end
  end.

(** The path runs into a value that is not a dictionary. *)
Definition blocked (c : value V) (path : list string) : Prop :=
  ∃ pre x, pre `prefix_of` path ∧ at_path c pre = Some (other x).

(** Two paths that part at some key. *)
Definition parts_from (p q : list string) : Prop :=
  ∃ common a b p' q',
    p = common ++ a :: p' ∧ q = common ++ b :: q' ∧ a ≠ b.

End Values.

End ConfigFile.

(* ===================================================================== *)
(** ** Further examples *)
(* ===================================================================== *)

Module Cases.

(** A page with a link and the document lxml makes of it; the link may
    point elsewhere. *)
Definition page_link : string :=
  "<html><body><a href='/start'>Start</a></body></html>".

Definition link_path : string := "/html/body/a".

Definition doc_link (target : string) : lxml.element :=
  lxml.Element "html" [] None None (Some "/html")
    [lxml.Element "body" [] None None (Some "/html/body")
       [lxml.Element "a" [("href", target)] (Some "Start") None
          (Some link_path) []]].

Definition structure_link (target : string) : PageStructure :=
  extract_from_document (doc_link target).

Definition structure_goodbye : PageStructure :=
  extract_from_document (Demo.doc_of "Goodbye").

(** A page with a comment, and the document lxml makes of it. *)
Definition page_comment : string :=
  "<html><body><!-- note --><p>Hello</p></body></html>".

Definition hash_comment : string := "39016fab285c667117df513f81526164".

Definition comment_path : string := "/html/body/comment()".

Definition doc_comment : lxml.element :=
  lxml.Element "html" [] None None (Some "/html")
    [lxml.Element "body" [] None None (Some "/html/body")
       [lxml.Comment (Some " note ") None (Some comment_path);
        Demo.leaf "p" (Some "Hello") "/html/body/p"]].

Definition structure_comment : PageStructure :=
  extract_from_document doc_comment.

(** The library of the examples, which parses [page_link] and
    [page_comment] as well. *)
Definition lib : PyLib :=
  {| html_fromstring := λ s,
       if bool_decide (s = page_link) then Returned (doc_link "/start")
       else if bool_decide (s = page_comment) then Returned doc_comment
       else html_fromstring Demo.lib s;
     md5_hexdigest := λ s,
       if bool_decide (s = page_link) then "164eec998ea6a979f8d6c6457f902e8b"
       else if bool_decide (s = page_comment) then hash_comment
       else md5_hexdigest Demo.lib s;
     json_dumps := json_dumps Demo.lib;
     json_loads := json_loads Demo.lib;
     str_element := str_element Demo.lib;
     str_table := str_table Demo.lib;
     str_form := str_form Demo.lib;
     str_headers := str_headers Demo.lib;
     str_int := str_int Demo.lib;
     str_inputs := str_inputs Demo.lib |}.

Definition link_moved : ChangeDetails :=
  mkChangeDetails attribute_modified "/html/body/a/@href"
    (Some "/start") (Some "/moved") "attribute" 0.

Definition text_changed : ChangeDetails :=
  mkChangeDetails element_text_changed "/html/body/p"
    (Some "Hello") (Some "Goodbye") "p" 0.

(** A text of 100 characters, and a page whose paragraph starts with it. *)
Definition hundred : string :=
  Eval vm_compute in String.concat "" (List.repeat "0123456789" 10).

Definition doc_long (rest : string) : lxml.element :=
  Demo.doc_of (hundred +:+ rest).

(** A world that serves [page] at the time [time], and one in which SQLite
    cannot be read. *)
Definition world_at (page : string) (time : Z) : World :=
  {| session_get := λ _, Returned page;
     clock := time;
     sqlite_read_fails := false;
     sqlite_write_fails := false |}.

Definition world_read_down : World :=
  {| session_get := λ _, Returned Demo.page_hello;
     clock := 1700000000;
     sqlite_read_fails := true;
     sqlite_write_fails := false |}.

Definition later : Z := 1700003600.

(** One earlier record of [Demo.url] with the hash of [page_comment]. *)
Definition row_same_hash : ScanRow :=
  mkScanRow 1 Demo.url 1699990000 hash_comment "{}" 0.
Definition db_same_hash : Database := mkDatabase [row_same_hash] [].

(** Two structures with the same table, two rows in the one and five in
    the other, whose table element has another text. *)
Definition table_before : PageStructure :=
  {| elements :=
       Some [(Demo.table_path, mkElementSnapshot "table" "Prices" "")];
     attributes := Some [];
     tables :=
       Some [(Demo.table_path, mkTableSnapshot ["Name"; "Age"] 2 2)];
     forms := Some [] |}.

Definition table_after : PageStructure :=
  {| elements :=
       Some [(Demo.table_path, mkElementSnapshot "table" "Rates" "")];
     attributes := Some [];
     tables :=
       Some [(Demo.table_path, mkTableSnapshot ["Name"; "Age"] 5 2)];
     forms := Some [] |}.

Definition table_text_changed : ChangeDetails :=
  mkChangeDetails element_text_changed Demo.table_path
    (Some "Prices") (Some "Rates") "table" 0.

(** One earlier scan of another URL. *)
Definition db_other : Database :=
  mkDatabase
    [mkScanRow 1 "https://example.org" 1699990000 Demo.hash_blank "{}" 0] [].

(** Three URLs to monitor; the second scan of the run cannot read the
    database. *)
Definition url_a : string := "https://example.com/a".
Definition url_b : string := "https://example.com/b".
Definition url_c : string := "https://example.com/c".

Definition worlds_second_fails (n : nat) : World :=
  if bool_decide (n = 1) then world_read_down
  else Demo.world Demo.page_hello.

Definition monitor_start : monitor_state := mkMonitorState Demo.db_empty 0 [].

(** A run that starts on a database whose only row holds a JSON list as
    stored structure, in a world that always serves [Demo.page_hello]. *)
Definition worlds_hello (n : nat) : World := Demo.world Demo.page_hello.

Definition monitor_poisoned : monitor_state :=
  mkMonitorState Demo.db_not_object 0 [].

(** The settings of the examples are strings, which JSON can hold, or
    Python sets, which it cannot. *)
Inductive setting : Type :=
| text (s : string)
| python_set (items : list string).

#[global] Instance setting_serialisable : ConfigFile.Serialisable setting :=
  λ v, match v with text _ => true | python_set _ => false end.

#[global] Instance string_serialisable : ConfigFile.Serialisable string :=
  λ _, true.

(** A configuration with one section. *)
Definition settings : ConfigFile.Config string :=
  ConfigFile.mkConfig
    (ConfigFile.dictionary
       [("email",
         ConfigFile.dictionary [("enabled", ConfigFile.other "false")]);
        ("scan_interval", ConfigFile.other "3600")])
    None.

(** A configuration that its file holds as well. *)
Definition settings_on_file : ConfigFile.Config setting :=
  ConfigFile.mkConfig
    (ConfigFile.dictionary
       [("scan_interval", ConfigFile.other (text "3600"))])
    (Some
       (ConfigFile.dictionary
          [("scan_interval", ConfigFile.other (text "3600"))])).

End Cases.

(* ===================================================================== *)
(** * Properties *)
(* ===================================================================== *)

(** ** Dictionaries, sets and loops *)

Lemma dict_mem_true {V} (d : dict V) (k : string) :
  dict_mem d k = true ↔ k ∈ dict_keys d.
Proof. unfold dict_mem. apply bool_decide_eq_true. Qed.

Lemma dict_mem_false {V} (d : dict V) (k : string) :
  dict_mem d k = false ↔ k ∉ dict_keys d.
Proof. unfold dict_mem. apply bool_decide_eq_false. Qed.

Lemma dict_get_None {V} (d : dict V) (k : string) :
  dict_get d k = None ↔ k ∉ dict_keys d.
Proof.
  unfold dict_keys. induction d as [|[k' v] d IH]; simpl.
  - split; [intros _; apply not_elem_of_nil | done].
  - rewrite not_elem_of_cons. destruct (decide (k' = k)) as [->|Hne].
    + split; [done | intros [? _]; done].
    + rewrite IH. split; [intros ?; split; [congruence | done] | tauto].
Qed.

(** The subscript [d[k]] inside [for k in d] cannot raise [KeyError]. *)
Lemma dict_get_is_Some {V} (d : dict V) (k : string) :
  k ∈ dict_keys d ↔ is_Some (dict_get d k).
Proof.
  rewrite <- not_eq_None_Some, dict_get_None.
  split; [tauto | apply dec_stable].
Qed.

Lemma dict_get_Some_key {V} (d : dict V) (k : string) (v : V) :
  dict_get d k = Some v → k ∈ dict_keys d.
Proof. intros H. apply dict_get_is_Some. by exists v. Qed.

Lemma elem_of_flat_map {A B} (f : A → list B) (l : list A) (b : B) :
  b ∈ flat_map f l ↔ ∃ a, a ∈ l ∧ b ∈ f a.
Proof.
  rewrite list_elem_of_In, in_flat_map.
  by setoid_rewrite list_elem_of_In.
Qed.

Lemma flat_map_nil {A B} (f : A → list B) (l : list A) :
  (∀ a, a ∈ l → f a = []) → flat_map f l = [].
Proof.
  induction l as [|a l IH]; intros H; simpl; [done |].
  rewrite (H a) by apply list_elem_of_here.
  apply IH. intros a' Ha'. apply H. by apply list_elem_of_further.
Qed.

Lemma elem_of_py_set_union (a b : list string) (x : string) :
  x ∈ py_set_iter (py_set_union a b) ↔ x ∈ a ∨ x ∈ b.
Proof.
  unfold py_set_iter, py_set_union.
  by rewrite elem_of_elements, elem_of_union, !elem_of_list_to_set.
Qed.

Lemma py_set_union_comm (a b : list string) :
  py_set_union a b = py_set_union b a.
Proof. unfold py_set_union. apply (comm_L (∪)). Qed.

(** ** DiffEngine: a structure against itself *)

Section DiffSelf.

Context (L : PyLib) (t : Z).

Lemma compare_elements_self (d : dict ElementSnapshot) :
  _compare_elements L d d t = [].
Proof.
  unfold _compare_elements.
  rewrite !flat_map_nil; [done | | |]; intros x Hx.
  - apply dict_mem_true in Hx as ->.
    destruct (dict_get d x); [| done].
    by rewrite bool_decide_eq_false_2 by (intros ?; done).
  - by apply dict_mem_true in Hx as ->.
  - by apply dict_mem_true in Hx as ->.
Qed.

Lemma compare_attributes_self (d : dict (dict string)) :
  _compare_attributes d d t = [].
Proof.
  unfold _compare_attributes.
  apply flat_map_nil; intros x _. apply flat_map_nil; intros a _.
  by rewrite bool_decide_eq_false_2 by (intros ?; done).
Qed.

Lemma compare_tables_self (d : dict TableSnapshot) :
  _compare_tables L d d t = [].
Proof.
  unfold _compare_tables.
  rewrite !flat_map_nil; [done | | |]; intros x Hx.
  - apply dict_mem_true in Hx as ->.
    destruct (dict_get d x); [| done].
    by rewrite !bool_decide_eq_false_2 by (intros ?; done).
  - by apply dict_mem_true in Hx as ->.
  - by apply dict_mem_true in Hx as ->.
Qed.

Lemma compare_forms_self (d : dict FormSnapshot) :
  _compare_forms L d d t = [].
Proof.
  unfold _compare_forms.
  apply flat_map_nil; intros x Hx.
  apply elem_of_py_set_union in Hx.
  assert (is_Some (dict_get d x)) as [f ->]
    by (apply dict_get_is_Some; tauto).
  by rewrite !bool_decide_eq_false_2 by (intros ?; done).
Qed.

End DiffSelf.

(** C6. Diffing a page structure against itself yields no change:
    [compare_structures(A, A) = []] for every structure [A], whatever the
    clock reads. *)
Theorem compare_structures_self (L : PyLib) (A : PageStructure) (t : Z) :
  compare_structures L A A t = [].
Proof.
  unfold compare_structures.
  by rewrite compare_elements_self, compare_attributes_self,
    compare_tables_self, compare_forms_self.
Qed.

(** ** DiffEngine: the two directions of a diff *)

Lemma swap_change_involutive (c : ChangeDetails) :
  swap_change (swap_change c) = c.
Proof. destruct c as [[] ? ? ? ? ?]; reflexivity. Qed.

Lemma is_presence_change_swap (ct : ChangeType) :
  is_presence_change (swap_change_type ct) = is_presence_change ct.
Proof. by destruct ct. Qed.

(** Opens the conditionals of a loop body around a membership. *)
Ltac open_body H :=
  repeat (first
    [ apply elem_of_nil in H; destruct H
    | apply list_elem_of_singleton in H; subst
    | apply elem_of_app in H as [H | H]
    | case_match; simpl in H ]).

Section DiffSwap.

Context (L : PyLib) (t : Z).

Lemma compare_elements_swap (d1 d2 : dict ElementSnapshot) c :
  is_presence_change (change_type c) = true →
  c ∈ _compare_elements L d1 d2 t →
  swap_change c ∈ _compare_elements L d2 d1 t.
Proof.
  unfold _compare_elements. rewrite !elem_of_app, !elem_of_flat_map.
  intros Hp [(x & Hx & Hc) | [(x & Hx & Hc) | (x & Hx & Hc)]].
  - right; left. exists x. split; [done |]. cbv beta in Hc |- *.
    destruct (dict_mem d2 x) eqn:Hm; simpl in Hc; [by apply elem_of_nil in Hc |].
    destruct (dict_get d1 x) eqn:Hg; [| by apply elem_of_nil in Hc].
    apply list_elem_of_singleton in Hc as ->.
    simpl. apply list_elem_of_here.
  - left. exists x. split; [done |]. cbv beta in Hc |- *.
    destruct (dict_mem d1 x) eqn:Hm; simpl in Hc; [by apply elem_of_nil in Hc |].
    destruct (dict_get d2 x) eqn:Hg; [| by apply elem_of_nil in Hc].
    apply list_elem_of_singleton in Hc as ->.
    simpl. apply list_elem_of_here.
  - cbv beta in Hc. open_body Hc. discriminate Hp.
Qed.

Lemma compare_attributes_swap (d1 d2 : dict (dict string)) c :
  is_presence_change (change_type c) = true →
  c ∈ _compare_attributes d1 d2 t →
  swap_change c ∈ _compare_attributes d2 d1 t.
Proof.
  unfold _compare_attributes. rewrite !elem_of_flat_map.
  intros Hp (x & Hx & Hc). cbv beta zeta in Hc.
  apply elem_of_flat_map in Hc as (a & Ha & Hc).
  exists x. split; [by rewrite py_set_union_comm |]. cbv beta zeta.
  apply elem_of_flat_map.
  exists a. split; [by rewrite py_set_union_comm |]. cbv beta zeta in Hc |- *.
  destruct (dict_get (default [] (dict_get d1 x)) a) as [v1|] eqn:H1,
    (dict_get (default [] (dict_get d2 x)) a) as [v2|] eqn:H2;
    simpl in Hc.
  - open_body Hc. discriminate Hp.
  - apply list_elem_of_singleton in Hc as ->. apply list_elem_of_here.
  - apply list_elem_of_singleton in Hc as ->. apply list_elem_of_here.
  - by apply elem_of_nil in Hc.
Qed.

Lemma compare_tables_swap (d1 d2 : dict TableSnapshot) c :
  is_presence_change (change_type c) = true →
  c ∈ _compare_tables L d1 d2 t →
  swap_change c ∈ _compare_tables L d2 d1 t.
Proof.
  unfold _compare_tables. rewrite !elem_of_app, !elem_of_flat_map.
  intros Hp [(x & Hx & Hc) | [(x & Hx & Hc) | (x & Hx & Hc)]].
  - right; left. exists x. split; [done |]. cbv beta in Hc |- *.
    destruct (dict_mem d2 x) eqn:Hm; simpl in Hc; [by apply elem_of_nil in Hc |].
    destruct (dict_get d1 x) eqn:Hg; [| by apply elem_of_nil in Hc].
    apply list_elem_of_singleton in Hc as ->.
    simpl. apply list_elem_of_here.
  - left. exists x. split; [done |]. cbv beta in Hc |- *.
    destruct (dict_mem d1 x) eqn:Hm; simpl in Hc; [by apply elem_of_nil in Hc |].
    destruct (dict_get d2 x) eqn:Hg; [| by apply elem_of_nil in Hc].
    apply list_elem_of_singleton in Hc as ->.
    simpl. apply list_elem_of_here.
  - cbv beta in Hc. open_body Hc; discriminate Hp.
Qed.

Lemma compare_forms_swap (d1 d2 : dict FormSnapshot) c :
  is_presence_change (change_type c) = true →
  c ∈ _compare_forms L d1 d2 t →
  swap_change c ∈ _compare_forms L d2 d1 t.
Proof.
  unfold _compare_forms. rewrite !elem_of_flat_map.
  intros Hp (x & Hx & Hc).
  exists x. split; [by rewrite py_set_union_comm |].
  apply elem_of_py_set_union in Hx. cbv beta zeta in Hc |- *.
  destruct (dict_get d1 x) as [f1|] eqn:H1,
    (dict_get d2 x) as [f2|] eqn:H2; simpl in Hc.
  - open_body Hc. discriminate Hp.
  - apply list_elem_of_singleton in Hc as ->. apply list_elem_of_here.
  - apply list_elem_of_singleton in Hc as ->. apply list_elem_of_here.
  - apply dict_get_None in H1, H2. tauto.
Qed.

Lemma compare_structures_swap (A B : PageStructure) c :
  is_presence_change (change_type c) = true →
  c ∈ compare_structures L A B t →
  swap_change c ∈ compare_structures L B A t.
Proof.
  unfold compare_structures. rewrite !elem_of_app.
  intros Hp [H | [H | [H | H]]].
  - left. by apply compare_elements_swap.
  - right; left. by apply compare_attributes_swap.
  - right; right; left. by apply compare_tables_swap.
  - right; right; right. by apply compare_forms_swap.
Qed.

End DiffSwap.

Lemma elem_of_flagged (ct : ChangeType) (changes : list ChangeDetails) x :
  x ∈ flagged ct changes ↔ ∃ c, c ∈ changes ∧ change_type c = ct ∧ xpath c = x.
Proof.
  unfold flagged. rewrite list_elem_of_fmap. split.
  - intros (c & -> & Hc). apply list_elem_of_In, filter_In in Hc as [Hc Ht].
    apply bool_decide_eq_true in Ht. exists c. by rewrite list_elem_of_In.
  - intros (c & Hc & Ht & <-). exists c. split; [done |].
    apply list_elem_of_In, filter_In. rewrite <- list_elem_of_In.
    split; [done | by apply bool_decide_eq_true].
Qed.

(** ** DiffEngine: the clock only stamps the changes *)

Lemma map_flat_map {A B C} (g : B → C) (f : A → list B) (l : list A) :
  map g (flat_map f l) = flat_map (λ a, map g (f a)) l.
Proof.
  induction l as [|a l IH]; simpl; [done |]. by rewrite map_app, IH.
Qed.

Section DiffClock.

Context (L : PyLib) (t1 t2 : Z).

Lemma compare_elements_clock (d1 d2 : dict ElementSnapshot) :
  map (with_timestamp t2) (_compare_elements L d1 d2 t1)
  = _compare_elements L d1 d2 t2.
Proof.
  unfold _compare_elements. rewrite !map_app, !map_flat_map.
  f_equal; [| f_equal]; apply flat_map_ext; intros x;
    by repeat case_match.
Qed.

Lemma compare_attributes_clock (d1 d2 : dict (dict string)) :
  map (with_timestamp t2) (_compare_attributes d1 d2 t1)
  = _compare_attributes d1 d2 t2.
Proof.
  unfold _compare_attributes. rewrite map_flat_map.
  apply flat_map_ext; intros x. cbv zeta. rewrite map_flat_map.
  apply flat_map_ext; intros a. by repeat case_match.
Qed.

Lemma compare_tables_clock (d1 d2 : dict TableSnapshot) :
  map (with_timestamp t2) (_compare_tables L d1 d2 t1)
  = _compare_tables L d1 d2 t2.
Proof.
  unfold _compare_tables. rewrite !map_app, !map_flat_map.
  f_equal; [| f_equal]; apply flat_map_ext; intros x;
    repeat case_match; try done; rewrite map_app; by repeat case_match.
Qed.

Lemma compare_forms_clock (d1 d2 : dict FormSnapshot) :
  map (with_timestamp t2) (_compare_forms L d1 d2 t1)
  = _compare_forms L d1 d2 t2.
Proof.
  unfold _compare_forms. rewrite map_flat_map.
  apply flat_map_ext; intros x. by repeat case_match.
Qed.

Lemma compare_structures_clock (A B : PageStructure) :
  map (with_timestamp t2) (compare_structures L A B t1)
  = compare_structures L A B t2.
Proof.
  unfold compare_structures. rewrite !map_app.
  by rewrite compare_elements_clock, compare_attributes_clock,
    compare_tables_clock, compare_forms_clock.
Qed.

End DiffClock.

Lemma compare_structures_swap_clock (L : PyLib) (A B : PageStructure)
    (t1 t2 : Z) (c : ChangeDetails) :
  is_presence_change (change_type c) = true →
  c ∈ compare_structures L A B t1 →
  with_timestamp t2 (swap_change c) ∈ compare_structures L B A t2.
Proof.
  intros Hp Hc. rewrite <- (compare_structures_clock L t1 t2).
  apply list_elem_of_In, in_map, list_elem_of_In.
  by apply compare_structures_swap.
Qed.

(** C7. For two structures [A] and [B] and any two readings of the clock,
    a change of [compare_structures(A, B)] that reports a path present on
    one side only (an element, attribute, table or form added or removed)
    appears in [compare_structures(B, A)] with [change_type] swapped
    between added and removed and with [old_value] and [new_value]
    exchanged, and the other way round; hence the xpaths one diff flags as
    added are those the other flags as removed, and conversely. *)
Theorem compare_structures_symmetry (L : PyLib) (A B : PageStructure)
    (t1 t2 : Z) :
  (∀ c, is_presence_change (change_type c) = true →
        c ∈ compare_structures L A B t1 →
        with_timestamp t2 (swap_change c) ∈ compare_structures L B A t2)
  ∧ (∀ c, is_presence_change (change_type c) = true →
          c ∈ compare_structures L B A t2 →
          with_timestamp t1 (swap_change c) ∈ compare_structures L A B t1)
  ∧ (∀ ct x, is_presence_change ct = true →
             (x ∈ flagged ct (compare_structures L A B t1)
              ↔ x ∈ flagged (swap_change_type ct)
                     (compare_structures L B A t2))).
Proof.
  split; [intros c; apply compare_structures_swap_clock |].
  split; [intros c; apply compare_structures_swap_clock |].
  intros ct x Hp. rewrite !elem_of_flagged. split.
  - intros (c & Hc & <- & <-). exists (with_timestamp t2 (swap_change c)).
    split; [by apply (compare_structures_swap_clock L A B t1 t2) | done].
  - intros (c & Hc & Hct & <-). exists (with_timestamp t1 (swap_change c)).
    assert (is_presence_change (change_type c) = true) as Hp'.
    { by rewrite Hct, is_presence_change_swap. }
    split; [by apply (compare_structures_swap_clock L B A t2 t1) |].
    split; [| done]. simpl. rewrite Hct. by destruct ct.
Qed.

(** ** DiffEngine: tables present on both sides *)

Section DiffTables.

Context (L : PyLib) (t : Z).

Lemma compare_elements_not_table (d1 d2 : dict ElementSnapshot) c :
  c ∈ _compare_elements L d1 d2 t → is_table_change (change_type c) = false.
Proof.
  unfold _compare_elements. rewrite !elem_of_app, !elem_of_flat_map.
  intros [(x & Hx & Hc) | [(x & Hx & Hc) | (x & Hx & Hc)]];
    cbv beta in Hc; open_body Hc; reflexivity.
Qed.

Lemma compare_attributes_not_table (d1 d2 : dict (dict string)) c :
  c ∈ _compare_attributes d1 d2 t → is_table_change (change_type c) = false.
Proof.
  unfold _compare_attributes. rewrite !elem_of_flat_map.
  intros (x & Hx & Hc). cbv beta zeta in Hc.
  apply elem_of_flat_map in Hc as (a & Ha & Hc). cbv beta zeta in Hc.
  open_body Hc; simpl; by repeat case_match.
Qed.

Lemma compare_forms_not_table (d1 d2 : dict FormSnapshot) c :
  c ∈ _compare_forms L d1 d2 t → is_table_change (change_type c) = false.
Proof.
  unfold _compare_forms. rewrite !elem_of_flat_map.
  intros (x & Hx & Hc). cbv beta zeta in Hc.
  open_body Hc; reflexivity.
Qed.

(** With equal headers and equal column counts the table comparison says
    nothing about the path, whatever the row counts are. *)
Lemma compare_tables_ignores_rows (d1 d2 : dict TableSnapshot) p t1 t2 c :
  dict_get d1 p = Some t1 →
  dict_get d2 p = Some t2 →
  headers t1 = headers t2 →
  column_count t1 = column_count t2 →
  c ∈ _compare_tables L d1 d2 t → xpath c ≠ p.
Proof.
  intros H1 H2 Hh Hc. unfold _compare_tables.
  rewrite !elem_of_app, !elem_of_flat_map.
  pose proof (dict_get_Some_key _ _ _ H1) as K1.
  pose proof (dict_get_Some_key _ _ _ H2) as K2.
  apply dict_mem_true in K1, K2.
  intros [(x & Hx & Hin) | [(x & Hx & Hin) | (x & Hx & Hin)]];
    cbv beta in Hin; intros Hp.
  - destruct (dict_mem d2 x) eqn:Hm; simpl in Hin;
      [by apply elem_of_nil in Hin |].
    destruct (dict_get d1 x); [| by apply elem_of_nil in Hin].
    apply list_elem_of_singleton in Hin as ->. simpl in Hp. congruence.
  - destruct (dict_mem d1 x) eqn:Hm; simpl in Hin;
      [by apply elem_of_nil in Hin |].
    destruct (dict_get d2 x); [| by apply elem_of_nil in Hin].
    apply list_elem_of_singleton in Hin as ->. simpl in Hp. congruence.
  - destruct (decide (x = p)) as [-> | Hne].
    + rewrite K2, H1, H2 in Hin.
      rewrite !bool_decide_eq_false_2 in Hin by (intros ?; done).
      by apply elem_of_nil in Hin.
    + open_body Hin; simpl in *; congruence.
Qed.

End DiffTables.

(** C9 (as the code has it). For two structures and a table path present
    in both, if the two table snapshots at that path have equal headers and
    equal [column_count], then whatever their [row_count]s are the diff
    emits no table change for that path: [_compare_tables] emits nothing at
    the path, and no change of [compare_structures] at that path has a table
    change type. (A change of another kind may be reported at the path: the
    comparison of the elements reports a table element whose text has
    changed.) *)
Theorem row_count_not_diffed (L : PyLib) (A B : PageStructure) (t : Z)
    (p : string) (tA tB : TableSnapshot) :
  dict_get (default [] (tables A)) p = Some tA →
  dict_get (default [] (tables B)) p = Some tB →
  headers tA = headers tB →
  column_count tA = column_count tB →
  (∀ c, c ∈ _compare_tables L (default [] (tables A))
              (default [] (tables B)) t → xpath c ≠ p)
  ∧ (∀ c, c ∈ compare_structures L A B t → xpath c = p →
          is_table_change (change_type c) = false).
Proof.
  intros HA HB Hh Hc.
  assert (∀ c, c ∈ _compare_tables L (default [] (tables A))
                 (default [] (tables B)) t → xpath c ≠ p) as Hno.
  { intros c. by eapply compare_tables_ignores_rows. }
  split; [done |].
  intros c Hin Hp. unfold compare_structures in Hin.
  rewrite !elem_of_app in Hin. destruct Hin as [H | [H | [H | H]]].
  - by eapply compare_elements_not_table.
  - by eapply compare_attributes_not_table.
  - by apply Hno in H.
  - by eapply compare_forms_not_table.
Qed.

(** ** ScanOrchestrator *)

(** Runs the monadic code of a scan down to its matches. *)
Ltac run_M :=
  unfold run_scan, scan_url, fetch_page, get_last_scan, save_scan_result,
    detect_changes, diff_and_notify, call_compare_structures, send_alert,
    try_catch, lift, emit, get_db, put_db, ret, raise, mbind, M_bind, bind;
  simpl.

(** C10. When the fetch succeeds with an empty body, [scan_url] does what
    it does on a failed fetch: it returns [False] after the fetch alone,
    with no structure computed, no record written and no alert sent, and
    the outcome is the one of a scan whose fetch raised
    [RequestException]. *)
Theorem empty_body_is_fetch_failure (L : PyLib) (W W' : World)
    (config : Config) (d : Database) (url : string) :
  session_get W url = Returned "" →
  session_get W' url = Raised RequestException →
  run_scan L W config d url = (Returned false, mkState d [ev_fetch_page url])
  ∧ run_scan L W config d url = run_scan L W' config d url.
Proof.
  intros HW HW'. run_M. by rewrite HW, HW'.
Qed.

(** [extract_xpath_structure] never raises. *)
Lemma extract_xpath_structure_returns (L : PyLib) (html_content : string) :
  extract_xpath_structure L html_content
  = Returned
      match html_fromstring L html_content with
      | Returned doc => extract_from_document doc
      | Raised _ => empty_structure
      end.
Proof.
  unfold extract_xpath_structure, try_except.
  by destruct (html_fromstring L html_content).
Qed.

Lemma page_serialisable_structure (L : PyLib) (html_content : string)
    (s : PageStructure) :
  extract_xpath_structure L html_content = Returned s →
  page_serialisable L html_content = structure_serialisable s.
Proof. unfold page_serialisable. by intros ->. Qed.

(** The loop over the recipients appends one alert for each. *)
Lemma for_each_send_alert (rs : list string) (url : string)
    (changes : list ChangeDetails) (html_diff : string) (s : state) :
  for_each rs (λ recipient, send_alert recipient url changes html_diff) s
  = (Returned tt,
     mkState (db s)
       (trace s ++ map (λ r, ev_send_alert r url changes html_diff) rs)).
Proof.
  revert s. induction rs as [|r rs IH]; intros s; simpl.
  - unfold ret. rewrite app_nil_r. by destruct s.
  - unfold mbind, M_bind, bind, send_alert, emit. rewrite IH. simpl.
    by rewrite <- app_assoc.
Qed.

Lemma save_scan_result_commits (W : World)
    (url html_hash xpath_structure : string) (changes : list ChangeDetails)
    (s : state) :
  sqlite_write_fails W = false →
  save_scan_result W url html_hash xpath_structure changes s
  = (Returned (next_id (sh_id <$> scan_history (db s))),
     mkState
       (with_scan_record W (db s) url html_hash xpath_structure changes)
       (trace s
        ++ [ev_save_scan_result url html_hash xpath_structure changes])).
Proof.
  intros Hw.
  unfold save_scan_result, emit, raise, get_db, put_db, ret, mbind, M_bind,
    bind. simpl. by rewrite Hw.
Qed.

Lemma save_scan_result_fails (W : World)
    (url html_hash xpath_structure : string) (changes : list ChangeDetails)
    (s : state) :
  sqlite_write_fails W = true →
  save_scan_result W url html_hash xpath_structure changes s
  = (Raised sqlite3_Error,
     mkState (db s)
       (trace s
        ++ [ev_save_scan_result url html_hash xpath_structure changes])).
Proof.
  intros Hw.
  unfold save_scan_result, emit, raise, get_db, put_db, ret, mbind, M_bind,
    bind. simpl. by rewrite Hw.
Qed.

Lemma get_last_scan_reads (W : World) (url : string) (s : state) :
  sqlite_read_fails W = false →
  get_last_scan W url s
  = (Returned ((λ r, (sh_html_hash r, sh_xpath_structure r))
                 <$> latest_row (scan_history (db s)) url),
     mkState (db s) (trace s ++ [ev_get_last_scan url])).
Proof.
  intros Hr.
  unfold get_last_scan, emit, raise, get_db, ret, mbind, M_bind, bind.
  simpl. by rewrite Hr.
Qed.

(** *** The scan, step by step *)

(** What the [if last_scan:] statement does, case by case. *)
Lemma detect_changes_unfold (L : PyLib) (W : World) (config : Config)
    (url current_hash : string) (current_structure : PageStructure)
    (last_scan : option (string * string)) (s : state) :
  detect_changes L W config url current_hash current_structure last_scan s
  = match last_scan with
    | None => (Returned [], s)
    | Some (last_hash, last_structure_json) =>
        if bool_decide (current_hash ≠ last_hash) then
          match json_loads L last_structure_json with
          | Returned (json_structure old) =>
              let changes :=
                compare_structures L old current_structure (clock W) in
              (Returned changes,
               mkState (db s)
                 (trace s
                  ++ ev_compare_structures (json_structure old)
                       current_structure
                     :: alerts_of config url changes))
          | Returned json_not_object =>
              (Raised AttributeError,
               mkState (db s)
                 (trace s
                  ++ [ev_compare_structures json_not_object
                        current_structure]))
          | Raised e =>
              if bool_decide (e = JSONDecodeError) then (Returned [], s)
              else (Raised e, s)
          end
        else (Returned [], s)
    end.
Proof.
  unfold detect_changes.
  destruct last_scan as [[last_hash last_json]|]; [| done].
  case_bool_decide; [| done].
  unfold try_catch, diff_and_notify, call_compare_structures, lift, emit,
    raise, ret, mbind, M_bind, bind.
  destruct (json_loads L last_json) as [[old|]|e]; simpl; [| done |].
  - unfold alerts_of, html_diff_of.
    destruct (compare_structures L old current_structure (clock W))
      as [|c cs] eqn:Hc; simpl; [done |].
    destruct (email_enabled config) eqn:He; simpl.
    + case_bool_decide as Hrec; simpl.
      * rewrite for_each_send_alert. simpl. by rewrite <- app_assoc.
      * by rewrite Hrec.
    + done.
  - by case_bool_decide.
Qed.

(** The scan up to the diff stage, and from the diff stage on. *)
Lemma run_scan_unfold (L : PyLib) (W : World) (config : Config)
    (d : Database) (url : string) :
  run_scan L W config d url
  = match session_get W url with
    | Returned current_html =>
        if py_truthy current_html then
          let current_structure :=
            match html_fromstring L current_html with
            | Returned doc => extract_from_document doc
            | Raised _ => empty_structure
            end in
          if sqlite_read_fails W then
            (Raised sqlite3_Error, mkState d (scan_prologue url current_html))
          else
            match
              detect_changes L W config url (md5_hexdigest L current_html)
                current_structure
                ((λ r, (sh_html_hash r, sh_xpath_structure r))
                   <$> latest_row (scan_history d) url)
                (mkState d (scan_prologue url current_html))
            with
            | (Returned changes, s) =>
                if structure_serialisable current_structure then
                  match
                    save_scan_result W url (md5_hexdigest L current_html)
                      (json_dumps L current_structure) changes s
                  with
                  | (Returned _, s') =>
                      (Returned (0 <? length changes)%nat, s')
                  | (Raised e, s') => (Raised e, s')
                  end
                else (Raised TypeError, s)
            | (Raised e, s) => (Raised e, s)
            end
        else (Returned false, mkState d [ev_fetch_page url])
    | Raised RequestException => (Returned false, mkState d [ev_fetch_page url])
    | Raised e => (Raised e, mkState d [ev_fetch_page url])
    end.
Proof.
  unfold run_scan, scan_url, fetch_page, lift, emit, ret, raise, mbind,
    M_bind, bind. simpl.
  destruct (session_get W url) as [html|e]; simpl; [| by destruct e].
  destruct (py_truthy html); simpl; [| done].
  rewrite extract_xpath_structure_returns.
  unfold get_last_scan, emit, raise, get_db, ret, mbind, M_bind, bind. simpl.
  destruct (sqlite_read_fails W); simpl; [done |].
  unfold scan_prologue, py_json_dumps.
  destruct (detect_changes _ _ _ _ _ _ _ _) as [[changes|e] s']; [| done].
  destruct (structure_serialisable _); [| done].
  by destruct (save_scan_result _ _ _ _ _ _) as [[?|?] ?].
Qed.

(** The diff stage on the last record of the database. *)
Lemma detect_changes_on_database (L : PyLib) (W : World) (config : Config)
    (d : Database) (url current_html : string)
    (current_structure : PageStructure) (s : state) :
  ∃ outcome,
    detect_changes L W config url (md5_hexdigest L current_html)
      current_structure
      ((λ r, (sh_html_hash r, sh_xpath_structure r))
         <$> latest_row (scan_history (db s)) url) s
    = (outcome,
       mkState (db s)
         (trace s
          ++ diff_calls L W config (db s) url current_html
               current_structure))
    ∧ if diff_stage_returns L (db s) url current_html
      then outcome
           = Returned (changeset_against_prior L W (db s) url current_html
                         current_structure)
      else ∃ e, outcome = Raised e.
Proof.
  rewrite detect_changes_unfold.
  unfold diff_calls, diff_stage_returns, changeset_against_prior.
  assert (s = mkState (db s) (trace s ++ [])) as Hs
    by (rewrite app_nil_r; by destruct s).
  destruct (latest_row (scan_history (db s)) url) as [r|]; simpl;
    [| eexists; split; [by rewrite <- Hs | done]].
  case_bool_decide; [| eexists; split; [by rewrite <- Hs | done]].
  destruct (json_loads L (sh_xpath_structure r)) as [[old|]|e].
  - eexists. split; [reflexivity | done].
  - eexists. split; [reflexivity | by eexists].
  - case_bool_decide.
    + eexists. split; [by rewrite <- Hs | done].
    + eexists. split; [by rewrite <- Hs | by eexists].
Qed.

(** The calls of the diff stage hold no call of the store, and the alerts
    among them are the alerts for the changeset. *)
Lemma diff_calls_no_store (L : PyLib) (W : World) (config : Config)
    (d : Database) (url current_html : string)
    (current_structure : PageStructure) :
  Forall (λ e, is_save_scan_result e = false)
    (diff_calls L W config d url current_html current_structure).
Proof.
  unfold diff_calls, alerts_of.
  destruct (latest_row (scan_history d) url) as [r|]; [| done].
  case_bool_decide; [| done].
  destruct (json_loads L (sh_xpath_structure r)) as [last|e]; [| done].
  constructor; [done |].
  destruct (changeset_against_prior _ _ _ _ _ _); [done |].
  destruct (email_enabled config); [| done].
  induction (recipients config); by constructor.
Qed.

Lemma filter_alerts_of (config : Config) (url : string)
    (changes : list ChangeDetails) :
  List.filter is_send_alert (alerts_of config url changes)
  = alerts_of config url changes.
Proof.
  unfold alerts_of. destruct changes as [|c cs]; [done |].
  destruct (email_enabled config); [| done].
  induction (recipients config) as [|r rs IH]; simpl; [done |].
  by rewrite IH.
Qed.

Lemma diff_calls_alerts (L : PyLib) (W : World) (config : Config)
    (d : Database) (url current_html : string)
    (current_structure : PageStructure) :
  List.filter is_send_alert
    (diff_calls L W config d url current_html current_structure)
  = alerts_of config url
      (changeset_against_prior L W d url current_html current_structure).
Proof.
  unfold diff_calls, changeset_against_prior.
  destruct (latest_row (scan_history d) url) as [r|]; [| reflexivity].
  case_bool_decide; [| reflexivity].
  destruct (json_loads L (sh_xpath_structure r)) as [last|e];
    [| reflexivity].
  cbn [List.filter is_send_alert]. apply filter_alerts_of.
Qed.

(** Without a diff there is no call in the diff stage. *)
Lemma diff_calls_nil (L : PyLib) (W : World) (config : Config)
    (d : Database) (url current_html : string)
    (current_structure : PageStructure) :
  List.filter is_compare_structures
    (diff_calls L W config d url current_html current_structure) = [] →
  diff_calls L W config d url current_html current_structure = [].
Proof.
  unfold diff_calls.
  destruct (latest_row (scan_history d) url) as [r|]; [| done].
  case_bool_decide; [| done].
  by destruct (json_loads L (sh_xpath_structure r)).
Qed.

(** A scan whose fetch and read succeed, from the diff stage on: when the
    diff stage comes back, the scan ends with [TypeError] from [json.dumps],
    the store not called, or with the error of the store, or with its
    record written. *)
Lemma run_scan_after_diff (L : PyLib) (W : World) (config : Config)
    (d : Database) (url current_html : string)
    (current_structure : PageStructure) :
  session_get W url = Returned current_html →
  py_truthy current_html = true →
  sqlite_read_fails W = false →
  extract_xpath_structure L current_html = Returned current_structure →
  let changes :=
    changeset_against_prior L W d url current_html current_structure in
  let calls :=
    scan_prologue url current_html
    ++ diff_calls L W config d url current_html current_structure in
  let record :=
    ev_save_scan_result url (md5_hexdigest L current_html)
      (json_dumps L current_structure) changes in
  if diff_stage_returns L d url current_html then
    run_scan L W config d url
    = if structure_serialisable current_structure then
        if sqlite_write_fails W
        then (Raised sqlite3_Error, mkState d (calls ++ [record]))
        else (Returned (0 <? length changes)%nat,
              mkState
                (with_scan_record W d url (md5_hexdigest L current_html)
                   (json_dumps L current_structure) changes)
                (calls ++ [record]))
      else (Raised TypeError, mkState d calls)
  else ∃ e, run_scan L W config d url = (Raised e, mkState d calls).
Proof.
  intros Hf Ht Hr Hcs. cbv zeta.
  rewrite extract_xpath_structure_returns in Hcs. injection Hcs as Hcs.
  rewrite run_scan_unfold, Hf, Ht. cbv zeta. rewrite Hr, Hcs.
  destruct (detect_changes_on_database L W config d url current_html
              current_structure (mkState d (scan_prologue url current_html)))
    as (outcome & Hdet & Hout).
  cbn [db trace] in Hdet, Hout. rewrite Hdet.
  destruct (diff_stage_returns L d url current_html).
  - rewrite Hout.
    destruct (structure_serialisable current_structure); [| done].
    destruct (sqlite_write_fails W) eqn:Hw.
    + by rewrite save_scan_result_fails.
    + by rewrite save_scan_result_commits.
  - destruct Hout as [e ->]. by exists e.
Qed.

(** Every execution of a scan is of one of two kinds. Either it ends
    before the current structure is serialised, with the database as it
    was, no alert sent and the store not called: it raises, or it returns
    [False] after a failed fetch or an empty body. Or its fetch and read
    succeed and its diff stage comes back, and [run_scan_after_diff] says
    how it ends. *)
Lemma run_scan_cases (L : PyLib) (W : World) (config : Config)
    (d : Database) (url : string) :
  (db (run_scan L W config d url).2 = d
   ∧ Forall (λ e, is_send_alert e = false ∧ is_save_scan_result e = false)
       (trace (run_scan L W config d url).2)
   ∧ ((∃ e, (run_scan L W config d url).1 = Raised e)
      ∨ (run_scan L W config d url).1 = Returned false
        ∧ (session_get W url = Raised RequestException
           ∨ session_get W url = Returned "")))
  ∨ ∃ html cs,
      session_get W url = Returned html
      ∧ py_truthy html = true
      ∧ sqlite_read_fails W = false
      ∧ extract_xpath_structure L html = Returned cs
      ∧ diff_stage_returns L d url html = true.
Proof.
  destruct (session_get W url) as [html|e] eqn:Hf.
  2:{ left. rewrite run_scan_unfold, Hf.
      destruct e; simpl; (split; [done |]);
        (split; [by repeat constructor |]);
        (right; split; [done | by left]) || (left; by eexists). }
  destruct (py_truthy html) eqn:Ht.
  2:{ left. rewrite run_scan_unfold, Hf, Ht. simpl. split; [done |].
      split; [by repeat constructor |].
      right. split; [done |]. right. by destruct html. }
  destruct (sqlite_read_fails W) eqn:Hr.
  { left. rewrite run_scan_unfold, Hf, Ht. cbv zeta. rewrite Hr. simpl.
    split; [done |]. split; [by repeat constructor |]. left. by eexists. }
  pose proof (run_scan_after_diff L W config d url html _ Hf Ht Hr
                (extract_xpath_structure_returns L html)) as Hrun.
  cbv zeta in Hrun.
  destruct (diff_stage_returns L d url html) eqn:Hd.
  - right. eexists _, _. repeat split; try done.
    apply extract_xpath_structure_returns.
  - left. destruct Hrun as [e ->]. cbn [fst snd db trace].
    split; [done |]. split; [| left; by eexists].
    apply Forall_app. split; [unfold scan_prologue; by repeat constructor |].
    unfold diff_calls, diff_stage_returns, changeset_against_prior in *.
    destruct (latest_row (scan_history d) url) as [r|]; [| done].
    case_bool_decide; [| done].
    destruct (json_loads L (sh_xpath_structure r)) as [[old|]|e'];
      [done | | done].
    by repeat constructor.
Qed.

(** What a scan leaves in the database: nothing, or its record. *)
Lemma run_scan_db (L : PyLib) (W : World) (config : Config)
    (d : Database) (url : string) :
  (db (run_scan L W config d url).2 = d
   ∧ ((∃ e, (run_scan L W config d url).1 = Raised e)
      ∨ (run_scan L W config d url).1 = Returned false
        ∧ (session_get W url = Raised RequestException
           ∨ session_get W url = Returned "")))
  ∨ ∃ html_hash xpath_structure changes,
      (run_scan L W config d url).1 = Returned (0 <? length changes)%nat
      ∧ db (run_scan L W config d url).2
        = with_scan_record W d url html_hash xpath_structure changes.
Proof.
  destruct (run_scan_cases L W config d url)
    as [(Hdb & _ & Hres) | (html & cs & Hf & Ht & Hr & Hcs & Hd)].
  - left. by split.
  - pose proof (run_scan_after_diff L W config d url html cs Hf Ht Hr Hcs)
      as Hrun.
    cbv zeta in Hrun. rewrite Hd in Hrun. rewrite Hrun.
    destruct (structure_serialisable cs);
      [destruct (sqlite_write_fails W) |]; cbn [fst snd db].
    + left. split; [done |]. left. by eexists.
    + right. by eexists _, _, _.
    + left. split; [done |]. left. by eexists.
Qed.

(** *** The claims about a scan *)


(** C4 (as the code has it). When an earlier record of the URL exists with
    another hash, the handler of the diff stage takes the [JSONDecodeError]
    of [json.loads] and nothing else. When [json.loads] raises it on the
    stored structure, whatever the stored text is, [compare_structures] is
    not called, no alert is sent and the changeset is empty; when the store
    works and [json.dumps] can serialise the current structure, exactly one
    record is written for it and [scan_url] returns [False]. When
    [json.loads] returns a value that is not an object, [compare_structures]
    is called on it and raises [AttributeError], which reaches the caller:
    no alert is sent and no record is written. *)
Theorem corrupt_stored_structure (L : PyLib) (W : World) (config : Config)
    (d : Database) (url current_html : string) (r : ScanRow) :
  session_get W url = Returned current_html →
  py_truthy current_html = true →
  sqlite_read_fails W = false →
  latest_row (scan_history d) url = Some r →
  sh_html_hash r ≠ md5_hexdigest L current_html →
  (json_loads L (sh_xpath_structure r) = Raised JSONDecodeError →
   sqlite_write_fails W = false →
   page_serialisable L current_html = true →
   ∃ current_structure,
     extract_xpath_structure L current_html = Returned current_structure
     ∧ (run_scan L W config d url).1 = Returned false
     ∧ List.filter is_compare_structures
         (trace (run_scan L W config d url).2) = []
     ∧ List.filter is_send_alert (trace (run_scan L W config d url).2) = []
     ∧ List.filter is_save_scan_result (trace (run_scan L W config d url).2)
       = [ev_save_scan_result url (md5_hexdigest L current_html)
            (json_dumps L current_structure) []]
     ∧ scan_history (db (run_scan L W config d url).2)
       = scan_history d
         ++ [mkScanRow (next_id (sh_id <$> scan_history d)) url (clock W)
               (md5_hexdigest L current_html)
               (json_dumps L current_structure) 0]
     ∧ detected_changes (db (run_scan L W config d url).2)
       = detected_changes d)
  ∧ (json_loads L (sh_xpath_structure r) = Returned json_not_object →
     ∃ current_structure,
       extract_xpath_structure L current_html = Returned current_structure
       ∧ (run_scan L W config d url).1 = Raised AttributeError
       ∧ db (run_scan L W config d url).2 = d
       ∧ List.filter is_compare_structures
           (trace (run_scan L W config d url).2)
         = [ev_compare_structures json_not_object current_structure]
       ∧ List.filter is_send_alert (trace (run_scan L W config d url).2) = []
       ∧ List.filter is_save_scan_result
           (trace (run_scan L W config d url).2) = []).
Proof.
  intros Hf Ht Hr Hl Hh. split.
  - intros Hj Hw Hser.
    eexists. split; [apply extract_xpath_structure_returns |].
    pose proof (run_scan_after_diff L W config d url current_html _ Hf Ht Hr
                  (extract_xpath_structure_returns L current_html)) as Hrun.
    cbv zeta in Hrun.
    rewrite (page_serialisable_structure L current_html _
               (extract_xpath_structure_returns L current_html)) in Hser.
    unfold diff_stage_returns, diff_calls, changeset_against_prior in Hrun.
    rewrite Hl in Hrun.
    rewrite bool_decide_eq_true_2 in Hrun by (intros Heq; by apply Hh).
    rewrite Hj, Hser, Hw, app_nil_r in Hrun.
    rewrite bool_decide_eq_true_2 in Hrun by done. rewrite Hrun.
    cbn [fst snd db trace]. unfold with_scan_record.
    cbn [scan_history detected_changes change_rows length].
    rewrite ?List.filter_app. cbn [scan_prologue List.filter
      is_compare_structures is_send_alert is_save_scan_result app].
    repeat split; try done; by rewrite app_nil_r.
  - intros Hj.
    eexists. split; [apply extract_xpath_structure_returns |].
    rewrite run_scan_unfold, Hf, Ht. cbv zeta. rewrite Hr.
    rewrite detect_changes_unfold, Hl. cbn [fmap option_fmap option_map].
    rewrite bool_decide_eq_true_2 by (intros Heq; by apply Hh).
    by rewrite Hj.
Qed.

(** The calls of a scan: [save_scan_result] is made at most once, and
    nothing follows it. *)
Lemma run_scan_trace_shape (L : PyLib) (W : World) (config : Config)
    (d : Database) (url : string) :
  ∃ pre,
    Forall (λ e, is_save_scan_result e = false) pre
    ∧ (trace (run_scan L W config d url).2 = pre
       ∨ ∃ sv, trace (run_scan L W config d url).2 = pre ++ [sv]
               ∧ is_save_scan_result sv = true).
Proof.
  destruct (run_scan_cases L W config d url)
    as [(_ & Hno & _) | (html & cs & Hf & Ht & Hr & Hcs & Hd)].
  - eexists. split; [| by left].
    eapply Forall_impl; [exact Hno |]. by intros e [_ He].
  - pose proof (run_scan_after_diff L W config d url html cs Hf Ht Hr Hcs)
      as Hrun.
    cbv zeta in Hrun. rewrite Hd in Hrun. rewrite Hrun.
    exists (scan_prologue url html ++ diff_calls L W config d url html cs).
    split.
    { apply Forall_app. split; [unfold scan_prologue; by repeat constructor |].
      apply diff_calls_no_store. }
    destruct (structure_serialisable cs);
      [destruct (sqlite_write_fails W) |]; cbn [snd trace].
    + right. by eexists.
    + right. by eexists.
    + by left.
Qed.

(** C2 (as the code has it). In every execution of [scan_url], the call of
    [save_scan_result], when there is one, is the last call of the scan and
    the only call of the store, and each call of [send_alert] comes before
    it: the alerts go out in the diff stage and the record is written
    afterwards. *)
Theorem alerts_precede_persistence (L : PyLib) (W : World) (config : Config)
    (d : Database) (url : string) (j : nat) (ej : event) :
  trace (run_scan L W config d url).2 !! j = Some ej →
  is_save_scan_result ej = true →
  S j = length (trace (run_scan L W config d url).2)
  ∧ (∀ i ei, trace (run_scan L W config d url).2 !! i = Some ei →
             is_send_alert ei = true → i < j)
  ∧ (∀ k ek, trace (run_scan L W config d url).2 !! k = Some ek →
             is_save_scan_result ek = true → k = j).
Proof.
  destruct (run_scan_trace_shape L W config d url) as (pre & Hpre & Hshape).
  intros Hj Hsj.
  assert (∀ k e, pre !! k = Some e → is_save_scan_result e = false) as Hno.
  { intros k e Hk. eapply Forall_lookup_1 in Hpre; [| exact Hk]. done. }
  destruct Hshape as [Heq | (sv & Heq & Hsv)]; rewrite Heq in *.
  { apply Hno in Hj. congruence. }
  assert (∀ k ek, (pre ++ [sv]) !! k = Some ek →
                  is_save_scan_result ek = true → k = length pre) as Hlast.
  { intros k ek Hk Hsk.
    destruct (decide (k < length pre)) as [Hlt | Hge].
    - rewrite lookup_app_l in Hk by done. apply Hno in Hk. congruence.
    - apply lookup_lt_Some in Hk. rewrite length_app in Hk. simpl in Hk.
      lia. }
  pose proof (Hlast j ej Hj Hsj) as ->.
  split; [rewrite length_app; simpl; lia |]. split.
  - intros i ei Hi Hai.
    destruct (decide (i < length pre)) as [? | Hige]; [done |].
    apply lookup_lt_Some in Hi as Hlen. rewrite length_app in Hlen.
    simpl in Hlen. assert (i = length pre) as -> by lia.
    rewrite lookup_app_r in Hi by lia. rewrite Nat.sub_diag in Hi.
    injection Hi as <-. by destruct sv.
  - exact Hlast.
Qed.

(** C3. When fetch, extraction and diff stage succeed and the write to the
    store fails, [scan_url] does not return a boolean and the database is as
    it was: the SQLite error reaches the caller. (On a page whose structure
    [json.dumps] cannot serialise the write is not attempted: the caller
    gets the [TypeError] of [json.dumps] instead.) *)
Theorem store_failure_is_reported (L : PyLib) (W : World) (config : Config)
    (d : Database) (url current_html : string) :
  session_get W url = Returned current_html →
  py_truthy current_html = true →
  sqlite_read_fails W = false →
  diff_stage_returns L d url current_html = true →
  sqlite_write_fails W = true →
  (run_scan L W config d url).1
  = Raised (if page_serialisable L current_html then sqlite3_Error
            else TypeError)
  ∧ db (run_scan L W config d url).2 = d.
Proof.
  intros Hf Ht Hr Hd Hw.
  pose proof (run_scan_after_diff L W config d url current_html _ Hf Ht Hr
                (extract_xpath_structure_returns L current_html)) as Hrun.
  cbv zeta in Hrun. rewrite Hd, Hw in Hrun. rewrite Hrun.
  rewrite (page_serialisable_structure L current_html _
             (extract_xpath_structure_returns L current_html)).
  by destruct (structure_serialisable _).
Qed.

(** C1 (as the code has it). On a page that [html.fromstring] cannot
    parse, [extract_xpath_structure] does not raise: its handler returns the
    empty dictionary. The scan goes on with that structure: when the store
    works and the diff stage comes back, [scan_url] returns whether the diff
    of the stored structure against the empty dictionary holds a change
    (nothing is compared, and the changeset is empty, on a first scan, on
    an equal hash and on a stored structure that does not decode), and it
    has written one record, whose stored structure is the serialised empty
    dictionary, and one row for each change. *)
Theorem unparseable_page_is_recorded (L : PyLib) (W : World) (config : Config)
    (d : Database) (url current_html : string) (e : exn) :
  html_fromstring L current_html = Raised e →
  extract_xpath_structure L current_html = Returned empty_structure
  ∧ (session_get W url = Returned current_html →
     py_truthy current_html = true →
     sqlite_read_fails W = false →
     sqlite_write_fails W = false →
     diff_stage_returns L d url current_html = true →
     let changes :=
       changeset_against_prior L W d url current_html empty_structure in
     let scan_id := next_id (sh_id <$> scan_history d) in
     (run_scan L W config d url).1 = Returned (0 <? length changes)%nat
     ∧ scan_history (db (run_scan L W config d url).2)
       = scan_history d
         ++ [mkScanRow scan_id url (clock W)
               (md5_hexdigest L current_html)
               (json_dumps L empty_structure) (length changes)]
     ∧ detected_changes (db (run_scan L W config d url).2)
       = detected_changes d
         ++ change_rows W scan_id (next_id (dc_id <$> detected_changes d))
              changes).
Proof.
  intros He.
  assert (extract_xpath_structure L current_html = Returned empty_structure)
    as Hx by (by rewrite extract_xpath_structure_returns, He).
  split; [done |].
  intros Hf Ht Hr Hw Hd.
  pose proof (run_scan_after_diff L W config d url current_html _ Hf Ht Hr Hx)
    as Hrun.
  cbv zeta in Hrun. rewrite Hd, Hw in Hrun. cbv zeta. by rewrite Hrun.
Qed.

(** ** Strings: [strip] *)

Lemma string_app_cons (c : Ascii.ascii) (s1 s2 : string) :
  String c s1 +:+ s2 = String c (s1 +:+ s2).
Proof. reflexivity. Qed.

Lemma string_app_assoc (s1 s2 s3 : string) :
  (s1 +:+ s2) +:+ s3 = s1 +:+ (s2 +:+ s3).
Proof.
  induction s1 as [|c s1 IH]; [done |].
  by rewrite !string_app_cons, IH.
Qed.

Lemma rev_app_spec (s1 s2 : string) :
  String.rev_app s1 s2 = String.rev s1 +:+ s2.
Proof.
  unfold String.rev. revert s2.
  induction s1 as [|c s1 IH]; intros s2; simpl; [done |].
  rewrite (IH (String c s2)), (IH (String c "")).
  by rewrite string_app_assoc.
Qed.

Lemma string_rev_cons (c : Ascii.ascii) (s : string) :
  String.rev (String c s) = String.rev s +:+ String c "".
Proof. unfold String.rev at 1. simpl. apply rev_app_spec. Qed.

Lemma string_rev_snoc (c : Ascii.ascii) (s : string) :
  String.rev (s +:+ String c "") = String c (String.rev s).
Proof.
  induction s as [|a s IH]; [done |].
  by rewrite string_app_cons, !string_rev_cons, IH.
Qed.

Lemma string_rev_involutive (s : string) : String.rev (String.rev s) = s.
Proof.
  induction s as [|c s IH]; [done |].
  by rewrite string_rev_cons, string_rev_snoc, IH.
Qed.

Lemma py_lstrip_clean (s : string) : starts_clean (py_lstrip s).
Proof.
  induction s as [|c s IH]; simpl; [done |].
  by destruct (py_isspace c) eqn:Hc.
Qed.

Lemma py_lstrip_id (s : string) : starts_clean s → py_lstrip s = s.
Proof. destruct s as [|c s]; simpl; [done |]. by intros ->. Qed.

Lemma py_lstrip_snoc (s : string) (c : Ascii.ascii) :
  py_isspace c = false →
  ∃ z, py_lstrip (s +:+ String c "") = z +:+ String c "".
Proof.
  intros Hc. induction s as [|a s [z IH]].
  - exists "". simpl. by rewrite Hc.
  - rewrite string_app_cons. simpl.
    destruct (py_isspace a); [by exists z |].
    by exists (String a s).
Qed.

(** Stripping the end of a string leaves a clean front clean. *)
Lemma rstrip_keeps_front (s : string) :
  starts_clean s → starts_clean (String.rev (py_lstrip (String.rev s))).
Proof.
  destruct s as [|c s]; [done |]. simpl. intros Hc.
  rewrite string_rev_cons.
  destruct (py_lstrip_snoc (String.rev s) c Hc) as [z ->].
  by rewrite string_rev_snoc.
Qed.

Lemma py_strip_idempotent (s : string) : is_trimmed (py_strip s).
Proof.
  unfold is_trimmed, py_strip. set (u := py_lstrip s).
  rewrite (py_lstrip_id (String.rev (py_lstrip (String.rev u))))
    by (apply rstrip_keeps_front, py_lstrip_clean).
  rewrite string_rev_involutive.
  by rewrite (py_lstrip_id (py_lstrip (String.rev u)))
    by apply py_lstrip_clean.
Qed.

(** ** StructureExtractor: tables *)

(** Induction on a document tree, with the hypothesis for all children. *)
Lemma element_ind_nested (P : lxml.element → Prop) :
  (∀ tag attrib text tail getpath children,
     Forall P children →
     P (lxml.Element tag attrib text tail getpath children)) →
  (∀ text tail getpath, P (lxml.Comment text tail getpath)) →
  ∀ e, P e.
Proof.
  intros H Hc. fix IH 1. intros [tg a tx tl p cs | tx tl p]; [| apply Hc].
  apply H.
  induction cs as [|c cs IHcs]; constructor; [apply IH | apply IHcs].
Qed.

Lemma length_filter_flat_map {A B} (f : B → bool) (g : A → list B)
    (l : list A) :
  length (List.filter f (flat_map g l))
  = list_sum (map (λ a, length (List.filter f (g a))) l).
Proof.
  induction l as [|a l IH]; simpl; [done |].
  by rewrite List.filter_app, length_app, IH.
Qed.

Lemma list_sum_map_ext {A} (f g : A → nat) (l : list A) :
  Forall (λ a, f a = g a) l → list_sum (map f l) = list_sum (map g l).
Proof. induction 1 as [|a l Ha _ IH]; simpl; [done | by rewrite Ha, IH]. Qed.

(** The elements [iter] yields with a tag among [names]: the element
    itself if it has one, and the count along the tree below it. *)
Lemma length_filter_iter (names : list string) (e : lxml.element) :
  length (List.filter (lxml.tag_in names) (lxml.iter e))
  = (if lxml.tag_in names e then 1 else 0) + count_tags names e.
Proof.
  induction e as [tg a tx tl p cs IH | tx tl p] using element_ind_nested.
  - cbn [lxml.iter List.filter count_tags].
    assert (length (List.filter (lxml.tag_in names) (flat_map lxml.iter cs))
            = list_sum
                (map (λ c, (if lxml.tag_in names c then 1 else 0)
                           + count_tags names c) cs)) as Hcs.
    { rewrite length_filter_flat_map. by apply list_sum_map_ext. }
    destruct (lxml.tag_in names (lxml.Element tg a tx tl p cs)); simpl;
      by rewrite Hcs.
  - cbn [lxml.iter List.filter count_tags].
    by destruct (lxml.tag_in names (lxml.Comment tx tl p)).
Qed.

Lemma length_xpath_descendants (names : list string) (e : lxml.element) :
  length (lxml.xpath_descendants names e) = count_tags names e.
Proof.
  unfold lxml.xpath_descendants, lxml.descendants.
  rewrite length_filter_flat_map.
  destruct e as [tg a tx tl p cs | tx tl p]; simpl; [| done].
  apply list_sum_map_ext, Forall_forall. intros c _.
  apply length_filter_iter.
Qed.

(** The traversal with the [thead] flag visits the proper descendants, in
    document order. *)
Lemma descendants_thead_nodes (b : bool) (e : lxml.element) :
  map snd (lxml.descendants_thead b e) = lxml.descendants e.
Proof.
  revert b.
  induction e as [tg a tx tl p cs IH | tx tl p] using element_ind_nested;
    intros b; [| done].
  unfold lxml.descendants. simpl.
  induction IH as [|c cs Hc _ IHcs]; simpl; [done |].
  rewrite map_app, IHcs. simpl. rewrite Hc.
  by destruct c.
Qed.

Lemma sublist_map_filter {A B} (f : A → B) (g : A → bool) (l : list A) :
  sublist (map f (List.filter g l)) (map f l).
Proof.
  induction l as [|a l IH]; simpl; [constructor |].
  destruct (g a); simpl; by constructor.
Qed.

Lemma header_cells_document_order (table : lxml.element) :
  sublist (lxml.xpath_header_cells table) (lxml.descendants table).
Proof.
  rewrite <- (descendants_thead_nodes false table).
  apply sublist_map_filter.
Qed.

Lemma header_cells_tags (table : lxml.element) :
  Forall (λ h, lxml.tag h = "th" ∨ lxml.tag h = "td")
    (lxml.xpath_header_cells table).
Proof.
  apply Forall_forall. intros h Hh. unfold lxml.xpath_header_cells in Hh.
  apply list_elem_of_In, in_map_iff in Hh as ([b h'] & <- & Hin).
  apply filter_In in Hin as [_ Hf]. simpl in *.
  apply orb_true_iff in Hf as [Hf | Hf].
  - left. by apply bool_decide_eq_true in Hf.
  - right. apply andb_true_iff in Hf as [_ Hf].
    by apply bool_decide_eq_true in Hf.
Qed.

Lemma py_truthy_nonempty (s : string) : py_truthy s = true ↔ s ≠ "".
Proof. by destruct s. Qed.

Lemma flat_row_cells (row : lxml.element) :
  cells_are_flat row →
  count_tags ["td"; "th"] row = length (cell_children row).
Proof.
  unfold cells_are_flat, cell_children.
  destruct row as [tg a tx tl p cs | tx tl p]; [| done].
  simpl. induction 1 as [|c cs Hc _ IH]; simpl; [done |].
  rewrite Hc, IH. by destruct (lxml.tag_in ["td"; "th"] c).
Qed.

(** C8 (as the code has it). For every table element, the extracted
    snapshot has as [headers] the stripped, non-empty text contents of the
    [th] descendants and of the [td] descendants below a [thead], in
    document order; as [row_count] the number of all [tr] descendants of
    the table, rows of header sections and of nested tables included; and
    as [column_count] the number of [td] and [th] descendants of the first
    such row, or [0] when there is none. Where no child of that row has a
    cell below it, this is the number of the row's cell children. *)
Theorem extract_table_structure_counts (table : lxml.element) :
  (headers (_extract_table_structure table)
   = List.filter py_truthy
       (map (λ h, py_strip (lxml.text_content h))
            (lxml.xpath_header_cells table))
   ∧ sublist (lxml.xpath_header_cells table) (lxml.descendants table)
   ∧ Forall (λ h, lxml.tag h = "th" ∨ lxml.tag h = "td")
       (lxml.xpath_header_cells table)
   ∧ Forall (λ h, h ≠ "" ∧ is_trimmed h)
       (headers (_extract_table_structure table)))
  ∧ row_count (_extract_table_structure table) = count_tags ["tr"] table
  ∧ match first_row table with
    | Some row =>
        column_count (_extract_table_structure table)
        = count_tags ["td"; "th"] row
        ∧ (cells_are_flat row →
           column_count (_extract_table_structure table)
           = length (cell_children row))
    | None =>
        row_count (_extract_table_structure table) = 0
        ∧ column_count (_extract_table_structure table) = 0
    end.
Proof.
  split; [split; [done | split; [apply header_cells_document_order |
    split; [apply header_cells_tags |]]] |].
  - apply Forall_forall. intros h Hh. simpl in Hh.
    apply list_elem_of_In, filter_In in Hh as [Hin Hne].
    apply in_map_iff in Hin as (c & <- & _).
    split; [by apply py_truthy_nonempty | apply py_strip_idempotent].
  - split; [apply length_xpath_descendants |].
    unfold first_row, _extract_table_structure. simpl.
    destruct (lxml.xpath_descendants ["tr"] table) as [|row rows]; simpl;
      [done |].
    split; [apply length_xpath_descendants |].
    intros Hflat. rewrite length_xpath_descendants. by apply flat_row_cells.
Qed.

(* ===================================================================== *)
(** * The model on the examples *)
(* ===================================================================== *)

(** A text edit: one [element_text_changed], with the old and new text. *)
Example diff_text_changed :
  compare_structures Demo.lib Demo.structure_hello
    (extract_from_document (Demo.doc_of "Goodbye")) 0
  = [mkChangeDetails element_text_changed "/html/body/p"
       (Some "Hello") (Some "Goodbye") "p" 0].
Proof. by vm_compute. Qed.

(** A column added: one [table_columns_changed] with the counts printed,
    and no [table_headers_changed]. *)
Example diff_column_added :
  _compare_tables Demo.lib
    [(Demo.table_path, mkTableSnapshot ["Name"; "Age"] 2 3)]
    [(Demo.table_path, mkTableSnapshot ["Name"; "Age"] 2 4)] 0
  = [mkChangeDetails table_columns_changed Demo.table_path
       (Some "3") (Some "4") "table" 0].
Proof. by vm_compute. Qed.

(** An attribute added where there was none. *)
Example diff_attribute_added :
  _compare_attributes [] [("/html/body/p", [("class", "active")])] 0
  = [mkChangeDetails attribute_added "/html/body/p/@class"
       None (Some "active") "attribute" 0].
Proof. by vm_compute. Qed.

(** The header section of [Demo.plain_table] counts as a row, and its
    row gives the columns. *)
Example plain_table_snapshot :
  _extract_table_structure Demo.plain_table
  = mkTableSnapshot ["Name"; "Age"] 2 3.
Proof. by vm_compute. Qed.

(** A stored structure that is valid JSON but no object is not a
    [JSONDecodeError]: [compare_structures] is called and fails at its first
    [.get], nothing catches the [AttributeError], and the scan ends before
    the store is reached. *)
Example stored_list_raises :
  run_scan Demo.lib (Demo.world Demo.page_hello) Demo.config_quiet
    Demo.db_not_object Demo.url
  = (Raised AttributeError,
     mkState Demo.db_not_object
       [ev_fetch_page Demo.url;
        ev_extract_xpath_structure Demo.page_hello;
        ev_get_last_scan Demo.url;
        ev_compare_structures json_not_object Demo.structure_hello]).
Proof. by vm_compute. Qed.

(** A comment is an entry of the fingerprint, with a function as its tag,
    and [json.dumps] refuses the structure. *)
Example comment_in_fingerprint :
  dict_get (default [] (elements Cases.structure_comment)) Cases.comment_path
  = Some (mkElementSnapshot function_tag "note" "")
  ∧ py_json_dumps Cases.lib Cases.structure_comment = Raised TypeError.
Proof. by vm_compute. Qed.

(** The first scan of a page with a comment: after the diff stage
    [json.dumps] raises, and the store is not called. *)
Example comment_page_first_scan :
  run_scan Cases.lib (Demo.world Cases.page_comment) Demo.config_mail
    Demo.db_empty Demo.url
  = (Raised TypeError,
     mkState Demo.db_empty
       [ev_fetch_page Demo.url;
        ev_extract_xpath_structure Cases.page_comment;
        ev_get_last_scan Demo.url]).
Proof. by vm_compute. Qed.

(** A scan of the page with a comment against a record with its hash:
    nothing is compared, [json.dumps] raises, and no record is written. *)
Example unchanged_comment_page_raises :
  run_scan Cases.lib (Demo.world Cases.page_comment) Demo.config_mail
    Cases.db_same_hash Demo.url
  = (Raised TypeError,
     mkState Cases.db_same_hash
       [ev_fetch_page Demo.url;
        ev_extract_xpath_structure Cases.page_comment;
        ev_get_last_scan Demo.url]).
Proof. by vm_compute. Qed.

(** Of two records of the same second, the first one is the last scan. *)
Example latest_row_on_a_tie :
  latest_row
    [mkScanRow 1 Demo.url 1700000000 "first" "{}" 0;
     mkScanRow 2 Demo.url 1699990000 "older" "{}" 0;
     mkScanRow 3 Demo.url 1700000000 "second" "{}" 0] Demo.url
  = Some (mkScanRow 1 Demo.url 1700000000 "first" "{}" 0).
Proof. by vm_compute. Qed.

(* ===================================================================== *)
(** * The theorems at work on the examples *)
(* ===================================================================== *)

(** C1, refuted as stated: on the page [" "], which [html.fromstring]
    rejects, the extraction returns the empty dictionary instead of
    raising, and the first scan of the URL writes a record for it; with an
    earlier scan of a parsed page on file, the scan even reports changes. *)
Lemma unparseable_page_counterexample :
  html_fromstring Demo.lib Demo.page_blank = Raised ParserError
  ∧ extract_xpath_structure Demo.lib Demo.page_blank
    = Returned empty_structure
  ∧ run_scan Demo.lib (Demo.world Demo.page_blank) Demo.config_quiet
      Demo.db_empty Demo.url
    = (Returned false,
       mkState
         (mkDatabase
            [mkScanRow 1 Demo.url 1700000000 Demo.hash_blank "{}" 0] [])
         [ev_fetch_page Demo.url;
          ev_extract_xpath_structure Demo.page_blank;
          ev_get_last_scan Demo.url;
          ev_save_scan_result Demo.url Demo.hash_blank "{}" []])
  ∧ (run_scan Demo.lib (Demo.world Demo.page_blank) Demo.config_quiet
       Demo.db_after_hello Demo.url).1 = Returned true
  ∧ length (scan_history
              (db (run_scan Demo.lib (Demo.world Demo.page_blank)
                     Demo.config_quiet Demo.db_after_hello Demo.url).2)) = 2.
Proof. by vm_compute. Qed.

Lemma unparseable_page_is_recorded_witness :
  extract_xpath_structure Demo.lib Demo.page_blank = Returned empty_structure
  ∧ changeset_against_prior Demo.lib (Demo.world Demo.page_blank)
      Demo.db_after_hello Demo.url Demo.page_blank empty_structure
    = compare_structures Demo.lib Demo.structure_hello empty_structure
        1700000000
  ∧ (run_scan Demo.lib (Demo.world Demo.page_blank) Demo.config_quiet
       Demo.db_after_hello Demo.url).1
    = Returned true
  ∧ scan_history
      (db (run_scan Demo.lib (Demo.world Demo.page_blank)
             Demo.config_quiet Demo.db_after_hello Demo.url).2)
    = [Demo.row_hello;
       mkScanRow 2 Demo.url 1700000000 Demo.hash_blank "{}" 3]
  ∧ length (detected_changes
              (db (run_scan Demo.lib (Demo.world Demo.page_blank)
                     Demo.config_quiet Demo.db_after_hello Demo.url).2))
    = 3.
Proof.
  destruct (unparseable_page_is_recorded Demo.lib
              (Demo.world Demo.page_blank) Demo.config_quiet
              Demo.db_after_hello Demo.url Demo.page_blank ParserError)
    as [Hx Hscan]; [by vm_compute |].
  split; [exact Hx |]. split; [by vm_compute |].
  destruct Hscan as (Hres & Hrows & Hchanges); [by vm_compute.. |].
  split; [rewrite Hres; by vm_compute |].
  split; [rewrite Hrows; by vm_compute |].
  rewrite Hchanges. by vm_compute.
Defined.

(** C2, refuted as stated: with mail configured and a change detected, the
    alert goes out before the record is written. *)
Lemma notification_first_counterexample :
  event_name
    <$> trace (run_scan Demo.lib (Demo.world Demo.page_hello)
                 Demo.config_mail Demo.db_after_blank Demo.url).2
  = ["fetch_page"; "extract_xpath_structure"; "get_last_scan";
     "compare_structures"; "send_alert"; "save_scan_result"].
Proof. by vm_compute. Qed.

Lemma alerts_precede_persistence_witness :
  is_save_scan_result
    <$> trace (run_scan Demo.lib (Demo.world Demo.page_hello)
                 Demo.config_mail Demo.db_after_blank Demo.url).2 !! 5
  = Some true
  ∧ 6 = length (trace (run_scan Demo.lib (Demo.world Demo.page_hello)
                         Demo.config_mail Demo.db_after_blank Demo.url).2)
  ∧ is_send_alert
      <$> trace (run_scan Demo.lib (Demo.world Demo.page_hello)
                   Demo.config_mail Demo.db_after_blank Demo.url).2 !! 4
    = Some true
  ∧ 4 < 5.
Proof.
  split; [by vm_compute |].
  destruct (trace (run_scan Demo.lib (Demo.world Demo.page_hello)
                     Demo.config_mail Demo.db_after_blank Demo.url).2 !! 5)
    as [ej|] eqn:Hj; [| by vm_compute in Hj].
  destruct (trace (run_scan Demo.lib (Demo.world Demo.page_hello)
                     Demo.config_mail Demo.db_after_blank Demo.url).2 !! 4)
    as [ei|] eqn:Hi; [| by vm_compute in Hi].
  assert (is_save_scan_result ej = true) as Hsave
    by (vm_compute in Hj; by injection Hj as <-).
  assert (is_send_alert ei = true) as Halert
    by (vm_compute in Hi; by injection Hi as <-).
  destruct (alerts_precede_persistence Demo.lib (Demo.world Demo.page_hello)
              Demo.config_mail Demo.db_after_blank Demo.url 5 ej Hj Hsave)
    as (Hlast & Hbefore & _).
  split; [exact Hlast |]. split; [simpl; by rewrite Halert |].
  exact (Hbefore 4 ei Hi Halert).
Defined.

Lemma store_failure_is_reported_witness :
  (run_scan Demo.lib (Demo.world_store_down Demo.page_goodbye)
     Demo.config_mail Demo.db_after_hello Demo.url).1 = Raised sqlite3_Error
  ∧ db (run_scan Demo.lib (Demo.world_store_down Demo.page_goodbye)
          Demo.config_mail Demo.db_after_hello Demo.url).2
    = Demo.db_after_hello.
Proof.
  apply (store_failure_is_reported Demo.lib
           (Demo.world_store_down Demo.page_goodbye) Demo.config_mail
           Demo.db_after_hello Demo.url Demo.page_goodbye);
    by vm_compute.
Defined.

(** C4, refuted as stated: a stored structure that reads as a JSON list is
    corrupt, [json.loads] returns it, and the scan raises [AttributeError]
    from within [compare_structures] and writes nothing. *)
Lemma stored_list_counterexample :
  latest_row (scan_history Demo.db_not_object) Demo.url
  = Some (mkScanRow 1 Demo.url 1699990000 Demo.hash_blank "[]" 0)
  ∧ Demo.hash_blank ≠ md5_hexdigest Demo.lib Demo.page_hello
  ∧ json_loads Demo.lib "[]" = Returned json_not_object
  ∧ run_scan Demo.lib (Demo.world Demo.page_hello) Demo.config_quiet
      Demo.db_not_object Demo.url
    = (Raised AttributeError,
       mkState Demo.db_not_object
         [ev_fetch_page Demo.url;
          ev_extract_xpath_structure Demo.page_hello;
          ev_get_last_scan Demo.url;
          ev_compare_structures json_not_object Demo.structure_hello]).
Proof. by vm_compute. Qed.

Lemma corrupt_stored_structure_witness :
  latest_row (scan_history Demo.db_corrupt) Demo.url = Some Demo.row_corrupt
  ∧ sh_html_hash Demo.row_corrupt ≠ md5_hexdigest Demo.lib Demo.page_hello
  ∧ json_loads Demo.lib (sh_xpath_structure Demo.row_corrupt)
    = Raised JSONDecodeError
  ∧ page_serialisable Demo.lib Demo.page_hello = true
  ∧ (run_scan Demo.lib (Demo.world Demo.page_hello) Demo.config_mail
       Demo.db_corrupt Demo.url).1 = Returned false
  ∧ length (scan_history
              (db (run_scan Demo.lib (Demo.world Demo.page_hello)
                     Demo.config_mail Demo.db_corrupt Demo.url).2)) = 2.
Proof.
  assert (latest_row (scan_history Demo.db_corrupt) Demo.url
          = Some Demo.row_corrupt) as Hl by (by vm_compute).
  assert (sh_html_hash Demo.row_corrupt
          ≠ md5_hexdigest Demo.lib Demo.page_hello) as Hh by (by vm_compute).
  assert (json_loads Demo.lib (sh_xpath_structure Demo.row_corrupt)
          = Raised JSONDecodeError) as Hj by (by vm_compute).
  assert (page_serialisable Demo.lib Demo.page_hello = true) as Hser
    by (by vm_compute).
  split; [exact Hl |]. split; [exact Hh |]. split; [exact Hj |].
  split; [exact Hser |].
  destruct (corrupt_stored_structure Demo.lib (Demo.world Demo.page_hello)
              Demo.config_mail Demo.db_corrupt Demo.url Demo.page_hello
              Demo.row_corrupt eq_refl eq_refl eq_refl Hl Hh) as [Hdecode _].
  destruct (Hdecode Hj eq_refl Hser)
    as (cs & _ & Hres & _ & _ & _ & Hrows & _).
  split; [exact Hres |]. rewrite Hrows. by vm_compute.
Defined.


Lemma compare_structures_symmetry_witness :
  Demo.paragraph_added
  ∈ compare_structures Demo.lib empty_structure Demo.structure_hello 0
  ∧ with_timestamp 60 (swap_change Demo.paragraph_added)
    ∈ compare_structures Demo.lib Demo.structure_hello empty_structure 60.
Proof.
  assert (Demo.paragraph_added
          ∈ compare_structures Demo.lib empty_structure
              Demo.structure_hello 0) as Hin.
  { vm_compute. do 2 apply list_elem_of_further. apply list_elem_of_here. }
  split; [exact Hin |].
  apply (proj1 (compare_structures_symmetry Demo.lib empty_structure
                  Demo.structure_hello 0 60) Demo.paragraph_added);
    [reflexivity | exact Hin].
Defined.

(** C8, refuted as stated: a table whose only row holds a nested table has
    one row of its own with one cell child, and the snapshot counts two
    rows and two columns. *)
Lemma nested_table_counterexample :
  _extract_table_structure Demo.nested_table = mkTableSnapshot [] 2 2
  ∧ first_row Demo.nested_table = Some Demo.nested_row
  ∧ spec_column_count Demo.nested_table = 1
  ∧ spec_row_count Demo.nested_table = 1
  ∧ column_count (_extract_table_structure Demo.nested_table)
    ≠ spec_column_count Demo.nested_table
  ∧ row_count (_extract_table_structure Demo.nested_table)
    ≠ spec_row_count Demo.nested_table.
Proof. by vm_compute. Qed.

Lemma extract_table_structure_counts_witness :
  first_row Demo.plain_table = Some Demo.header_row
  ∧ cells_are_flat Demo.header_row
  ∧ column_count (_extract_table_structure Demo.plain_table)
    = length (cell_children Demo.header_row).
Proof.
  assert (cells_are_flat Demo.header_row) as Hflat
    by (by repeat constructor).
  split; [reflexivity | split; [exact Hflat |]].
  pose proof (extract_table_structure_counts Demo.plain_table)
    as (_ & _ & Hcols).
  change (first_row Demo.plain_table) with (Some Demo.header_row) in Hcols.
  destruct Hcols as [_ Hcols]. exact (Hcols Hflat).
Defined.

(** C9, refuted as stated: the two tables have the same headers and column
    count and another row count, and the diff holds a change for the path
    of the table, because the text of the table element is another. *)
Lemma table_path_counterexample :
  dict_get (default [] (tables Cases.table_before)) Demo.table_path
  = Some (mkTableSnapshot ["Name"; "Age"] 2 2)
  ∧ dict_get (default [] (tables Cases.table_after)) Demo.table_path
    = Some (mkTableSnapshot ["Name"; "Age"] 5 2)
  ∧ compare_structures Demo.lib Cases.table_before Cases.table_after 0
    = [Cases.table_text_changed]
  ∧ xpath Cases.table_text_changed = Demo.table_path.
Proof. by vm_compute. Qed.

Lemma row_count_not_diffed_witness :
  Demo.other_table_removed
  ∈ _compare_tables Demo.lib
      (default [] (tables Demo.structure_two_rows))
      (default [] (tables Demo.structure_five_rows)) 0
  ∧ xpath Demo.other_table_removed ≠ Demo.table_path.
Proof.
  assert (Demo.other_table_removed
          ∈ _compare_tables Demo.lib
              (default [] (tables Demo.structure_two_rows))
              (default [] (tables Demo.structure_five_rows)) 0) as Hin.
  { vm_compute. apply list_elem_of_here. }
  split; [exact Hin |].
  apply (proj1 (row_count_not_diffed Demo.lib Demo.structure_two_rows
                  Demo.structure_five_rows 0 Demo.table_path
                  (mkTableSnapshot ["Name"; "Age"] 2 2)
                  (mkTableSnapshot ["Name"; "Age"] 5 2)
                  eq_refl eq_refl eq_refl eq_refl)).
  exact Hin.
Defined.

Lemma empty_body_is_fetch_failure_witness :
  run_scan Demo.lib (Demo.world "") Demo.config_mail Demo.db_after_hello
    Demo.url
  = (Returned false, mkState Demo.db_after_hello [ev_fetch_page Demo.url])
  ∧ run_scan Demo.lib (Demo.world "") Demo.config_mail Demo.db_after_hello
      Demo.url
    = run_scan Demo.lib Demo.world_offline Demo.config_mail
        Demo.db_after_hello Demo.url.
Proof.
  apply (empty_body_is_fetch_failure Demo.lib (Demo.world "")
           Demo.world_offline Demo.config_mail Demo.db_after_hello Demo.url);
    reflexivity.
Defined.

(* ===================================================================== *)
(** * Further properties *)
(* ===================================================================== *)

(** ** Dictionaries: writing and reading *)

Lemma dict_get_set {V} (d : dict V) (k k' : string) (v : V) :
  dict_get (dict_set d k v) k'
  = if decide (k = k') then Some v else dict_get d k'.
Proof.
  induction d as [|[k0 v0] d IH]; simpl.
  - by destruct (decide (k = k')).
  - destruct (decide (k0 = k)) as [-> | Hne]; simpl.
    + by destruct (decide (k = k')).
    + rewrite IH. destruct (decide (k0 = k')) as [-> | ?]; [| done].
      by destruct (decide (k = k')).
Qed.

Lemma dict_keys_set {V} (d : dict V) (k k' : string) (v : V) :
  k' ∈ dict_keys (dict_set d k v) ↔ k' = k ∨ k' ∈ dict_keys d.
Proof.
  rewrite !dict_get_is_Some, dict_get_set.
  destruct (decide (k = k')) as [-> | Hne].
  - split; [by left | by eexists].
  - split; [by right | intros [? | ?]; congruence].
Qed.

Lemma dict_set_NoDup {V} (d : dict V) (k : string) (v : V) :
  NoDup (dict_keys d) → NoDup (dict_keys (dict_set d k v)).
Proof.
  unfold dict_keys. induction d as [|[k0 v0] d IH]; simpl; intros Hd.
  - apply NoDup_singleton.
  - apply NoDup_cons in Hd as [Hk0 Hd].
    destruct (decide (k0 = k)) as [-> | Hne]; simpl.
    + by apply NoDup_cons.
    + apply NoDup_cons. split; [| by apply IH].
      intros Hin. apply (dict_keys_set d k k0 v) in Hin as [? | ?]; done.
Qed.

(** What holds for the start of a loop and is kept by every turn holds at
    its end. *)
Lemma foldl_invariant {A B} (P : A → Prop) (f : A → B → A) (l : list B)
    (a : A) :
  P a → (∀ a x, x ∈ l → P a → P (f a x)) → P (foldl f a l).
Proof.
  revert a. induction l as [|x l IH]; intros a Ha Hf; simpl; [done |].
  apply IH.
  - apply Hf; [apply list_elem_of_here | done].
  - intros a' x' Hx'. apply Hf. by apply list_elem_of_further.
Qed.

(** The keys of a dictionary filled by a loop of assignments. *)
Lemma foldl_dict_set_keys {A V} (f : A → string) (g : A → V) (l : list A)
    (d : dict V) (k : string) :
  k ∈ dict_keys (foldl (λ d x, dict_set d (f x) (g x)) d l)
  ↔ k ∈ dict_keys d ∨ ∃ x, x ∈ l ∧ f x = k.
Proof.
  revert d. induction l as [|x l IH]; intros d; simpl.
  - split; [by left | intros [? | (x & Hx & _)]; [done |]].
    by apply elem_of_nil in Hx.
  - rewrite IH, dict_keys_set. split.
    + intros [[-> | ?] | (y & Hy & <-)].
      * right. exists x. split; [apply list_elem_of_here | done].
      * by left.
      * right. exists y. split; [by apply list_elem_of_further | done].
    + intros [? | (y & Hy & <-)]; [by left; right |].
      apply elem_of_cons in Hy as [-> | Hy]; [by left; left |].
      right. by exists y.
Qed.

(** ** StructureExtractor: the fingerprint of a parsed document *)

Lemma length_py_prefix (n : nat) (s : string) :
  (String.length (py_prefix n s) ≤ n)%nat.
Proof.
  revert s. induction n as [|n IH]; intros [|c s]; simpl; try lia.
  specialize (IH s). lia.
Qed.

Lemma py_prefix_clean (n : nat) (s : string) :
  starts_clean s → starts_clean (py_prefix n s).
Proof. by destruct n, s. Qed.

Lemma py_strip_clean (s : string) : starts_clean (py_strip s).
Proof. apply rstrip_keeps_front, py_lstrip_clean. Qed.

(** The element dictionary after the loop over [doc.iter()]. *)
Lemma extract_elements_in_bounds (l : list lxml.element)
    (acc : dict ElementSnapshot * dict (dict string)) :
  (∀ p e, dict_get acc.1 p = Some e → snapshot_in_bounds e) →
  ∀ p e, dict_get (foldl extract_element acc l).1 p = Some e →
         snapshot_in_bounds e.
Proof.
  intros Hstart.
  apply (foldl_invariant
           (λ acc : dict ElementSnapshot * dict (dict string),
              ∀ p e, dict_get acc.1 p = Some e → snapshot_in_bounds e));
    [exact Hstart |].
  clear. intros [els ats] x _ Hacc p e. unfold extract_element.
  destruct (py_truthy (lxml.tag x)) eqn:Ht; [| apply Hacc].
  cbn [fst snd]. rewrite dict_get_set. case_decide; [| apply Hacc].
  intros Heq. apply (inj Some) in Heq. subst e.
  unfold snapshot_in_bounds. cbn [tag text tail].
  repeat split.
  - by apply py_truthy_nonempty.
  - apply length_py_prefix.
  - apply length_py_prefix.
  - apply py_prefix_clean, py_strip_clean.
  - apply py_prefix_clean, py_strip_clean.
Qed.

Lemma extract_elements_keys (l : list lxml.element)
    (acc : dict ElementSnapshot * dict (dict string)) (p : string) :
  p ∈ dict_keys (foldl extract_element acc l).1
  ↔ p ∈ dict_keys acc.1
    ∨ ∃ x, x ∈ l ∧ py_truthy (lxml.tag x) = true ∧ _get_element_xpath x = p.
Proof.
  revert acc. induction l as [|x l IH]; intros acc; simpl.
  - split; [by left | intros [? | (x & Hx & _)]; [done |]].
    by apply elem_of_nil in Hx.
  - rewrite IH. unfold extract_element.
    destruct (py_truthy (lxml.tag x)) eqn:Ht; cbn [fst snd].
    + rewrite dict_keys_set. split.
      * intros [[-> | ?] | (y & Hy & Hty & <-)].
        -- right. exists x. split; [apply list_elem_of_here | done].
        -- by left.
        -- right. exists y. split; [by apply list_elem_of_further | done].
      * intros [? | (y & Hy & Hty & <-)]; [by left; right |].
        apply elem_of_cons in Hy as [-> | Hy]; [by left; left |].
        right. by exists y.
    + split.
      * intros [? | (y & Hy & Hty & <-)]; [by left |].
        right. exists y. split; [by apply list_elem_of_further | done].
      * intros [? | (y & Hy & Hty & <-)]; [by left |].
        apply elem_of_cons in Hy as [-> | Hy]; [congruence |].
        right. by exists y.
Qed.

(** Every attribute dictionary is the non-empty [attrib] of an element
    with that path. *)
Lemma extract_attributes_origin (l : list lxml.element)
    (acc : dict ElementSnapshot * dict (dict string)) (p : string)
    (a : dict string) :
  dict_get (foldl extract_element acc l).2 p = Some a →
  dict_get acc.2 p = Some a
  ∨ ∃ x, x ∈ l ∧ py_truthy (lxml.tag x) = true
         ∧ _get_element_xpath x = p ∧ lxml.attrib x = a ∧ a ≠ [].
Proof.
  revert acc. induction l as [|x l IH]; intros acc; simpl; [by left |].
  intros H. apply IH in H as [H | (y & Hy & ?)];
    [| right; exists y; split; [by apply list_elem_of_further | done]].
  unfold extract_element in H.
  destruct (py_truthy (lxml.tag x)) eqn:Ht; [| by left]. cbn [fst snd] in H.
  destruct (lxml.attrib x) as [|kv kvs] eqn:Ha; [by left |].
  rewrite dict_get_set in H. case_decide as Hp; [| by left].
  injection H as <-. right. exists x.
  split; [apply list_elem_of_here |]. by rewrite Ha.
Qed.

Lemma elem_of_xpath_all (name : string) (doc x : lxml.element) :
  x ∈ lxml.xpath_all name doc ↔ x ∈ lxml.iter doc ∧ lxml.tag x = name.
Proof.
  unfold lxml.xpath_all, lxml.tag_in.
  rewrite list_elem_of_In, filter_In, <- list_elem_of_In.
  rewrite bool_decide_eq_true, list_elem_of_singleton. done.
Qed.

(** X1. Every element snapshot of an extracted structure has a non-empty
    tag, and a text and a tail of at most 100 characters without leading
    white space. *)
Theorem extracted_snapshots_in_bounds (L : PyLib) (html_content : string)
    (s : PageStructure) (p : string) (e : ElementSnapshot) :
  extract_xpath_structure L html_content = Returned s →
  dict_get (default [] (elements s)) p = Some e →
  snapshot_in_bounds e.
Proof.
  rewrite extract_xpath_structure_returns. intros [= <-].
  destruct (html_fromstring L html_content) as [doc|]; simpl; [| done].
  by apply extract_elements_in_bounds.
Qed.

(** X2. In an extracted structure every path that has attributes, a table
    or a form is a path of the element dictionary. *)
Theorem extracted_paths_are_element_paths (L : PyLib) (html_content : string)
    (s : PageStructure) (p : string) :
  extract_xpath_structure L html_content = Returned s →
  p ∈ dict_keys (default [] (attributes s))
  ∨ p ∈ dict_keys (default [] (tables s))
  ∨ p ∈ dict_keys (default [] (forms s)) →
  p ∈ dict_keys (default [] (elements s)).
Proof.
  rewrite extract_xpath_structure_returns. intros [= <-].
  destruct (html_fromstring L html_content) as [doc|]; simpl;
    [| by intros [H | [H | H]]].
  rewrite extract_elements_keys.
  intros [H | [H | H]]; right.
  - apply dict_get_is_Some in H as [a Ha].
    apply extract_attributes_origin in Ha
      as [Ha | (x & Hx & Ht & Hp & _)]; [done |].
    by exists x.
  - apply foldl_dict_set_keys in H as [H | (x & Hx & Hp)];
      [by apply elem_of_nil in H |].
    apply elem_of_xpath_all in Hx as [Hx Ht].
    exists x. by rewrite Ht.
  - apply foldl_dict_set_keys in H as [H | (x & Hx & Hp)];
      [by apply elem_of_nil in H |].
    apply elem_of_xpath_all in Hx as [Hx Ht].
    exists x. by rewrite Ht.
Qed.

(** X3. An attribute dictionary of an extracted structure is never empty:
    it is the [attrib] of an element of the document that has that path
    and at least one attribute. *)
Theorem extracted_attributes_nonempty (L : PyLib) (html_content : string)
    (s : PageStructure) (p : string) (a : dict string) :
  extract_xpath_structure L html_content = Returned s →
  dict_get (default [] (attributes s)) p = Some a →
  a ≠ []
  ∧ ∃ doc x, html_fromstring L html_content = Returned doc
             ∧ x ∈ lxml.iter doc
             ∧ _get_element_xpath x = p ∧ lxml.attrib x = a.
Proof.
  rewrite extract_xpath_structure_returns. intros [= <-].
  destruct (html_fromstring L html_content) as [doc|]; simpl; [| done].
  intros Ha.
  apply extract_attributes_origin in Ha
    as [Ha | (x & Hx & Ht & Hp & Hat & Hne)]; [done |].
  split; [done |]. by exists doc, x.
Qed.

(** ** StructureExtractor: text beyond the bound *)

Lemma string_app_nil_r (s : string) : s +:+ "" = s.
Proof.
  induction s as [|c s IH]; [done |]. by rewrite string_app_cons, IH.
Qed.

Lemma string_rev_app (s1 s2 : string) :
  String.rev (s1 +:+ s2) = String.rev s2 +:+ String.rev s1.
Proof.
  induction s1 as [|c s1 IH].
  - change ("" +:+ s2) with s2. by rewrite string_app_nil_r.
  - by rewrite string_app_cons, !string_rev_cons, IH, string_app_assoc.
Qed.

Lemma py_lstrip_app_clean (u v : string) :
  starts_clean v → v ≠ "" → ∃ u', py_lstrip (u +:+ v) = u' +:+ v.
Proof.
  intros Hv Hne. induction u as [|c u [u' IH]].
  - exists "". change ("" +:+ v) with v. by apply py_lstrip_id.
  - rewrite string_app_cons. simpl.
    destruct (py_isspace c); [by exists u' |]. by exists (String c u).
Qed.

(** Stripping a text that begins with a block free of white space at both
    ends keeps the block. *)
Lemma py_strip_keeps_block (a x : string) :
  starts_clean a → ends_clean a → a ≠ "" →
  ∃ x', py_strip (a +:+ x) = a +:+ x'.
Proof.
  intros Hs He Hne. unfold py_strip.
  rewrite (py_lstrip_id (a +:+ x)) by (by destruct a).
  rewrite string_rev_app.
  destruct (py_lstrip_app_clean (String.rev x) (String.rev a)) as [u' ->].
  - exact He.
  - destruct a as [|c a]; [done |]. rewrite string_rev_cons.
    by destruct (String.rev a).
  - exists (String.rev u').
    by rewrite string_rev_app, string_rev_involutive.
Qed.

Lemma py_prefix_app (a z : string) : py_prefix (String.length a) (a +:+ z) = a.
Proof.
  induction a as [|c a IH].
  - by destruct z.
  - rewrite string_app_cons. simpl. by rewrite IH.
Qed.

(** [strip()[:100]] reads the same from two texts that agree up to the
    bound. *)
Lemma same_up_to_bound_normalised (t1 t2 : option string) :
  same_up_to_bound t1 t2 →
  py_prefix 100 (py_strip (default "" t1))
  = py_prefix 100 (py_strip (default "" t2)).
Proof.
  intros [-> | (a & x & y & -> & -> & Hlen & Hs & He)]; [done |].
  assert (a ≠ "") as Hne by (intros ->; discriminate Hlen).
  destruct (py_strip_keeps_block a x Hs He Hne) as [x' Hx].
  destruct (py_strip_keeps_block a y Hs He Hne) as [y' Hy].
  change (default "" (Some (a +:+ x))) with (a +:+ x).
  change (default "" (Some (a +:+ y))) with (a +:+ y).
  rewrite Hx, Hy, <- Hlen.
  by rewrite !py_prefix_app.
Qed.

Lemma same_up_to_bound_turn (e1 e2 : lxml.element)
    (acc : dict ElementSnapshot * dict (dict string)) :
  same_up_to_bound_element e1 e2 →
  extract_element acc e1 = extract_element acc e2.
Proof.
  intros (Htag & Hattr & Hpath & Htext & Htail).
  unfold extract_element, _get_element_xpath.
  rewrite Htag, Hattr, Hpath.
  by rewrite (same_up_to_bound_normalised _ _ Htext),
    (same_up_to_bound_normalised _ _ Htail).
Qed.

Lemma same_up_to_bound_loop (l1 l2 : list lxml.element)
    (acc : dict ElementSnapshot * dict (dict string)) :
  Forall2 same_up_to_bound_element l1 l2 →
  foldl extract_element acc l1 = foldl extract_element acc l2.
Proof.
  intros H. revert acc.
  induction H as [|e1 e2 l1 l2 He _ IH]; intros acc; [done |].
  cbn [foldl]. by rewrite (same_up_to_bound_turn e1 e2 acc He), IH.
Qed.

(** X5. Two documents whose nodes differ, one by one, at most in text or
    tail after a common first 100 characters, of which the first and the
    hundredth are not white space, have the same element and attribute
    dictionaries, and the diff reports no element and no attribute change
    between them. *)
Theorem text_beyond_bound_is_invisible (L : PyLib) (doc1 doc2 : lxml.element)
    (t : Z) :
  Forall2 same_up_to_bound_element (lxml.iter doc1) (lxml.iter doc2) →
  elements (extract_from_document doc1) = elements (extract_from_document doc2)
  ∧ attributes (extract_from_document doc1)
    = attributes (extract_from_document doc2)
  ∧ _compare_elements L
      (default [] (elements (extract_from_document doc1)))
      (default [] (elements (extract_from_document doc2))) t = []
  ∧ _compare_attributes
      (default [] (attributes (extract_from_document doc1)))
      (default [] (attributes (extract_from_document doc2))) t = [].
Proof.
  intros H. unfold extract_from_document. cbn [elements attributes].
  rewrite (same_up_to_bound_loop _ _ ([], []) H).
  repeat split;
    [apply compare_elements_self | apply compare_attributes_self].
Qed.

(** ** DiffEngine: when no change is reported *)

Lemma flat_map_eq_nil {A B} (f : A → list B) (l : list A) :
  flat_map f l = [] ↔ ∀ a, a ∈ l → f a = [].
Proof.
  split; [| apply flat_map_nil].
  induction l as [|a l IH]; simpl; intros H x Hx;
    [by apply elem_of_nil in Hx |].
  apply app_eq_nil in H as [Ha Hl].
  apply elem_of_cons in Hx as [-> | Hx]; [done | by apply IH].
Qed.

(** A guarded single change is absent only where its guard fails. *)
Lemma guarded_change_nil {A B} `{EqDecision B} (x y : B) (c : A) :
  (if bool_decide (x ≠ y) then [c] else []) = [] → x = y.
Proof.
  intros H. destruct (decide (x = y)) as [| Hne]; [done |].
  by rewrite bool_decide_eq_true_2 in H.
Qed.

Section DiffNothing.

Context (L : PyLib) (t : Z).

Lemma compare_elements_nil (d1 d2 : dict ElementSnapshot) :
  _compare_elements L d1 d2 t = [] ↔ elements_agree d1 d2.
Proof.
  unfold _compare_elements, elements_agree, same_keys.
  rewrite !app_nil, !flat_map_eq_nil. split.
  - intros (Hrem & Hadd & Hmod). split.
    + intros k. split; intros Hk.
      * specialize (Hrem k Hk). cbv beta in Hrem.
        apply dict_get_is_Some in Hk as [e He]. rewrite He in Hrem.
        destruct (dict_mem d2 k) eqn:Hm;
          [exact (proj1 (dict_mem_true _ _) Hm) | discriminate Hrem].
      * specialize (Hadd k Hk). cbv beta in Hadd.
        apply dict_get_is_Some in Hk as [e He]. rewrite He in Hadd.
        destruct (dict_mem d1 k) eqn:Hm;
          [exact (proj1 (dict_mem_true _ _) Hm) | discriminate Hadd].
    + intros k e1 e2 H1 H2.
      specialize (Hmod k (dict_get_Some_key _ _ _ H1)). cbv beta in Hmod.
      rewrite H1, H2 in Hmod.
      rewrite (proj2 (dict_mem_true d2 k) (dict_get_Some_key _ _ _ H2))
        in Hmod.
      by apply guarded_change_nil in Hmod.
  - intros (Hkeys & Htext). repeat split; intros k Hk; cbv beta.
    + by rewrite (proj2 (dict_mem_true d2 k) (proj1 (Hkeys k) Hk)).
    + by rewrite (proj2 (dict_mem_true d1 k) (proj2 (Hkeys k) Hk)).
    + rewrite (proj2 (dict_mem_true d2 k) (proj1 (Hkeys k) Hk)).
      destruct (dict_get d1 k) as [e1|] eqn:H1; [| done].
      destruct (dict_get d2 k) as [e2|] eqn:H2; [| done].
      rewrite bool_decide_eq_false_2; [done |].
      intros Hne. apply Hne. by eapply Htext.
Qed.

Lemma compare_attributes_nil (d1 d2 : dict (dict string)) :
  _compare_attributes d1 d2 t = [] ↔ attributes_agree d1 d2.
Proof.
  unfold _compare_attributes, attributes_agree.
  rewrite flat_map_eq_nil. split.
  - intros H p n.
    destruct (decide (p ∈ py_set_iter
                        (py_set_union (dict_keys d1) (dict_keys d2))))
      as [Hp | Hp].
    + specialize (H p Hp). cbv beta zeta in H.
      rewrite flat_map_eq_nil in H.
      destruct (decide (n ∈ py_set_iter
                          (py_set_union
                             (dict_keys (default [] (dict_get d1 p)))
                             (dict_keys (default [] (dict_get d2 p))))))
        as [Hn | Hn].
      * specialize (H n Hn). cbv beta zeta in H.
        by apply guarded_change_nil in H.
      * rewrite elem_of_py_set_union in Hn.
        assert (dict_get (default [] (dict_get d1 p)) n = None) as ->
          by (apply dict_get_None; tauto).
        symmetry. apply dict_get_None; tauto.
    + rewrite elem_of_py_set_union in Hp.
      assert (dict_get d1 p = None) as -> by (apply dict_get_None; tauto).
      by assert (dict_get d2 p = None) as -> by (apply dict_get_None; tauto).
  - intros H p _. cbv beta zeta. apply flat_map_eq_nil. intros n _.
    cbv beta zeta. rewrite bool_decide_eq_false_2; [done |].
    intros Hne. apply Hne, H.
Qed.

Lemma compare_tables_nil (d1 d2 : dict TableSnapshot) :
  _compare_tables L d1 d2 t = [] ↔ tables_agree d1 d2.
Proof.
  unfold _compare_tables, tables_agree, same_keys.
  rewrite !app_nil, !flat_map_eq_nil. split.
  - intros (Hrem & Hadd & Hmod). split.
    + intros k. split; intros Hk.
      * specialize (Hrem k Hk). cbv beta in Hrem.
        apply dict_get_is_Some in Hk as [e He]. rewrite He in Hrem.
        destruct (dict_mem d2 k) eqn:Hm;
          [exact (proj1 (dict_mem_true _ _) Hm) | discriminate Hrem].
      * specialize (Hadd k Hk). cbv beta in Hadd.
        apply dict_get_is_Some in Hk as [e He]. rewrite He in Hadd.
        destruct (dict_mem d1 k) eqn:Hm;
          [exact (proj1 (dict_mem_true _ _) Hm) | discriminate Hadd].
    + intros k t1 t2 H1 H2.
      specialize (Hmod k (dict_get_Some_key _ _ _ H1)). cbv beta in Hmod.
      rewrite H1, H2 in Hmod.
      rewrite (proj2 (dict_mem_true d2 k) (dict_get_Some_key _ _ _ H2))
        in Hmod.
      apply app_nil in Hmod as [Hh Hc].
      apply guarded_change_nil in Hh, Hc. by split.
  - intros (Hkeys & Hsame). repeat split; intros k Hk; cbv beta.
    + by rewrite (proj2 (dict_mem_true d2 k) (proj1 (Hkeys k) Hk)).
    + by rewrite (proj2 (dict_mem_true d1 k) (proj2 (Hkeys k) Hk)).
    + rewrite (proj2 (dict_mem_true d2 k) (proj1 (Hkeys k) Hk)).
      destruct (dict_get d1 k) as [t1|] eqn:H1; [| done].
      destruct (dict_get d2 k) as [t2|] eqn:H2; [| done].
      destruct (Hsame k t1 t2 H1 H2) as [Hh Hc].
      by rewrite !bool_decide_eq_false_2 by (intros Hne; by apply Hne).
Qed.

Lemma compare_forms_nil (d1 d2 : dict FormSnapshot) :
  _compare_forms L d1 d2 t = [] ↔ forms_agree d1 d2.
Proof.
  unfold _compare_forms, forms_agree, same_keys.
  rewrite flat_map_eq_nil. split.
  - intros H.
    assert (∀ k, k ∈ dict_keys d1 ∨ k ∈ dict_keys d2 →
                 ∃ f1 f2, dict_get d1 k = Some f1 ∧ dict_get d2 k = Some f2
                          ∧ inputs f1 = inputs f2) as Hboth.
    { intros k Hk. apply elem_of_py_set_union in Hk.
      specialize (H k Hk). cbv beta zeta in H.
      destruct (dict_get d1 k) as [f1|]; [| done].
      destruct (dict_get d2 k) as [f2|]; [| done].
      exists f1, f2. repeat split.
      destruct (bool_decide (length (inputs f1) ≠ length (inputs f2)));
        [done |].
      by apply guarded_change_nil in H. }
    split.
    + intros k. split; intros Hk.
      * destruct (Hboth k (or_introl Hk)) as (f1 & f2 & _ & H2 & _).
        by eapply dict_get_Some_key.
      * destruct (Hboth k (or_intror Hk)) as (f1 & f2 & H1 & _ & _).
        by eapply dict_get_Some_key.
    + intros k f1 f2 H1 H2.
      destruct (Hboth k (or_introl (dict_get_Some_key _ _ _ H1)))
        as (f1' & f2' & H1' & H2' & Hi).
      congruence.
  - intros (Hkeys & Hsame) k Hk. cbv beta zeta.
    apply elem_of_py_set_union in Hk.
    assert (k ∈ dict_keys d1 ∧ k ∈ dict_keys d2) as [K1 K2].
    { destruct Hk as [Hk | Hk]; split; try done; by apply Hkeys. }
    apply dict_get_is_Some in K1 as [f1 H1], K2 as [f2 H2].
    rewrite H1, H2. rewrite (Hsame k f1 f2 H1 H2).
    by rewrite !bool_decide_eq_false_2 by (intros Hne; by apply Hne).
Qed.

End DiffNothing.

(** X6. The diff of two structures is empty exactly when they have the
    same element paths with the same text at each, the same value for
    every attribute of every path, the same table paths with the same
    headers and column count at each, and the same form paths with the
    same inputs at each. Tags, tails, row counts, and the action and method
    of a form take no part. *)
Theorem no_change_iff_agree (L : PyLib) (A B : PageStructure) (t : Z) :
  compare_structures L A B t = [] ↔ structures_agree A B.
Proof.
  unfold compare_structures, structures_agree.
  rewrite !app_nil.
  by rewrite compare_elements_nil, compare_attributes_nil,
    compare_tables_nil, compare_forms_nil.
Qed.

(** ** DiffEngine: what a change says *)

Section DiffShape.

Context (L : PyLib) (t : Z).

(** The changes of each comparison, by form. *)
Lemma compare_elements_inv (d1 d2 : dict ElementSnapshot) c :
  c ∈ _compare_elements L d1 d2 t →
  (∃ e, dict_get d1 (xpath c) = Some e ∧ (xpath c ∉ dict_keys d2)
        ∧ c = mkChangeDetails element_removed (xpath c)
                (Some (str_element L e)) None (tag e) t)
  ∨ (∃ e, dict_get d2 (xpath c) = Some e ∧ (xpath c ∉ dict_keys d1)
          ∧ c = mkChangeDetails element_added (xpath c)
                  None (Some (str_element L e)) (tag e) t)
  ∨ (∃ e1 e2, dict_get d1 (xpath c) = Some e1
              ∧ dict_get d2 (xpath c) = Some e2
              ∧ text e1 ≠ text e2
              ∧ c = mkChangeDetails element_text_changed (xpath c)
                      (Some (text e1)) (Some (text e2)) (tag e1) t).
Proof.
  unfold _compare_elements. rewrite !elem_of_app, !elem_of_flat_map.
  intros [(x & Hx & Hc) | [(x & Hx & Hc) | (x & Hx & Hc)]]; cbv beta in Hc.
  - left. destruct (dict_mem d2 x) eqn:Hm; simpl in Hc;
      [by apply elem_of_nil in Hc |].
    destruct (dict_get d1 x) as [e|] eqn:Hg; [| by apply elem_of_nil in Hc].
    apply list_elem_of_singleton in Hc as ->. simpl.
    exists e. by apply dict_mem_false in Hm.
  - right; left. destruct (dict_mem d1 x) eqn:Hm; simpl in Hc;
      [by apply elem_of_nil in Hc |].
    destruct (dict_get d2 x) as [e|] eqn:Hg; [| by apply elem_of_nil in Hc].
    apply list_elem_of_singleton in Hc as ->. simpl.
    exists e. by apply dict_mem_false in Hm.
  - right; right. destruct (dict_mem d2 x); [| by apply elem_of_nil in Hc].
    destruct (dict_get d1 x) as [e1|] eqn:H1; [| by apply elem_of_nil in Hc].
    destruct (dict_get d2 x) as [e2|] eqn:H2; [| by apply elem_of_nil in Hc].
    case_bool_decide as Ht; [| by apply elem_of_nil in Hc].
    apply list_elem_of_singleton in Hc as ->. simpl. by exists e1, e2.
Qed.

Lemma compare_attributes_inv (d1 d2 : dict (dict string)) c :
  c ∈ _compare_attributes d1 d2 t →
  ∃ p n,
    old_value c = dict_get (default [] (dict_get d1 p)) n
    ∧ new_value c = dict_get (default [] (dict_get d2 p)) n
    ∧ old_value c ≠ new_value c
    ∧ xpath c = p +:+ "/@" +:+ n
    ∧ element_type c = "attribute"
    ∧ timestamp c = t
    ∧ change_type c
      = match old_value c, new_value c with
        | None, _ => attribute_added
        | Some _, None => attribute_removed
        | Some _, Some _ => attribute_modified
        end.
Proof.
  unfold _compare_attributes. rewrite elem_of_flat_map.
  intros (p & _ & Hc). cbv beta zeta in Hc.
  apply elem_of_flat_map in Hc as (n & _ & Hc). cbv beta zeta in Hc.
  case_bool_decide as Hne; [| by apply elem_of_nil in Hc].
  apply list_elem_of_singleton in Hc as ->. by exists p, n.
Qed.

Lemma compare_tables_inv (d1 d2 : dict TableSnapshot) c :
  c ∈ _compare_tables L d1 d2 t →
  (∃ tb, dict_get d1 (xpath c) = Some tb ∧ (xpath c ∉ dict_keys d2)
         ∧ c = mkChangeDetails table_removed (xpath c)
                 (Some (str_table L tb)) None "table" t)
  ∨ (∃ tb, dict_get d2 (xpath c) = Some tb ∧ (xpath c ∉ dict_keys d1)
           ∧ c = mkChangeDetails table_added (xpath c)
                   None (Some (str_table L tb)) "table" t)
  ∨ (∃ t1 t2, dict_get d1 (xpath c) = Some t1
              ∧ dict_get d2 (xpath c) = Some t2
              ∧ ((headers t1 ≠ headers t2
                  ∧ c = mkChangeDetails table_headers_changed (xpath c)
                          (Some (str_headers L (headers t1)))
                          (Some (str_headers L (headers t2))) "table" t)
                 ∨ (column_count t1 ≠ column_count t2
                    ∧ c = mkChangeDetails table_columns_changed (xpath c)
                            (Some (str_int L (column_count t1)))
                            (Some (str_int L (column_count t2)))
                            "table" t))).
Proof.
  unfold _compare_tables. rewrite !elem_of_app, !elem_of_flat_map.
  intros [(x & Hx & Hc) | [(x & Hx & Hc) | (x & Hx & Hc)]]; cbv beta in Hc.
  - left. destruct (dict_mem d2 x) eqn:Hm; simpl in Hc;
      [by apply elem_of_nil in Hc |].
    destruct (dict_get d1 x) as [e|] eqn:Hg; [| by apply elem_of_nil in Hc].
    apply list_elem_of_singleton in Hc as ->. simpl.
    exists e. by apply dict_mem_false in Hm.
  - right; left. destruct (dict_mem d1 x) eqn:Hm; simpl in Hc;
      [by apply elem_of_nil in Hc |].
    destruct (dict_get d2 x) as [e|] eqn:Hg; [| by apply elem_of_nil in Hc].
    apply list_elem_of_singleton in Hc as ->. simpl.
    exists e. by apply dict_mem_false in Hm.
  - right; right. destruct (dict_mem d2 x); [| by apply elem_of_nil in Hc].
    destruct (dict_get d1 x) as [t1|] eqn:H1; [| by apply elem_of_nil in Hc].
    destruct (dict_get d2 x) as [t2|] eqn:H2; [| by apply elem_of_nil in Hc].
    apply elem_of_app in Hc as [Hc | Hc];
      (case_bool_decide as Ht; [| by apply elem_of_nil in Hc]);
      apply list_elem_of_singleton in Hc as ->; simpl; exists t1, t2;
      (split; [done | split; [done |]]); [by left | by right].
Qed.

Lemma compare_forms_inv (d1 d2 : dict FormSnapshot) c :
  c ∈ _compare_forms L d1 d2 t →
  (∃ f, dict_get d2 (xpath c) = Some f ∧ (xpath c ∉ dict_keys d1)
        ∧ c = mkChangeDetails form_added (xpath c)
                None (Some (str_form L f)) "form" t)
  ∨ (∃ f, dict_get d1 (xpath c) = Some f ∧ (xpath c ∉ dict_keys d2)
          ∧ c = mkChangeDetails form_removed (xpath c)
                  (Some (str_form L f)) None "form" t)
  ∨ (∃ f1 f2, dict_get d1 (xpath c) = Some f1
              ∧ dict_get d2 (xpath c) = Some f2
              ∧ inputs f1 ≠ inputs f2
              ∧ c = mkChangeDetails form_inputs_changed (xpath c)
                      (Some (str_inputs L (inputs f1)))
                      (Some (str_inputs L (inputs f2))) "form" t).
Proof.
  unfold _compare_forms. rewrite elem_of_flat_map.
  intros (x & Hx & Hc). cbv beta zeta in Hc.
  apply elem_of_py_set_union in Hx.
  destruct (dict_get d1 x) as [f1|] eqn:H1,
    (dict_get d2 x) as [f2|] eqn:H2.
  - right; right.
    destruct (decide (inputs f1 = inputs f2)) as [Heq | Hne].
    + rewrite Heq in Hc.
      rewrite !bool_decide_eq_false_2 in Hc by (intros ?; done).
      by apply elem_of_nil in Hc.
    + rewrite (bool_decide_eq_true_2 (inputs f1 ≠ inputs f2)) in Hc by done.
      rewrite orb_true_r in Hc.
      apply list_elem_of_singleton in Hc as ->. simpl. by exists f1, f2.
  - right; left. apply list_elem_of_singleton in Hc as ->. simpl.
    exists f1. by apply dict_get_None in H2.
  - left. apply list_elem_of_singleton in Hc as ->. simpl.
    exists f2. by apply dict_get_None in H1.
  - apply dict_get_None in H1, H2. tauto.
Qed.

(** Which comparison a change comes from shows in its type. *)
Lemma compare_elements_type (d1 d2 : dict ElementSnapshot) c :
  c ∈ _compare_elements L d1 d2 t → is_element_change (change_type c) = true.
Proof.
  intros Hc. apply compare_elements_inv in Hc
    as [(e & _ & _ & ->) | [(e & _ & _ & ->) | (e1 & e2 & _ & _ & _ & ->)]];
    done.
Qed.

Lemma compare_attributes_type (d1 d2 : dict (dict string)) c :
  c ∈ _compare_attributes d1 d2 t →
  is_attribute_change (change_type c) = true.
Proof.
  intros Hc. apply compare_attributes_inv in Hc
    as (p & n & _ & _ & _ & _ & _ & _ & ->).
  by repeat case_match.
Qed.

Lemma compare_tables_type (d1 d2 : dict TableSnapshot) c :
  c ∈ _compare_tables L d1 d2 t → is_table_change (change_type c) = true.
Proof.
  intros Hc. apply compare_tables_inv in Hc
    as [(e & _ & _ & ->) | [(e & _ & _ & ->)
       | (t1 & t2 & _ & _ & [[_ ->] | [_ ->]])]];
    done.
Qed.

Lemma compare_forms_type (d1 d2 : dict FormSnapshot) c :
  c ∈ _compare_forms L d1 d2 t → is_form_change (change_type c) = true.
Proof.
  intros Hc. apply compare_forms_inv in Hc
    as [(e & _ & _ & ->) | [(e & _ & _ & ->) | (e1 & e2 & _ & _ & _ & ->)]];
    done.
Qed.

(** The paths a loop of single guarded changes reports: those whose turn
    yields a change of the wanted type. *)
Lemma flagged_flat_map (ct : ChangeType) (body : string → list ChangeDetails)
    (l : list string) :
  (∀ k, k ∈ l → ∃ c, body k = [c] ∧ change_type c = ct ∧ xpath c = k) →
  flagged ct (flat_map body l) = l.
Proof.
  unfold flagged. induction l as [|k l IH]; intros H; [done |]. simpl.
  destruct (H k) as (c & -> & Hct & Hx); [apply list_elem_of_here |].
  simpl. rewrite bool_decide_eq_true_2 by done. simpl.
  rewrite Hx. f_equal. apply IH.
  intros k' Hk'. apply H. by apply list_elem_of_further.
Qed.

End DiffShape.

Lemma flagged_app (ct : ChangeType) (l1 l2 : list ChangeDetails) :
  flagged ct (l1 ++ l2) = flagged ct l1 ++ flagged ct l2.
Proof. unfold flagged. by rewrite List.filter_app, fmap_app. Qed.

Lemma flagged_none (ct : ChangeType) (l : list ChangeDetails) :
  (∀ c, c ∈ l → change_type c ≠ ct) → flagged ct l = [].
Proof.
  unfold flagged. induction l as [|c l IH]; intros H; [done |]. simpl.
  rewrite bool_decide_eq_false_2 by (apply H, list_elem_of_here).
  apply IH. intros c' Hc'. apply H. by apply list_elem_of_further.
Qed.

(** The added elements (tables) against an empty old side: all keys. *)
Lemma dict_mem_nil {V} (k : string) : dict_mem (@nil (string * V)) k = false.
Proof. apply dict_mem_false, not_elem_of_nil. Qed.

Lemma flagged_added_from_nothing (L : PyLib) (t : Z)
    (els : dict ElementSnapshot) (tbs : dict TableSnapshot) :
  flagged element_added (_compare_elements L [] els t) = dict_keys els
  ∧ flagged table_added (_compare_tables L [] tbs t) = dict_keys tbs.
Proof.
  unfold _compare_elements, _compare_tables.
  replace (dict_keys (@nil (string * ElementSnapshot))) with (@nil string)
    by done.
  replace (dict_keys (@nil (string * TableSnapshot))) with (@nil string)
    by done.
  cbn [flat_map app]. rewrite !app_nil_r. split.
  - apply flagged_flat_map.
    intros k Hk. apply dict_get_is_Some in Hk as [e ->].
    rewrite dict_mem_nil. by eexists.
  - apply flagged_flat_map.
    intros k Hk. apply dict_get_is_Some in Hk as [e ->].
    rewrite dict_mem_nil. by eexists.
Qed.

(** X7. Against the empty dictionary every change is an addition without
    an old value, the elements reported as added are the element paths of
    the current structure in their order, and the tables reported as added
    are its table paths in their order; the empty dictionary as the current
    side gives removals without a new value only. *)
Theorem diff_with_empty_structure (L : PyLib) (B : PageStructure) (t : Z) :
  (∀ c, c ∈ compare_structures L empty_structure B t →
        is_addition (change_type c) = true ∧ old_value c = None)
  ∧ flagged element_added (compare_structures L empty_structure B t)
    = dict_keys (default [] (elements B))
  ∧ flagged table_added (compare_structures L empty_structure B t)
    = dict_keys (default [] (tables B))
  ∧ (∀ c, c ∈ compare_structures L B empty_structure t →
          is_removal (change_type c) = true ∧ new_value c = None).
Proof.
  destruct (flagged_added_from_nothing L t (default [] (elements B))
              (default [] (tables B))) as [Hels Htbs].
  unfold compare_structures. simpl. split; [| split; [| split]].
  - intros c. rewrite !elem_of_app. intros [Hc | [Hc | [Hc | Hc]]].
    + apply compare_elements_inv in Hc
        as [(e & He & _) | [(e & _ & _ & ->)
           | (e1 & e2 & He & _)]]; done.
    + apply compare_attributes_inv in Hc
        as (p & n & Ho & Hn & Hne & _ & _ & _ & Hct).
      simpl in Ho. by rewrite Hct, Ho.
    + apply compare_tables_inv in Hc
        as [(e & He & _) | [(e & _ & _ & ->)
           | (t1 & t2 & He & _)]]; done.
    + apply compare_forms_inv in Hc
        as [(e & _ & _ & ->) | [(e & He & _)
           | (e1 & e2 & He & _)]]; done.
  - rewrite !flagged_app, Hels.
    rewrite !flagged_none; [by rewrite app_nil_r | | |]; intros c Hc Hct.
    + apply compare_forms_type in Hc. by rewrite Hct in Hc.
    + apply compare_tables_type in Hc. by rewrite Hct in Hc.
    + apply compare_attributes_type in Hc. by rewrite Hct in Hc.
  - rewrite !flagged_app, Htbs.
    rewrite !flagged_none; [by rewrite app_nil_r | | |]; intros c Hc Hct.
    + apply compare_forms_type in Hc. by rewrite Hct in Hc.
    + apply compare_attributes_type in Hc. by rewrite Hct in Hc.
    + apply compare_elements_type in Hc. by rewrite Hct in Hc.
  - intros c. rewrite !elem_of_app. intros [Hc | [Hc | [Hc | Hc]]].
    + apply compare_elements_inv in Hc
        as [(e & _ & _ & ->) | [(e & He & _)
           | (e1 & e2 & _ & He & _)]]; done.
    + apply compare_attributes_inv in Hc
        as (p & n & Ho & Hn & Hne & _ & _ & _ & Hct).
      simpl in Hn. rewrite Hct, Hn. rewrite Hn in Hne.
      by destruct (old_value c).
    + apply compare_tables_inv in Hc
        as [(e & _ & _ & ->) | [(e & He & _)
           | (t1 & t2 & _ & He & _)]]; done.
    + apply compare_forms_inv in Hc
        as [(e & He & _) | [(e & _ & _ & ->)
           | (e1 & e2 & _ & He & _)]]; done.
Qed.

(** ** DiffEngine: every difference is reported *)

Section DiffIntro.

Context (L : PyLib) (t : Z).

Lemma compare_elements_text_intro (d1 d2 : dict ElementSnapshot) p e1 e2 :
  dict_get d1 p = Some e1 → dict_get d2 p = Some e2 →
  text e1 ≠ text e2 →
  mkChangeDetails element_text_changed p (Some (text e1)) (Some (text e2))
    (tag e1) t
  ∈ _compare_elements L d1 d2 t.
Proof.
  intros H1 H2 Hne. unfold _compare_elements.
  rewrite !elem_of_app, !elem_of_flat_map. right; right.
  exists p. split; [by eapply dict_get_Some_key |]. cbv beta.
  rewrite (proj2 (dict_mem_true d2 p) (dict_get_Some_key _ _ _ H2)), H1, H2.
  rewrite bool_decide_eq_true_2 by done. apply list_elem_of_here.
Qed.

Lemma compare_attributes_intro (d1 d2 : dict (dict string)) p n :
  dict_get (default [] (dict_get d1 p)) n
  ≠ dict_get (default [] (dict_get d2 p)) n →
  mkChangeDetails
    match dict_get (default [] (dict_get d1 p)) n,
          dict_get (default [] (dict_get d2 p)) n with
    | None, _ => attribute_added
    | Some _, None => attribute_removed
    | Some _, Some _ => attribute_modified
    end
    (p +:+ "/@" +:+ n)
    (dict_get (default [] (dict_get d1 p)) n)
    (dict_get (default [] (dict_get d2 p)) n) "attribute" t
  ∈ _compare_attributes d1 d2 t.
Proof.
  intros Hne. unfold _compare_attributes.
  assert (n ∈ dict_keys (default [] (dict_get d1 p))
          ∨ n ∈ dict_keys (default [] (dict_get d2 p))) as Hn.
  { destruct (dict_get (default [] (dict_get d1 p)) n) as [v|] eqn:H1.
    - left. by eapply dict_get_Some_key.
    - right. apply dict_get_is_Some.
      by destruct (dict_get (default [] (dict_get d2 p)) n); [eexists |]. }
  assert (p ∈ dict_keys d1 ∨ p ∈ dict_keys d2) as Hp.
  { destruct Hn as [Hn | Hn]; [left | right]; apply dict_get_is_Some.
    - destruct (dict_get d1 p); [by eexists | by apply elem_of_nil in Hn].
    - destruct (dict_get d2 p); [by eexists | by apply elem_of_nil in Hn]. }
  apply elem_of_flat_map. exists p.
  split; [by apply elem_of_py_set_union |]. cbv beta zeta.
  apply elem_of_flat_map. exists n.
  split; [by apply elem_of_py_set_union |]. cbv beta zeta.
  rewrite bool_decide_eq_true_2 by done. apply list_elem_of_here.
Qed.

Lemma compare_tables_headers_intro (d1 d2 : dict TableSnapshot) p t1 t2 :
  dict_get d1 p = Some t1 → dict_get d2 p = Some t2 →
  headers t1 ≠ headers t2 →
  mkChangeDetails table_headers_changed p
    (Some (str_headers L (headers t1))) (Some (str_headers L (headers t2)))
    "table" t
  ∈ _compare_tables L d1 d2 t.
Proof.
  intros H1 H2 Hne. unfold _compare_tables.
  rewrite !elem_of_app, !elem_of_flat_map. right; right.
  exists p. split; [by eapply dict_get_Some_key |]. cbv beta.
  rewrite (proj2 (dict_mem_true d2 p) (dict_get_Some_key _ _ _ H2)), H1, H2.
  apply elem_of_app. left.
  rewrite bool_decide_eq_true_2 by done. apply list_elem_of_here.
Qed.

Lemma compare_tables_columns_intro (d1 d2 : dict TableSnapshot) p t1 t2 :
  dict_get d1 p = Some t1 → dict_get d2 p = Some t2 →
  column_count t1 ≠ column_count t2 →
  mkChangeDetails table_columns_changed p
    (Some (str_int L (column_count t1))) (Some (str_int L (column_count t2)))
    "table" t
  ∈ _compare_tables L d1 d2 t.
Proof.
  intros H1 H2 Hne. unfold _compare_tables.
  rewrite !elem_of_app, !elem_of_flat_map. right; right.
  exists p. split; [by eapply dict_get_Some_key |]. cbv beta.
  rewrite (proj2 (dict_mem_true d2 p) (dict_get_Some_key _ _ _ H2)), H1, H2.
  apply elem_of_app. right.
  rewrite bool_decide_eq_true_2 by done. apply list_elem_of_here.
Qed.

Lemma compare_forms_inputs_intro (d1 d2 : dict FormSnapshot) p f1 f2 :
  dict_get d1 p = Some f1 → dict_get d2 p = Some f2 →
  inputs f1 ≠ inputs f2 →
  mkChangeDetails form_inputs_changed p
    (Some (str_inputs L (inputs f1))) (Some (str_inputs L (inputs f2)))
    "form" t
  ∈ _compare_forms L d1 d2 t.
Proof.
  intros H1 H2 Hne. unfold _compare_forms.
  apply elem_of_flat_map. exists p.
  split; [apply elem_of_py_set_union; left; by eapply dict_get_Some_key |].
  cbv beta zeta. rewrite H1, H2.
  rewrite (bool_decide_eq_true_2 (inputs f1 ≠ inputs f2)) by done.
  rewrite orb_true_r. apply list_elem_of_here.
Qed.

(** The opposite diff, change by change. *)
Lemma compare_structures_mirror (A B : PageStructure) c :
  c ∈ compare_structures L A B t →
  (change_type c ≠ element_text_changed →
   swap_change c ∈ compare_structures L B A t)
  ∧ (change_type c = element_text_changed →
     ∃ tg, mkChangeDetails element_text_changed (xpath c) (new_value c)
             (old_value c) tg t
           ∈ compare_structures L B A t).
Proof.
  intros Hc. unfold compare_structures in *. rewrite !elem_of_app in Hc.
  destruct Hc as [Hc | [Hc | [Hc | Hc]]].
  - pose proof Hc as Hin. apply compare_elements_inv in Hc
      as [(e & _ & _ & Hc) | [(e & _ & _ & Hc)
         | (e1 & e2 & H1 & H2 & Hne & Hc)]].
    + split; [intros _ | by rewrite Hc].
      rewrite !elem_of_app. left.
      apply compare_elements_swap; [by rewrite Hc | done].
    + split; [intros _ | by rewrite Hc].
      rewrite !elem_of_app. left.
      apply compare_elements_swap; [by rewrite Hc | done].
    + split; [by rewrite Hc |]. intros _. exists (tag e2).
      rewrite !elem_of_app. left. rewrite Hc. simpl.
      apply compare_elements_text_intro; done.
  - split; [intros _ | intros Hct].
    2:{ apply compare_attributes_type in Hc. by rewrite Hct in Hc. }
    rewrite !elem_of_app. right; left.
    apply compare_attributes_inv in Hc
      as (p & n & Ho & Hn & Hne & Hx & Het & Hts & Hct).
    pose proof (compare_attributes_intro
                  (default [] (attributes B)) (default [] (attributes A))
                  p n) as Hintro.
    rewrite <- Ho, <- Hn in Hintro.
    destruct c as [ct x o nw et ts]. simpl in *.
    unfold swap_change. simpl. rewrite Hct, Hx, Het, Hts.
    destruct o as [vo|], nw as [vn|]; simpl; simpl in Hintro;
      try (apply Hintro; congruence).
    done.
  - pose proof Hc as Hin. apply compare_tables_inv in Hc
      as [(e & _ & _ & Hc) | [(e & _ & _ & Hc)
         | (t1 & t2 & H1 & H2 & [[Hne Hc] | [Hne Hc]])]].
    + split; [intros _ | by rewrite Hc].
      rewrite !elem_of_app. right; right; left.
      apply compare_tables_swap; [by rewrite Hc | done].
    + split; [intros _ | by rewrite Hc].
      rewrite !elem_of_app. right; right; left.
      apply compare_tables_swap; [by rewrite Hc | done].
    + split; [intros _ | by rewrite Hc].
      rewrite !elem_of_app. right; right; left. rewrite Hc.
      apply compare_tables_headers_intro; done.
    + split; [intros _ | by rewrite Hc].
      rewrite !elem_of_app. right; right; left. rewrite Hc.
      apply compare_tables_columns_intro; done.
  - pose proof Hc as Hin. apply compare_forms_inv in Hc
      as [(e & _ & _ & Hc) | [(e & _ & _ & Hc)
         | (f1 & f2 & H1 & H2 & Hne & Hc)]].
    + split; [intros _ | by rewrite Hc].
      rewrite !elem_of_app. right; right; right.
      apply compare_forms_swap; [by rewrite Hc | done].
    + split; [intros _ | by rewrite Hc].
      rewrite !elem_of_app. right; right; right.
      apply compare_forms_swap; [by rewrite Hc | done].
    + split; [intros _ | by rewrite Hc].
      rewrite !elem_of_app. right; right; right. rewrite Hc.
      apply compare_forms_inputs_intro; done.
Qed.

End DiffIntro.

Lemma compare_structures_restamp (L : PyLib) (A B : PageStructure)
    (t1 t2 : Z) (c : ChangeDetails) :
  c ∈ compare_structures L A B t1 →
  with_timestamp t2 c ∈ compare_structures L A B t2.
Proof.
  intros Hc. rewrite <- (compare_structures_clock L t1 t2).
  by apply list_elem_of_In, in_map, list_elem_of_In.
Qed.

(** X8. All changes of one diff carry the time read at its start. *)
Theorem changes_share_timestamp (L : PyLib) (A B : PageStructure) (t : Z)
    (c : ChangeDetails) :
  c ∈ compare_structures L A B t → timestamp c = t.
Proof.
  intros Hc. rewrite <- (compare_structures_clock L t t) in Hc.
  apply list_elem_of_In, in_map_iff in Hc as (c' & <- & _). done.
Qed.

(** X9. The opposite diff reports the opposite of every change, not of
    additions and removals only: a modified attribute, changed headers, a
    changed column count and changed inputs appear with old and new value
    exchanged, and so does a changed text, whose [element_type] is then the
    tag of the other side. *)
Theorem diff_is_mirrored (L : PyLib) (A B : PageStructure) (t1 t2 : Z)
    (c : ChangeDetails) :
  c ∈ compare_structures L A B t1 →
  (change_type c ≠ element_text_changed →
   with_timestamp t2 (swap_change c) ∈ compare_structures L B A t2)
  ∧ (change_type c = element_text_changed →
     ∃ tg, mkChangeDetails element_text_changed (xpath c) (new_value c)
             (old_value c) tg t2
           ∈ compare_structures L B A t2).
Proof.
  intros Hc. destruct (compare_structures_mirror L t1 A B c Hc) as [Hs Ht].
  split.
  - intros Hct. by apply (compare_structures_restamp L B A t1 t2), Hs.
  - intros Hct. destruct (Ht Hct) as [tg Htg]. exists tg.
    by apply (compare_structures_restamp L B A t1 t2) in Htg.
Qed.

(** X10. An attribute change always has different old and new values, and
    its type says which of them is missing: added when there is no old
    value, removed when there is an old but no new value, modified when
    both are there. *)
Theorem attribute_changes_classified (L : PyLib) (A B : PageStructure)
    (t : Z) (c : ChangeDetails) :
  c ∈ compare_structures L A B t →
  is_attribute_change (change_type c) = true →
  old_value c ≠ new_value c
  ∧ element_type c = "attribute"
  ∧ (change_type c = attribute_added ↔ old_value c = None)
  ∧ (change_type c = attribute_removed
     ↔ old_value c ≠ None ∧ new_value c = None)
  ∧ (change_type c = attribute_modified
     ↔ old_value c ≠ None ∧ new_value c ≠ None).
Proof.
  unfold compare_structures. rewrite !elem_of_app.
  intros [Hc | [Hc | [Hc | Hc]]] Hat.
  - apply compare_elements_type in Hc. by destruct (change_type c).
  - apply compare_attributes_inv in Hc
      as (p & n & _ & _ & Hne & _ & Het & _ & Hct).
    split; [done |]. split; [done |]. rewrite Hct.
    destruct (old_value c), (new_value c);
      repeat split; intros; try done; try tauto; intuition congruence.
  - apply compare_tables_type in Hc. by destruct (change_type c).
  - apply compare_forms_type in Hc. by destruct (change_type c).
Qed.

(** X11. A changed text is reported exactly where it is: the diff holds an
    [element_text_changed] for a path if and only if the path is in both
    element dictionaries with different text, and the change carries the
    two texts and the tag of the old side. *)
Theorem text_change_reported_exactly (L : PyLib) (A B : PageStructure)
    (t : Z) (p : string) (o n : option string) (tg : string) :
  mkChangeDetails element_text_changed p o n tg t
  ∈ compare_structures L A B t
  ↔ ∃ e1 e2, dict_get (default [] (elements A)) p = Some e1
             ∧ dict_get (default [] (elements B)) p = Some e2
             ∧ text e1 ≠ text e2
             ∧ o = Some (text e1) ∧ n = Some (text e2) ∧ tg = tag e1.
Proof.
  split.
  - unfold compare_structures. rewrite !elem_of_app.
    intros [Hc | [Hc | [Hc | Hc]]].
    + apply compare_elements_inv in Hc
        as [(e & _ & _ & Hc) | [(e & _ & _ & Hc)
           | (e1 & e2 & H1 & H2 & Hne & Hc)]]; try done.
      simpl in *. injection Hc as -> -> ->. by exists e1, e2.
    + by apply compare_attributes_type in Hc.
    + by apply compare_tables_type in Hc.
    + by apply compare_forms_type in Hc.
  - intros (e1 & e2 & H1 & H2 & Hne & -> & -> & ->).
    unfold compare_structures. rewrite !elem_of_app. left.
    by apply compare_elements_text_intro.
Qed.

(** ** DiffEngine: one element change for a path *)

Lemma paths_sublist (body : string → list ChangeDetails) (l : list string) :
  (∀ k, body k = [] ∨ ∃ c, body k = [c] ∧ xpath c = k) →
  sublist (xpath <$> flat_map body l) l.
Proof.
  intros H. induction l as [|k l IH]; simpl; [constructor |].
  destruct (H k) as [-> | (c & -> & <-)]; simpl; by constructor.
Qed.

Lemma paths_of_loop (body : string → list ChangeDetails) (l : list string) x :
  x ∈ xpath <$> flat_map body l → ∃ k c, k ∈ l ∧ c ∈ body k ∧ x = xpath c.
Proof.
  intros Hx. apply list_elem_of_fmap in Hx as (c & -> & Hc).
  apply elem_of_flat_map in Hc as (k & Hk & Hc). by exists k, c.
Qed.

(** X12. With unique keys in both element dictionaries, as Python
    dictionaries have them, the element comparison reports every path at
    most once: removed, added and text changed exclude one another. *)
Theorem element_paths_reported_once (L : PyLib)
    (d1 d2 : dict ElementSnapshot) (t : Z) :
  NoDup (dict_keys d1) → NoDup (dict_keys d2) →
  NoDup (xpath <$> _compare_elements L d1 d2 t).
Proof.
  intros N1 N2. unfold _compare_elements. rewrite !fmap_app.
  apply NoDup_app. split; [| split; [| apply NoDup_app; split; [| split]]].
  - eapply sublist_NoDup; [exact N1 | apply paths_sublist].
    intros k. destruct (negb (dict_mem d2 k)); [| by left].
    destruct (dict_get d1 k); [right; by eexists | by left].
  - intros x Hx Hx'.
    apply paths_of_loop in Hx as (k & c & _ & Hc & ->). cbv beta in Hc.
    destruct (dict_mem d2 k) eqn:Hm; simpl in Hc;
      [by apply elem_of_nil in Hc |].
    apply dict_mem_false in Hm.
    destruct (dict_get d1 k); [| by apply elem_of_nil in Hc].
    apply list_elem_of_singleton in Hc. subst c. cbn [xpath] in Hx'.
    apply elem_of_app in Hx' as [Hx' | Hx'];
      apply paths_of_loop in Hx' as (k' & c' & Hk' & Hc' & Hx');
      cbv beta in Hc'.
    + destruct (negb (dict_mem d1 k')); [| by apply elem_of_nil in Hc'].
      destruct (dict_get d2 k'); [| by apply elem_of_nil in Hc'].
      apply list_elem_of_singleton in Hc'. subst c'. cbn [xpath] in Hx'.
      by subst k'.
    + destruct (dict_mem d2 k') eqn:Hm'; [| by apply elem_of_nil in Hc'].
      apply dict_mem_true in Hm'.
      destruct (dict_get d1 k'); [| by apply elem_of_nil in Hc'].
      destruct (dict_get d2 k'); [| by apply elem_of_nil in Hc'].
      case_bool_decide; [| by apply elem_of_nil in Hc'].
      apply list_elem_of_singleton in Hc'. subst c'. cbn [xpath] in Hx'.
      by subst k'.
  - eapply sublist_NoDup; [exact N2 | apply paths_sublist].
    intros k. destruct (negb (dict_mem d1 k)); [| by left].
    destruct (dict_get d2 k); [right; by eexists | by left].
  - intros x Hx Hx'.
    apply paths_of_loop in Hx as (k & c & _ & Hc & ->). cbv beta in Hc.
    destruct (dict_mem d1 k) eqn:Hm; simpl in Hc;
      [by apply elem_of_nil in Hc |].
    apply dict_mem_false in Hm.
    destruct (dict_get d2 k); [| by apply elem_of_nil in Hc].
    apply list_elem_of_singleton in Hc. subst c. cbn [xpath] in Hx'.
    apply paths_of_loop in Hx' as (k' & c' & Hk' & Hc' & Hx').
    cbv beta in Hc'.
    destruct (dict_mem d2 k'); [| by apply elem_of_nil in Hc'].
    destruct (dict_get d1 k'); [| by apply elem_of_nil in Hc'].
    destruct (dict_get d2 k'); [| by apply elem_of_nil in Hc'].
    case_bool_decide; [| by apply elem_of_nil in Hc'].
    apply list_elem_of_singleton in Hc'. subst c'. cbn [xpath] in Hx'.
    by subst k'.
  - eapply sublist_NoDup; [exact N1 | apply paths_sublist].
    intros k. destruct (dict_mem d2 k); [| by left].
    destruct (dict_get d1 k); [| by left].
    destruct (dict_get d2 k); [| by left].
    case_bool_decide; [right; by eexists | by left].
Qed.

(** ** DatabaseManager: ids, the latest row *)

Lemma next_id_above (ids : list nat) (i : nat) :
  i ∈ ids → i < next_id ids.
Proof.
  unfold next_id. induction ids as [|j ids IH]; simpl.
  - intros H. by apply elem_of_nil in H.
  - intros [-> | H]%elem_of_cons; [lia |]. apply IH in H. lia.
Qed.

Lemma next_id_fresh (ids : list nat) : next_id ids ∉ ids.
Proof. intros H. apply next_id_above in H. lia. Qed.

Lemma latest_row_snoc (rows : list ScanRow) (r : ScanRow) (url : string) :
  latest_row (rows ++ [r]) url
  = if bool_decide (sh_url r = url) then
      match latest_row rows url with
      | Some b =>
          if (sh_scan_time b <? sh_scan_time r)%Z then Some r else Some b
      | None => Some r
      end
    else latest_row rows url.
Proof. unfold latest_row. by rewrite foldl_app. Qed.

Lemma latest_row_None (rows : list ScanRow) (url : string) :
  latest_row rows url = None ↔ ∀ r, r ∈ rows → sh_url r ≠ url.
Proof.
  induction rows as [|r rows IH] using rev_ind.
  - split; [| done]. intros _ r H. by apply elem_of_nil in H.
  - rewrite latest_row_snoc. case_bool_decide as Hu.
    + split.
      * destruct (latest_row rows url); [| done]. by case_match.
      * intros H. exfalso. apply (H r); [| done].
        apply elem_of_app. right. by apply list_elem_of_singleton.
    + rewrite IH. split.
      * intros H r' [Hr' | Hr']%elem_of_app; [by apply H |].
        apply list_elem_of_singleton in Hr'. by subst r'.
      * intros H r' Hr'. apply H, elem_of_app. by left.
Qed.

Lemma latest_row_Some (rows : list ScanRow) (url : string) (b : ScanRow) :
  latest_row rows url = Some b →
  b ∈ rows ∧ sh_url b = url
  ∧ ∀ r, r ∈ rows → sh_url r = url → (sh_scan_time r ≤ sh_scan_time b)%Z.
Proof.
  revert b. induction rows as [|r rows IH] using rev_ind; intros b.
  - done.
  - rewrite latest_row_snoc. case_bool_decide as Hu.
    + destruct (latest_row rows url) as [b'|] eqn:Hb'.
      * destruct (IH b' eq_refl) as (Hin & Hurl & Hmax).
        destruct (sh_scan_time b' <? sh_scan_time r)%Z eqn:Hle;
          intros [= <-].
        -- apply Z.ltb_lt in Hle. split; [| split; [done |]].
           { apply elem_of_app. right. by apply list_elem_of_singleton. }
           intros r' [Hr' | Hr']%elem_of_app Hu'.
           ++ specialize (Hmax r' Hr' Hu'). lia.
           ++ apply list_elem_of_singleton in Hr'. subst r'. lia.
        -- apply Z.ltb_ge in Hle. split; [| split; [done |]].
           { apply elem_of_app. by left. }
           intros r' [Hr' | Hr']%elem_of_app Hu'.
           ++ by apply Hmax.
           ++ apply list_elem_of_singleton in Hr'. subst r'. lia.
      * intros [= <-]. split; [| split; [done |]].
        { apply elem_of_app. right. by apply list_elem_of_singleton. }
        intros r' [Hr' | Hr']%elem_of_app Hu'.
        -- by destruct (proj1 (latest_row_None _ _) Hb' r' Hr').
        -- apply list_elem_of_singleton in Hr'. subst r'. lia.
    + intros Hb. destruct (IH b Hb) as (Hin & Hurl & Hmax).
      split; [| split; [done |]].
      { apply elem_of_app. by left. }
      intros r' [Hr' | Hr']%elem_of_app Hu'; [by apply Hmax |].
      apply list_elem_of_singleton in Hr'. by subst r'.
Qed.

(** A row later than every row of its URL is the latest one after it has
    been inserted, and a row of another URL changes nothing. *)
Lemma latest_row_snoc_later (rows : list ScanRow) (r : ScanRow)
    (url : string) :
  sh_url r = url →
  (∀ r', r' ∈ rows → sh_url r' = url →
         (sh_scan_time r' < sh_scan_time r)%Z) →
  latest_row (rows ++ [r]) url = Some r.
Proof.
  intros Hu Hlater. rewrite latest_row_snoc.
  rewrite bool_decide_eq_true_2 by done.
  destruct (latest_row rows url) as [b|] eqn:Hb; [| done].
  apply latest_row_Some in Hb as (Hin & Hurl & _).
  specialize (Hlater b Hin Hurl).
  destruct (sh_scan_time b <? sh_scan_time r)%Z eqn:Hle; [done |].
  apply Z.ltb_ge in Hle. lia.
Qed.

(** ** DatabaseManager: what a write leaves *)

(** X13. [get_last_scan] answers [None] exactly when [scan_history] has no
    row of the URL; otherwise it answers the hash and the structure of a row
    of that URL, and no row of the URL has a later [scan_time]. The
    database is left as it was. *)
Theorem get_last_scan_is_latest (W : World) (url : string) (s : state) :
  sqlite_read_fails W = false →
  db (get_last_scan W url s).2 = db s
  ∧ ((get_last_scan W url s).1 = Returned None
     ↔ ∀ r, r ∈ scan_history (db s) → sh_url r ≠ url)
  ∧ ∀ html_hash xpath_structure,
      (get_last_scan W url s).1 = Returned (Some (html_hash, xpath_structure))
      → ∃ b, b ∈ scan_history (db s) ∧ sh_url b = url
             ∧ sh_html_hash b = html_hash
             ∧ sh_xpath_structure b = xpath_structure
             ∧ ∀ r, r ∈ scan_history (db s) → sh_url r = url →
                    (sh_scan_time r ≤ sh_scan_time b)%Z.
Proof.
  intros Hr. rewrite get_last_scan_reads by done. cbn [fst snd db].
  split; [done |]. split.
  - rewrite <- latest_row_None.
    destruct (latest_row (scan_history (db s)) url); simpl; split;
      intros H; by try injection H.
  - intros h x H.
    destruct (latest_row (scan_history (db s)) url) as [b|] eqn:Hb;
      simpl in H; [| done].
    injection H as <- <-.
    apply latest_row_Some in Hb as (Hin & Hurl & Hmax). by exists b.
Qed.

(** X14. What [save_scan_result] has written, [get_last_scan] reads back:
    after a committed write at a time later than the earlier scans of the
    URL, the last scan of the URL is the hash and the structure just
    written, and the last scan of any other URL is what it was. *)
Theorem save_then_get_last_scan (W W' : World)
    (url html_hash xpath_structure : string) (changes : list ChangeDetails)
    (s : state) :
  sqlite_write_fails W = false →
  sqlite_read_fails W' = false →
  (∀ r, r ∈ scan_history (db s) → sh_url r = url →
        (sh_scan_time r < clock W)%Z) →
  ((save_scan_result W url html_hash xpath_structure changes;;
    get_last_scan W' url) s).1
  = Returned (Some (html_hash, xpath_structure))
  ∧ ∀ other, other ≠ url →
      ((save_scan_result W url html_hash xpath_structure changes;;
        get_last_scan W' other) s).1
      = (get_last_scan W' other s).1.
Proof.
  intros Hw Hr Hlater.
  unfold mbind, M_bind, bind.
  rewrite save_scan_result_commits by done.
  split.
  - rewrite get_last_scan_reads by done. cbn [fst snd db with_scan_record
      scan_history].
    rewrite (latest_row_snoc_later _ _ url); [done | done |].
    intros r' Hin Hu. by apply Hlater.
  - intros other Hne. rewrite !get_last_scan_reads by done.
    cbn [fst snd db with_scan_record scan_history].
    rewrite latest_row_snoc. cbn [sh_url].
    by rewrite bool_decide_eq_false_2 by done.
Qed.

(** ** ScanOrchestrator: the first scan and a scan that finds changes *)

(** X15. The first scan of a URL, when [scan_history] has no row of it and
    [json.dumps] can serialise the structure of the page (the page holds no
    comment and no processing instruction), creates the baseline: it makes
    the four calls fetch, extract, read and write, compares nothing, alerts
    nobody, writes one record with no changes and returns [False], whatever
    the configuration. *)
Theorem first_scan_is_baseline (L : PyLib) (W : World) (config : Config)
    (d : Database) (url current_html : string) :
  session_get W url = Returned current_html →
  py_truthy current_html = true →
  sqlite_read_fails W = false →
  sqlite_write_fails W = false →
  page_serialisable L current_html = true →
  (∀ r, r ∈ scan_history d → sh_url r ≠ url) →
  ∃ current_structure,
    extract_xpath_structure L current_html = Returned current_structure
    ∧ (run_scan L W config d url).1 = Returned false
    ∧ trace (run_scan L W config d url).2
      = [ev_fetch_page url; ev_extract_xpath_structure current_html;
         ev_get_last_scan url;
         ev_save_scan_result url (md5_hexdigest L current_html)
           (json_dumps L current_structure) []]
    ∧ scan_history (db (run_scan L W config d url).2)
      = scan_history d
        ++ [mkScanRow (next_id (sh_id <$> scan_history d)) url (clock W)
              (md5_hexdigest L current_html)
              (json_dumps L current_structure) 0]
    ∧ detected_changes (db (run_scan L W config d url).2)
      = detected_changes d.
Proof.
  intros Hf Ht Hr Hw Hser Hnone.
  eexists. split; [apply extract_xpath_structure_returns |].
  apply latest_row_None in Hnone.
  pose proof (run_scan_after_diff L W config d url current_html _ Hf Ht Hr
                (extract_xpath_structure_returns L current_html)) as Hrun.
  cbv zeta in Hrun.
  rewrite (page_serialisable_structure L current_html _
             (extract_xpath_structure_returns L current_html)) in Hser.
  unfold diff_stage_returns, diff_calls, changeset_against_prior in Hrun.
  rewrite Hnone, Hser, Hw, app_nil_r in Hrun. rewrite Hrun.
  cbn [fst snd db trace with_scan_record scan_history detected_changes
       change_rows length scan_prologue app].
  by rewrite app_nil_r.
Qed.

(** X16. A scan that finds another hash than the stored one, a stored
    structure that [json.loads] reads as a structure dictionary, and a
    current structure that [json.dumps] can serialise, reports the diff of
    the stored structure against the current one: that diff is what the
    alerts carry and what the store receives, the record counts its changes,
    each change becomes a row of [detected_changes] in the order of the
    diff, and the scan returns [True] exactly when the diff is not empty. *)
Theorem changed_scan_reports_diff (L : PyLib) (W : World) (config : Config)
    (d : Database) (url current_html : string) (r : ScanRow)
    (old : PageStructure) :
  session_get W url = Returned current_html →
  py_truthy current_html = true →
  sqlite_read_fails W = false →
  sqlite_write_fails W = false →
  page_serialisable L current_html = true →
  latest_row (scan_history d) url = Some r →
  sh_html_hash r ≠ md5_hexdigest L current_html →
  json_loads L (sh_xpath_structure r) = Returned (json_structure old) →
  ∃ current_structure,
    extract_xpath_structure L current_html = Returned current_structure
    ∧ let changes :=
        compare_structures L old current_structure (clock W) in
      let scan_id := next_id (sh_id <$> scan_history d) in
      (run_scan L W config d url).1 = Returned (0 <? length changes)%nat
      ∧ trace (run_scan L W config d url).2
        = [ev_fetch_page url; ev_extract_xpath_structure current_html;
           ev_get_last_scan url;
           ev_compare_structures (json_structure old) current_structure]
          ++ alerts_of config url changes
          ++ [ev_save_scan_result url (md5_hexdigest L current_html)
                (json_dumps L current_structure) changes]
      ∧ scan_history (db (run_scan L W config d url).2)
        = scan_history d
          ++ [mkScanRow scan_id url (clock W) (md5_hexdigest L current_html)
                (json_dumps L current_structure) (length changes)]
      ∧ detected_changes (db (run_scan L W config d url).2)
        = detected_changes d
          ++ change_rows W scan_id (next_id (dc_id <$> detected_changes d))
               changes.
Proof.
  intros Hf Ht Hr Hw Hser Hl Hh Hj.
  eexists. split; [apply extract_xpath_structure_returns |].
  pose proof (run_scan_after_diff L W config d url current_html _ Hf Ht Hr
                (extract_xpath_structure_returns L current_html)) as Hrun.
  cbv zeta in Hrun.
  rewrite (page_serialisable_structure L current_html _
             (extract_xpath_structure_returns L current_html)) in Hser.
  unfold diff_stage_returns, diff_calls, changeset_against_prior in Hrun.
  rewrite Hl in Hrun.
  rewrite bool_decide_eq_true_2 in Hrun by (intros Heq; by apply Hh).
  rewrite Hj, Hser, Hw in Hrun. cbv zeta. rewrite Hrun.
  cbn [fst snd db trace with_scan_record scan_history detected_changes
       scan_prologue].
  repeat split; try done; by rewrite <- !app_assoc.
Qed.

(** ** ScanOrchestrator: every execution *)

Lemma filter_none {A} (f : A → bool) (l : list A) :
  Forall (λ x, f x = false) l → List.filter f l = [].
Proof.
  induction 1 as [|x l Hx _ IH]; [done |]. cbn [List.filter].
  by rewrite Hx.
Qed.

(** X17. In every execution of a scan the alerts are all or nothing:
    either none is sent, or the notifier is set, the diff is not empty, and
    each configured recipient gets one alert, in the order of the
    configuration, all for the scanned URL and with the same changeset.
    After the alerts the scan ends in one of two ways: with the call of
    [save_scan_result], which receives that changeset and is the last call
    of the scan, or, when [json.dumps] cannot serialise the structure of the
    page, with [TypeError], the database as it was and the store not
    called. *)
Theorem alerts_are_all_or_nothing (L : PyLib) (W : World) (config : Config)
    (d : Database) (url : string) :
  List.filter is_send_alert (trace (run_scan L W config d url).2) = []
  ∨ email_enabled config = true
    ∧ ∃ changes,
        changes ≠ []
        ∧ List.filter is_send_alert (trace (run_scan L W config d url).2)
          = map (λ recipient,
                   ev_send_alert recipient url changes (html_diff_of config))
              (recipients config)
        ∧ ((∃ html_hash xpath_structure,
              last (trace (run_scan L W config d url).2)
              = Some
                  (ev_save_scan_result url html_hash xpath_structure changes))
           ∨ (run_scan L W config d url).1 = Raised TypeError
             ∧ db (run_scan L W config d url).2 = d
             ∧ List.filter is_save_scan_result
                 (trace (run_scan L W config d url).2) = []).
Proof.
  destruct (run_scan_cases L W config d url)
    as [(_ & Hno & _) | (html & cs & Hf & Ht & Hr & Hcs & Hd)].
  { left. apply filter_none. eapply Forall_impl; [exact Hno |].
    by intros e [He _]. }
  pose proof (run_scan_after_diff L W config d url html cs Hf Ht Hr Hcs)
    as Hrun.
  cbv zeta in Hrun. rewrite Hd in Hrun.
  pose proof (diff_calls_alerts L W config d url html cs) as Hal.
  pose proof (diff_calls_no_store L W config d url html cs) as Hns.
  assert (List.filter is_send_alert (trace (run_scan L W config d url).2)
          = alerts_of config url
              (changeset_against_prior L W d url html cs)) as Halerts.
  { rewrite Hrun.
    destruct (structure_serialisable cs);
      [destruct (sqlite_write_fails W) |]; cbn [snd trace];
      rewrite ?List.filter_app, Hal;
      cbn [scan_prologue List.filter is_send_alert app];
      by rewrite ?app_nil_r. }
  rewrite Halerts.
  destruct (changeset_against_prior L W d url html cs) as [|c rest] eqn:Hc;
    [by left |].
  unfold alerts_of. destruct (email_enabled config) eqn:He; [| by left].
  right. split; [done |]. exists (c :: rest).
  split; [done |]. split; [done |].
  rewrite Hrun.
  destruct (structure_serialisable cs);
    [destruct (sqlite_write_fails W) |]; cbn [fst snd db trace].
  - left. eexists _, _. by rewrite last_snoc.
  - left. eexists _, _. by rewrite last_snoc.
  - right. split; [done |]. split; [done |].
    rewrite List.filter_app. cbn [scan_prologue List.filter
      is_save_scan_result app].
    by apply filter_none.
Qed.

Lemma change_rows_length (W : World) (scan_id first_id : nat)
    (changes : list ChangeDetails) :
  length (change_rows W scan_id first_id changes) = length changes.
Proof.
  revert first_id. induction changes as [|c cs IH]; intros i; simpl;
    [done | by rewrite IH].
Qed.

Lemma change_rows_scan_id (W : World) (scan_id first_id : nat)
    (changes : list ChangeDetails) :
  Forall (λ c, dc_scan_id c = scan_id)
    (change_rows W scan_id first_id changes).
Proof.
  revert first_id. induction changes as [|c cs IH]; intros i; simpl;
    constructor; [done | apply IH].
Qed.

Lemma change_rows_ids (W : World) (scan_id first_id : nat)
    (changes : list ChangeDetails) :
  dc_id <$> change_rows W scan_id first_id changes
  = seq first_id (length changes).
Proof.
  revert first_id. induction changes as [|c cs IH]; intros i; simpl;
    [done | by rewrite IH].
Qed.

(** X18. The value a scan returns agrees with the record it leaves. When
    [scan_url] returns [True], exactly one row of the URL has been added to
    [scan_history], with [changes_detected] above zero, and as many rows
    with its id have been added to [detected_changes]. When it returns
    [False], [detected_changes] is as it was and [scan_history] is as it
    was or has one more row of the URL, with [changes_detected] zero. *)
Theorem scan_verdict_matches_record (L : PyLib) (W : World) (config : Config)
    (d : Database) (url : string) (verdict : bool) :
  (run_scan L W config d url).1 = Returned verdict →
  if verdict then
    ∃ r rows,
      scan_history (db (run_scan L W config d url).2) = scan_history d ++ [r]
      ∧ sh_url r = url ∧ 0 < sh_changes_detected r
      ∧ detected_changes (db (run_scan L W config d url).2)
        = detected_changes d ++ rows
      ∧ length rows = sh_changes_detected r
      ∧ Forall (λ c, dc_scan_id c = sh_id r) rows
  else
    detected_changes (db (run_scan L W config d url).2) = detected_changes d
    ∧ (scan_history (db (run_scan L W config d url).2) = scan_history d
       ∨ ∃ r,
           scan_history (db (run_scan L W config d url).2)
           = scan_history d ++ [r]
           ∧ sh_url r = url ∧ sh_changes_detected r = 0).
Proof.
  intros Hv.
  destruct (run_scan_db L W config d url)
    as [(Hdb & [[e He] | [Hres _]])
       | (html_hash & xpath_structure & changes & Hres & ->)].
  - congruence.
  - rewrite Hdb. rewrite Hres in Hv. injection Hv as <-. split; [done |].
    by left.
  - rewrite Hres in Hv. injection Hv as <-. unfold with_scan_record.
    cbn [scan_history detected_changes].
    destruct changes as [|c rest]; cbn [length Nat.ltb Nat.leb].
    + split; [by rewrite app_nil_r |]. right. by eexists.
    + eexists _, _. split; [done |]. cbn [sh_url sh_changes_detected sh_id].
      split; [done |]. split; [lia |]. split; [done |].
      split; [apply change_rows_length | apply change_rows_scan_id].
Qed.

Lemma with_scan_record_neq (W : World) (d : Database)
    (url html_hash xpath_structure : string) (changes : list ChangeDetails) :
  with_scan_record W d url html_hash xpath_structure changes ≠ d.
Proof.
  intros H. apply (f_equal (λ x, length (scan_history x))) in H.
  unfold with_scan_record in H. cbn [scan_history] in H.
  rewrite length_app in H. simpl in H. lia.
Qed.

(** X19. A scan leaves the database untouched in two cases only: when it
    raises, and when the fetch failed with a request error or came back
    with an empty body. Every other scan has written its record. *)
Theorem scan_without_record (L : PyLib) (W : World) (config : Config)
    (d : Database) (url : string) :
  db (run_scan L W config d url).2 = d
  ↔ (∃ e, (run_scan L W config d url).1 = Raised e)
    ∨ session_get W url = Raised RequestException
    ∨ session_get W url = Returned "".
Proof.
  destruct (run_scan_db L W config d url)
    as [(Hdb & Hres)
       | (html_hash & xpath_structure & changes & Hres & Hdb)].
  - split; [intros _ | done].
    destruct Hres as [He | [_ [Hf | Hf]]]; [by left | right.. ];
      [by left | by right].
  - split.
    + intros Hd. rewrite Hdb in Hd. by apply with_scan_record_neq in Hd.
    + intros [[e He] | [Hf | Hf]].
      * congruence.
      * rewrite run_scan_unfold, Hf in Hres. simpl in Hres.
        rewrite run_scan_unfold, Hf in Hdb. simpl in Hdb.
        symmetry in Hdb. by apply with_scan_record_neq in Hdb.
      * rewrite run_scan_unfold, Hf in Hdb. simpl in Hdb.
        symmetry in Hdb. by apply with_scan_record_neq in Hdb.
Qed.

(** ** DatabaseManager: what the tables keep *)

Lemma filter_scan_id_other (scan_id other : nat) (rows : list ChangeRow) :
  Forall (λ c, dc_scan_id c = scan_id) rows → scan_id ≠ other →
  List.filter (λ c, bool_decide (dc_scan_id c = other)) rows = [].
Proof.
  intros Hall Hne. induction Hall as [|c rows Hc _ IH]; simpl; [done |].
  by rewrite bool_decide_eq_false_2 by congruence.
Qed.

Lemma filter_scan_id_same (scan_id : nat) (rows : list ChangeRow) :
  Forall (λ c, dc_scan_id c = scan_id) rows →
  List.filter (λ c, bool_decide (dc_scan_id c = scan_id)) rows = rows.
Proof.
  intros Hall. induction Hall as [|c rows Hc _ IH]; simpl; [done |].
  by rewrite bool_decide_eq_true_2, IH by done.
Qed.

Lemma filter_scan_id_unknown (ids : list nat) (scan_id : nat)
    (rows : list ChangeRow) :
  Forall (λ c, dc_scan_id c ∈ ids) rows → scan_id ∉ ids →
  List.filter (λ c, bool_decide (dc_scan_id c = scan_id)) rows = [].
Proof.
  intros Hall Hne. induction Hall as [|c rows Hc _ IH]; simpl; [done |].
  rewrite bool_decide_eq_false_2; [done |]. intros Heq. by rewrite Heq in Hc.
Qed.

(** A committed write keeps the tables consistent. *)
Lemma with_scan_record_consistent (W : World) (d : Database)
    (url html_hash xpath_structure : string) (changes : list ChangeDetails) :
  db_consistent d →
  db_consistent (with_scan_record W d url html_hash xpath_structure changes).
Proof.
  intros (Nsh & Ndc & Hfk & Hcount).
  unfold db_consistent, with_scan_record, changes_of_scan.
  cbn [scan_history detected_changes].
  set (scan_id := next_id (sh_id <$> scan_history d)).
  set (first_id := next_id (dc_id <$> detected_changes d)).
  assert (scan_id ∉ sh_id <$> scan_history d) as Hfresh
    by apply next_id_fresh.
  rewrite !fmap_app. cbn [fmap list_fmap sh_id].
  split; [| split; [| split]].
  - apply NoDup_app. split; [done |]. split.
    + intros i Hi [-> | H]%elem_of_cons; [done | by apply elem_of_nil in H].
    + apply NoDup_singleton.
  - apply NoDup_app. split; [done |]. split.
    + intros i Hi. rewrite change_rows_ids. intros Hs.
      apply list_elem_of_In, in_seq in Hs.
      apply next_id_above in Hi. fold first_id in Hi. lia.
    + rewrite change_rows_ids. apply NoDup_ListNoDup, seq_NoDup.
  - apply Forall_app. split.
    + eapply Forall_impl; [exact Hfk |]. intros c Hc. cbv beta in *.
      apply elem_of_app. by left.
    + eapply Forall_impl; [apply change_rows_scan_id |].
      intros c Hc. cbv beta in *. rewrite Hc. apply elem_of_app. right.
      by apply list_elem_of_singleton.
  - apply Forall_app. split.
    + apply Forall_forall. intros r Hr.
      rewrite Forall_forall in Hcount. rewrite (Hcount r Hr).
      unfold changes_of_scan. rewrite List.filter_app.
      rewrite (filter_scan_id_other scan_id (sh_id r)
                 (change_rows W scan_id first_id changes));
        [by rewrite app_nil_r | apply change_rows_scan_id |].
      intros Heq. apply Hfresh. rewrite Heq.
      by apply list_elem_of_fmap_2.
    + constructor; [| done]. cbn [sh_changes_detected sh_id].
      rewrite List.filter_app.
      rewrite (filter_scan_id_unknown (sh_id <$> scan_history d) scan_id
                 (detected_changes d)) by done.
      rewrite (filter_scan_id_same scan_id
                 (change_rows W scan_id first_id changes))
        by apply change_rows_scan_id.
      cbn [app]. by rewrite change_rows_length.
Qed.

(** X20. Every scan keeps the tables consistent, however it ends: the ids
    of each table stay unique, every row of [detected_changes] refers to a
    row of [scan_history], and the [changes_detected] of every scan is the
    number of its rows in [detected_changes]. *)
Theorem scan_preserves_consistency (L : PyLib) (W : World) (config : Config)
    (d : Database) (url : string) :
  db_consistent d → db_consistent (db (run_scan L W config d url).2).
Proof.
  intros Hd.
  destruct (run_scan_db L W config d url)
    as [(-> & _) | (html_hash & xpath_structure & changes & _ & ->)];
    [done |].
  by apply with_scan_record_consistent.
Qed.

(** X21. A scan only ever appends: the rows of both tables before the scan
    are the first rows after it, unchanged and in their order, and
    [scan_history] grows by one row at most. *)
Theorem history_is_append_only (L : PyLib) (W : World) (config : Config)
    (d : Database) (url : string) :
  scan_history d `prefix_of` scan_history (db (run_scan L W config d url).2)
  ∧ detected_changes d
    `prefix_of` detected_changes (db (run_scan L W config d url).2)
  ∧ (length (scan_history (db (run_scan L W config d url).2))
     ≤ S (length (scan_history d)))%nat.
Proof.
  destruct (run_scan_db L W config d url)
    as [(-> & _) | (html_hash & xpath_structure & changes & _ & ->)];
    [split; [done |]; split; [done | lia] |].
  unfold with_scan_record. cbn [scan_history detected_changes].
  split; [by apply prefix_app_r |]. split; [by apply prefix_app_r |].
  rewrite length_app. simpl. lia.
Qed.

(** ** ScanOrchestrator: one scan after another *)

(** A scan whose fetch, read, diff stage, serialisation and write succeed
    leaves its record as the last row. *)
Lemma run_scan_commits (L : PyLib) (W : World) (config : Config)
    (d : Database) (url current_html : string) :
  session_get W url = Returned current_html →
  py_truthy current_html = true →
  sqlite_read_fails W = false →
  sqlite_write_fails W = false →
  diff_stage_returns L d url current_html = true →
  page_serialisable L current_html = true →
  ∃ current_structure changes,
    extract_xpath_structure L current_html = Returned current_structure
    ∧ db (run_scan L W config d url).2
      = with_scan_record W d url (md5_hexdigest L current_html)
          (json_dumps L current_structure) changes.
Proof.
  intros Hf Ht Hr Hw Hd Hser.
  pose proof (run_scan_after_diff L W config d url current_html _ Hf Ht Hr
                (extract_xpath_structure_returns L current_html)) as Hrun.
  cbv zeta in Hrun.
  rewrite (page_serialisable_structure L current_html _
             (extract_xpath_structure_returns L current_html)) in Hser.
  rewrite Hd, Hser, Hw in Hrun.
  eexists _, _. split; [apply extract_xpath_structure_returns |].
  by rewrite Hrun.
Qed.

(** The latest row of the URL after such a scan at a later time. *)
Lemma latest_row_with_scan_record (W : World) (d : Database)
    (url html_hash xpath_structure : string) (changes : list ChangeDetails) :
  (∀ r, r ∈ scan_history d → sh_url r = url → (sh_scan_time r < clock W)%Z) →
  (λ r, (sh_html_hash r, sh_xpath_structure r))
    <$> latest_row
          (scan_history
             (with_scan_record W d url html_hash xpath_structure changes))
          url
  = Some (html_hash, xpath_structure).
Proof.
  intros Hlater. unfold with_scan_record. cbn [scan_history].
  rewrite (latest_row_snoc_later _ _ url); [done | done |].
  intros r' Hin Hu. by apply Hlater.
Qed.

(** X22. Scanning a page twice finds nothing the second time. After a
    scan of a page that [json.dumps] can serialise, which has written its
    record at a time later than the earlier scans of the URL, a second scan
    that fetches the same content compares nothing, sends no alert, writes a
    record with no changes and returns [False]. *)
Theorem rescan_same_content (L : PyLib) (W1 W2 : World) (config : Config)
    (d : Database) (url current_html : string) :
  session_get W1 url = Returned current_html →
  session_get W2 url = Returned current_html →
  py_truthy current_html = true →
  sqlite_read_fails W1 = false → sqlite_write_fails W1 = false →
  sqlite_read_fails W2 = false → sqlite_write_fails W2 = false →
  diff_stage_returns L d url current_html = true →
  page_serialisable L current_html = true →
  (∀ r, r ∈ scan_history d → sh_url r = url →
        (sh_scan_time r < clock W1)%Z) →
  ∃ current_structure,
    extract_xpath_structure L current_html = Returned current_structure
    ∧ let d1 := db (run_scan L W1 config d url).2 in
      run_scan L W2 config d1 url
      = (Returned false,
         mkState
           (mkDatabase
              (scan_history d1
               ++ [mkScanRow (next_id (sh_id <$> scan_history d1)) url
                     (clock W2) (md5_hexdigest L current_html)
                     (json_dumps L current_structure) 0])
              (detected_changes d1))
           [ev_fetch_page url; ev_extract_xpath_structure current_html;
            ev_get_last_scan url;
            ev_save_scan_result url (md5_hexdigest L current_html)
              (json_dumps L current_structure) []]).
Proof.
  intros Hf1 Hf2 Ht Hr1 Hw1 Hr2 Hw2 Hd Hser Hlater.
  destruct (run_scan_commits L W1 config d url current_html)
    as (cs & changes & Hcs & Hd1); try done.
  exists cs. split; [done |]. cbv zeta. rewrite Hd1.
  pose proof (latest_row_with_scan_record W1 d url
                (md5_hexdigest L current_html) (json_dumps L cs) changes
                Hlater) as Hlast.
  destruct (latest_row _ url) as [r|] eqn:Hl in Hlast; [| done].
  injection Hlast as Hh Hx.
  pose proof (run_scan_after_diff L W2 config
                (with_scan_record W1 d url (md5_hexdigest L current_html)
                   (json_dumps L cs) changes)
                url current_html cs Hf2 Ht Hr2 Hcs) as Hrun.
  cbv zeta in Hrun.
  rewrite (page_serialisable_structure L current_html cs Hcs) in Hser.
  unfold diff_stage_returns, diff_calls, changeset_against_prior in Hrun.
  rewrite Hl, Hh in Hrun.
  rewrite bool_decide_eq_false_2 in Hrun by (intros Hne; by apply Hne).
  rewrite Hser, Hw2, app_nil_r in Hrun. rewrite Hrun.
  unfold with_scan_record at 1.
  cbn [change_rows length scan_prologue app]. by rewrite app_nil_r.
Qed.


(** ** ScanOrchestrator: a page with a comment *)

(** A path that no later node has keeps its entry. *)
Lemma extract_elements_other (l : list lxml.element)
    (acc : dict ElementSnapshot * dict (dict string)) (p : string) :
  (∀ y, y ∈ l → _get_element_xpath y ≠ p) →
  dict_get (foldl extract_element acc l).1 p = dict_get acc.1 p.
Proof.
  revert acc. induction l as [|y l IH]; intros acc Hl; simpl; [done |].
  rewrite IH by (intros z Hz; apply Hl; by apply list_elem_of_further).
  unfold extract_element. destruct (py_truthy (lxml.tag y)); [| done].
  cbn [fst]. rewrite dict_get_set.
  rewrite decide_False; [done |]. apply Hl, list_elem_of_here.
Qed.

(** When the paths of the nodes are distinct, as [getpath] gives them, the
    entry of a path is the snapshot of its node. *)
Lemma extract_elements_snapshot (l : list lxml.element)
    (acc : dict ElementSnapshot * dict (dict string)) (x : lxml.element) :
  NoDup (_get_element_xpath <$> l) →
  x ∈ l →
  py_truthy (lxml.tag x) = true →
  ∃ e, dict_get (foldl extract_element acc l).1 (_get_element_xpath x)
       = Some e
       ∧ tag e = lxml.tag x.
Proof.
  revert acc. induction l as [|y l IH]; intros acc Hnd Hx Ht.
  { by apply elem_of_nil in Hx. }
  rewrite fmap_cons in Hnd. apply NoDup_cons in Hnd as [Hy Hnd].
  apply elem_of_cons in Hx as [-> | Hx]; simpl.
  - rewrite extract_elements_other.
    + unfold extract_element. rewrite Ht. cbn [fst].
      rewrite dict_get_set, decide_True by done. by eexists.
    + intros z Hz Heq. apply Hy. rewrite <- Heq.
      by apply list_elem_of_fmap_2.
  - by apply IH.
Qed.

(** [json.dumps] refuses a structure that holds a function. *)
Lemma function_tag_not_serialisable (s : PageStructure) (p : string)
    (e : ElementSnapshot) :
  dict_get (default [] (elements s)) p = Some e →
  tag e = function_tag →
  structure_serialisable s = false.
Proof.
  unfold structure_serialisable.
  induction (default [] (elements s)) as [|[k v] d IH]; simpl; [done |].
  case_decide.
  - intros [= ->] He. unfold is_function_tag.
    by rewrite bool_decide_eq_true_2.
  - intros Hget He. rewrite (IH Hget He). apply andb_false_r.
Qed.

(** X31. A page with a comment or a processing instruction is never
    recorded. When the document of the page holds such a node (a node whose
    tag is a function), the paths of the nodes being distinct as [getpath]
    gives them, every scan of the page raises, whatever the database, the
    store and the configuration: nothing is written and the store is not
    called. When the database can be read and the diff stage comes back,
    the error is the [TypeError] of [json.dumps], and the alerts of the
    diff stage have been sent by then. *)
Theorem page_with_comment_is_never_recorded (L : PyLib) (W : World)
    (config : Config) (d : Database) (url current_html : string)
    (doc c : lxml.element) :
  session_get W url = Returned current_html →
  py_truthy current_html = true →
  html_fromstring L current_html = Returned doc →
  NoDup (_get_element_xpath <$> lxml.iter doc) →
  c ∈ lxml.iter doc →
  lxml.tag c = function_tag →
  (∃ e, (run_scan L W config d url).1 = Raised e)
  ∧ db (run_scan L W config d url).2 = d
  ∧ List.filter is_save_scan_result (trace (run_scan L W config d url).2) = []
  ∧ (sqlite_read_fails W = false →
     diff_stage_returns L d url current_html = true →
     (run_scan L W config d url).1 = Raised TypeError
     ∧ List.filter is_send_alert (trace (run_scan L W config d url).2)
       = alerts_of config url
           (changeset_against_prior L W d url current_html
              (extract_from_document doc))).
Proof.
  intros Hf Ht Hdoc Hnd Hc Htag.
  assert (extract_xpath_structure L current_html
          = Returned (extract_from_document doc)) as Hcs
    by (by rewrite extract_xpath_structure_returns, Hdoc).
  assert (structure_serialisable (extract_from_document doc) = false) as Hser.
  { destruct (extract_elements_snapshot (lxml.iter doc) ([], []) c Hnd Hc)
      as (e & Hget & He); [by rewrite Htag |].
    apply (function_tag_not_serialisable _ (_get_element_xpath c) e);
      [exact Hget | by rewrite He]. }
  assert (sqlite_read_fails W = false →
          diff_stage_returns L d url current_html = true →
          run_scan L W config d url
          = (Raised TypeError,
             mkState d
               (scan_prologue url current_html
                ++ diff_calls L W config d url current_html
                     (extract_from_document doc)))) as Hrun.
  { intros Hr Hd.
    pose proof (run_scan_after_diff L W config d url current_html _ Hf Ht Hr
                  Hcs) as Hrun.
    cbv zeta in Hrun. by rewrite Hd, Hser in Hrun. }
  assert (List.filter is_save_scan_result
            (scan_prologue url current_html
             ++ diff_calls L W config d url current_html
                  (extract_from_document doc)) = []) as Hsave.
  { apply filter_none, Forall_app.
    split; [unfold scan_prologue; by repeat constructor |].
    apply diff_calls_no_store. }
  destruct (run_scan_cases L W config d url)
    as [(Hdb & Hno & [He | [_ [Hfail | Hempty]]])
       | (html & cs & Hf' & _ & Hr & _ & Hd)].
  - split; [done |]. split; [done |]. split.
    + apply filter_none. eapply Forall_impl; [exact Hno |]. by intros e [_ ?].
    + intros Hr Hd. rewrite (Hrun Hr Hd). cbn [fst snd trace].
      split; [done |]. rewrite List.filter_app, diff_calls_alerts.
      by cbn [scan_prologue List.filter is_send_alert app].
  - congruence.
  - rewrite Hf in Hempty. injection Hempty as ->. done.
  - rewrite Hf in Hf'. injection Hf' as <-.
    rewrite (Hrun Hr Hd). cbn [fst snd db trace].
    split; [by eexists |]. split; [done |]. split; [done |].
    intros _ _. split; [done |]. rewrite List.filter_app, diff_calls_alerts.
    by cbn [scan_prologue List.filter is_send_alert app].
Qed.

(** ** The monitoring loop *)

Section MonitorFacts.

Context (L : PyLib) (config : Config) (worlds : nat → World).

Lemma scan_each_app (urls1 urls2 : list string) (s : monitor_state) :
  scan_each L config worlds (urls1 ++ urls2) s
  = match scan_each L config worlds urls1 s with
    | (Returned _, s') => scan_each L config worlds urls2 s'
    | (Raised e, s') => (Raised e, s')
    end.
Proof.
  revert s. induction urls1 as [|u urls1 IH]; intros s; simpl; [done |].
  destruct (run_scan L (worlds (m_scans s)) config (m_db s) u) as [[b|e] st];
    simpl; [apply IH | done].
Qed.

(** A scan that raises leaves the database as it was. *)
Lemma raised_scan_keeps_db (W : World) (d : Database) (url : string)
    (e : exn) :
  (run_scan L W config d url).1 = Raised e →
  db (run_scan L W config d url).2 = d.
Proof.
  intros He.
  destruct (run_scan_db L W config d url)
    as [(Hdb & _) | (html_hash & xpath_structure & changes & Hres & _)];
    [done | congruence].
Qed.

End MonitorFacts.

(** X24. A scan that raises ends the pass of the monitoring loop: after the
    URLs before it have been scanned, the loop logs the failed scan, sleeps
    60 seconds instead of the interval, and scans none of the URLs after it
    in this pass; the database is the one the scans before it left. *)
Theorem failed_scan_ends_cycle (L : PyLib) (config : Config)
    (worlds : nat → World) (urls_before urls_after : list string)
    (url : string) (interval : Z) (s : monitor_state) (e : exn) :
  (scan_each L config worlds urls_before s).1 = Returned tt →
  let s1 := (scan_each L config worlds urls_before s).2 in
  let out := run_scan L (worlds (m_scans s1)) config (m_db s1) url in
  out.1 = Raised e →
  monitor_cycle L config worlds (urls_before ++ url :: urls_after) interval s
  = mkMonitorState (m_db s1) (S (m_scans s1))
      (m_log s1 ++ [mon_scan url (trace out.2) (Raised e); mon_sleep 60]).
Proof.
  intros Hbefore s1 out Hout. unfold monitor_cycle.
  rewrite scan_each_app.
  destruct (scan_each L config worlds urls_before s) as [[[]|e'] s1'] eqn:Hs;
    [| done].
  cbn [snd] in s1. subst s1. cbn [scan_each]. unfold monitored_scan.
  fold out. rewrite Hout. unfold sleep. cbn [m_db m_scans m_log].
  subst out. rewrite (raised_scan_keeps_db L config _ _ _ e Hout).
  by rewrite <- app_assoc.
Qed.

Section MonitorStore.

Context (L : PyLib) (config : Config) (worlds : nat → World).

Lemma store_extends_refl (d : Database) : store_extends d d.
Proof. split; [done | split; reflexivity]. Qed.

Lemma store_extends_trans (d1 d2 d3 : Database) :
  store_extends d1 d2 → store_extends d2 d3 → store_extends d1 d3.
Proof.
  intros (Hc1 & Hs1 & Hd1) (Hc2 & Hs2 & Hd2). split; [| split].
  - intros Hc. by apply Hc2, Hc1.
  - by etrans.
  - by etrans.
Qed.

Lemma run_scan_extends (W : World) (d : Database) (url : string) :
  store_extends d (db (run_scan L W config d url).2).
Proof.
  destruct (run_scan_db L W config d url)
    as [(-> & _) | (html_hash & xpath_structure & changes & _ & ->)];
    [apply store_extends_refl |].
  split; [apply with_scan_record_consistent |].
  unfold with_scan_record. cbn [scan_history detected_changes].
  split; by apply prefix_app_r.
Qed.

Lemma scan_each_extends (urls : list string) (s : monitor_state) :
  store_extends (m_db s) (m_db (scan_each L config worlds urls s).2).
Proof.
  revert s. induction urls as [|u urls IH]; intros s; simpl;
    [apply store_extends_refl |].
  pose proof (run_scan_extends (worlds (m_scans s)) (m_db s) u) as Hstep.
  destruct (run_scan L (worlds (m_scans s)) config (m_db s) u)
    as [[b|e] st]; simpl in *; [| done].
  eapply store_extends_trans; [exact Hstep |].
  match goal with
  | |- store_extends _ (m_db (scan_each _ _ _ _ ?s').2) => exact (IH s')
  end.
Qed.

Lemma monitor_cycle_extends (urls : list string) (interval : Z)
    (s : monitor_state) :
  store_extends (m_db s) (m_db (monitor_cycle L config worlds urls interval s)).
Proof.
  unfold monitor_cycle.
  pose proof (scan_each_extends urls s) as H.
  destruct (scan_each L config worlds urls s) as [[[]|e] s']; simpl in *;
    [by destruct (interval <? 0)%Z | done].
Qed.

Lemma monitor_urls_extends (cycles : nat) (urls : list string) (interval : Z)
    (s : monitor_state) :
  store_extends (m_db s)
    (m_db (monitor_urls L config worlds cycles urls interval s)).
Proof.
  revert s. induction cycles as [|n IH]; intros s; simpl;
    [apply store_extends_refl |].
  eapply store_extends_trans; [apply monitor_cycle_extends | apply IH].
Qed.


End MonitorStore.


(** X26. However long the monitoring loop runs and whatever the scans meet,
    the tables stay consistent and nothing recorded is lost: the rows of
    both tables at the start are the first rows at any later pass. *)
Theorem monitoring_keeps_store (L : PyLib) (config : Config)
    (worlds : nat → World) (cycles : nat) (urls : list string)
    (interval : Z) (s : monitor_state) :
  db_consistent (m_db s) →
  db_consistent (m_db (monitor_urls L config worlds cycles urls interval s))
  ∧ scan_history (m_db s)
    `prefix_of`
    scan_history (m_db (monitor_urls L config worlds cycles urls interval s))
  ∧ detected_changes (m_db s)
    `prefix_of`
    detected_changes
      (m_db (monitor_urls L config worlds cycles urls interval s)).
Proof.
  intros Hd.
  destruct (monitor_urls_extends L config worlds cycles urls interval s)
    as (Hc & Hs & Hdc).
  split; [by apply Hc | by split].
Qed.

(** ** The configuration object: [get] and [update] *)

Lemma py_split_nonempty (sep : Ascii.ascii) (s : string) :
  py_split sep s ≠ [].
Proof.
  destruct s as [|c s]; simpl; [done |].
  destruct (decide (c = sep)); [done |]. by destruct (py_split sep s).
Qed.

Lemma removelast_last {A} (l : list A) (x : A) :
  l ≠ [] → removelast l ++ [List.last l x] = l.
Proof. intros Hl. symmetry. by apply app_removelast_last. Qed.

Lemma dict_set_same {V} (d : dict V) (k : string) (v : V) :
  dict_get d k = Some v → dict_set d k v = d.
Proof.
  induction d as [|[k0 v0] d IH]; simpl; [done |].
  destruct (decide (k0 = k)) as [-> | Hne]; [by intros [= ->] |].
  intros H. by rewrite IH.
Qed.

Section ConfigFileFacts.

Import ConfigFile.

Context {V : Type}.

Implicit Types (c : value V) (d : dict (value V)).

Lemma get_from_at_path c (keys : list string) (dflt : value V) :
  get_from c keys dflt = from_option id dflt (at_path c keys).
Proof.
  revert c. induction keys as [|k keys IH]; intros c; simpl; [done |].
  destruct c as [x | d]; [done |].
  destruct (dict_get d k) as [v'|] eqn:Hk.
  - by rewrite (proj2 (dict_mem_true d k) (dict_get_Some_key _ _ _ Hk)).
  - by destruct (dict_mem d k).
Qed.

(** The dictionary in which [update] goes down at key [k]. *)
Lemma dict_get_created d (k : string) :
  dict_get (if negb (dict_mem d k) then dict_set d k (dictionary []) else d) k
  = Some (from_option id (dictionary []) (dict_get d k)).
Proof.
  destruct (dict_mem d k) eqn:Hm; simpl.
  - apply dict_mem_true, dict_get_is_Some in Hm as [v' Hv]. by rewrite Hv.
  - rewrite dict_get_set. rewrite decide_True by done.
    apply dict_mem_false in Hm.
    by rewrite (proj2 (dict_get_None d k) Hm).
Qed.

Lemma dict_get_created_other d (k k' : string) :
  k ≠ k' →
  dict_get (if negb (dict_mem d k) then dict_set d k (dictionary []) else d) k'
  = dict_get d k'.
Proof.
  intros Hne. destruct (dict_mem d k); simpl; [done |].
  rewrite dict_get_set. by rewrite decide_False.
Qed.

Lemma assign_at_fresh (path : list string) (last_key : string) (v : V) :
  (assign_at (dictionary []) path last_key v).1 = true.
Proof.
  assert (∀ d, d = [] → (assign_at (dictionary d) path last_key v).1 = true)
    as H; [| by apply H].
  induction path as [|k path IH]; intros d ->; simpl; [done |].
  rewrite decide_True by done. simpl. by apply IH.
Qed.

Lemma assign_at_reaches c (path : list string) (last_key : string) (v : V) :
  (assign_at c path last_key v).1 = true →
  at_path (assign_at c path last_key v).2 (path ++ [last_key])
  = Some (other v).
Proof.
  revert c. induction path as [|k path IH]; intros c; simpl.
  - destruct c as [x | d]; [done |]. intros _. simpl.
    rewrite dict_get_set. by rewrite decide_True.
  - destruct c as [x | d]; [done |].
    rewrite dict_get_created. cbn [fst snd]. intros Hok. cbn [at_path].
    rewrite dict_get_set. rewrite decide_True by done. by apply IH.
Qed.

Lemma assign_at_fails c (path : list string) (last_key : string) (v : V) :
  (assign_at c path last_key v).1 = false
  ↔ ∃ pre x, pre `prefix_of` path ∧ at_path c pre = Some (other x).
Proof.
  revert c. induction path as [|k path IH]; intros c; simpl.
  - destruct c as [x | d]; simpl.
    + split; [| done]. intros _. by exists [], x.
    + split; [done |]. intros (pre & x & Hpre & Hat).
      apply prefix_nil_inv in Hpre as ->. done.
  - destruct c as [x | d]; simpl.
    + split; [| done]. intros _. exists [], x. split; [apply prefix_nil | done].
    + rewrite dict_get_created. cbn [fst]. rewrite IH. split.
      * intros (pre & x & Hpre & Hat).
        destruct (dict_get d k) as [sub|] eqn:Hk; simpl in Hat.
        -- exists (k :: pre), x. split; [by apply prefix_cons |].
           simpl. by rewrite Hk.
        -- by destruct pre.
      * intros (pre & x & Hpre & Hat).
        destruct pre as [|k' pre]; simpl in Hat; [done |].
        apply prefix_cons_inv_1 in Hpre as Hk'. subst k'.
        apply prefix_cons_inv_2 in Hpre.
        destruct (dict_get d k) as [sub|] eqn:Hk; [| done].
        by exists pre, x.
Qed.

Lemma assign_at_failed_keeps c (path : list string) (last_key : string)
    (v : V) :
  (assign_at c path last_key v).1 = false →
  (assign_at c path last_key v).2 = c.
Proof.
  revert c. induction path as [|k path IH]; intros c; simpl.
  - by destruct c.
  - destruct c as [x | d]; [done |].
    rewrite dict_get_created. cbn [fst snd].
    destruct (dict_mem d k) eqn:Hm; simpl.
    + apply dict_mem_true, dict_get_is_Some in Hm as [sub Hk].
      rewrite Hk. simpl. intros Hf. rewrite (IH _ Hf).
      by rewrite dict_set_same.
    + apply dict_mem_false in Hm.
      rewrite (proj2 (dict_get_None d k) Hm). simpl.
      by rewrite assign_at_fresh.
Qed.

Lemma at_path_fresh (keys : list string) :
  keys ≠ [] → at_path (dictionary (V := V) []) keys = None.
Proof. by destruct keys. Qed.

Lemma assign_at_frame (common : list string) (a b : string)
    (p' q' path : list string) c (last_key : string) (v : V) :
  path ++ [last_key] = common ++ a :: p' → a ≠ b →
  (assign_at c path last_key v).1 = true →
  at_path (assign_at c path last_key v).2 (common ++ b :: q')
  = at_path c (common ++ b :: q').
Proof.
  revert c path. induction common as [|k common IH]; intros c path Hp Hab.
  - destruct path as [|k path]; simpl in Hp.
    + injection Hp as -> <-. simpl. destruct c as [x | d]; [done |].
      intros _. simpl. rewrite dict_get_set. by rewrite decide_False.
    + injection Hp as -> Hp. simpl. destruct c as [x | d]; [done |].
      rewrite dict_get_created. cbn [fst snd]. intros _. simpl.
      rewrite dict_get_set. rewrite decide_False by done.
      by rewrite dict_get_created_other.
  - destruct path as [|k0 path]; simpl in Hp.
    + injection Hp as _ Hp. by destruct common.
    + injection Hp as -> Hp. simpl. destruct c as [x | d]; [done |].
      rewrite dict_get_created. cbn [fst snd]. intros Hok. simpl.
      rewrite dict_get_set. rewrite decide_True by done.
      rewrite (IH _ path Hp Hab Hok).
      destruct (dict_get d k) as [sub|]; simpl; [done |].
      apply at_path_fresh. by destruct common.
Qed.

End ConfigFileFacts.

(** X27. What [update] has written, [get] reads back. Unless [update]
    raises [TypeError], [get] with the same key answers the new value
    afterwards, whatever the default, and also when the file could not be
    written; when the file was written, it holds the configuration as it is
    in memory. *)
Theorem get_after_update {V : Type} `{ConfigFile.Serialisable V}
    (open_fails : bool)
    (self : ConfigFile.Config V) (key : string) (v : V)
    (default : ConfigFile.value V) :
  (ConfigFile.update open_fails self key v).1 ≠ ConfigFile.TypeError →
  ConfigFile.get (ConfigFile.update open_fails self key v).2 key default
  = ConfigFile.other v
  ∧ ((ConfigFile.update open_fails self key v).1 = ConfigFile.Updated →
     ConfigFile.config_file (ConfigFile.update open_fails self key v).2
     = Some (ConfigFile.config (ConfigFile.update open_fails self key v).2)).
Proof.
  unfold ConfigFile.update, ConfigFile.get. cbv zeta.
  set (keys := py_split full_stop key).
  destruct (ConfigFile.assign_at (ConfigFile.config self) (removelast keys)
              (List.last keys "") v).1 eqn:Hok; [| done].
  assert (ConfigFile.get_from
            (ConfigFile.assign_at (ConfigFile.config self) (removelast keys)
               (List.last keys "") v).2 keys default
          = ConfigFile.other v) as Hget.
  { rewrite get_from_at_path.
    rewrite <- (removelast_last keys "") at 3 by apply py_split_nonempty.
    by rewrite assign_at_reaches. }
  destruct open_fails; [done |].
  by destruct (ConfigFile.serialisable _).
Qed.

(** X28. [update] raises [TypeError] in exactly two cases. Either the
    path of the key runs into a value that is not a dictionary before its
    last key: then nothing has changed, in memory or in the file. Or the
    assignment has been made, the file has been opened, and [json.dump]
    meets a value that it cannot write: then the new value is in memory,
    where [get] answers it, and the file, which [open] has emptied, holds no
    complete configuration. *)
Theorem update_type_error {V : Type} `{ConfigFile.Serialisable V}
    (open_fails : bool)
    (self : ConfigFile.Config V) (key : string) (v : V) :
  let blocked :=
    ConfigFile.blocked (ConfigFile.config self)
      (removelast (py_split full_stop key)) in
  let after := (ConfigFile.update open_fails self key v).2 in
  ((ConfigFile.update open_fails self key v).1 = ConfigFile.TypeError
   ↔ blocked
     ∨ open_fails = false
       ∧ ConfigFile.serialisable (ConfigFile.config after) = false)
  ∧ (blocked → after = self)
  ∧ (¬ blocked →
     (ConfigFile.update open_fails self key v).1 = ConfigFile.TypeError →
     ConfigFile.config_file after = None
     ∧ ∀ default, ConfigFile.get after key default = ConfigFile.other v).
Proof.
  cbv zeta. unfold ConfigFile.update, ConfigFile.get, ConfigFile.blocked.
  cbv zeta. set (keys := py_split full_stop key).
  rewrite <- assign_at_fails with (last_key := List.last keys "") (v := v).
  destruct (ConfigFile.assign_at (ConfigFile.config self) (removelast keys)
              (List.last keys "") v).1 eqn:Hok.
  - assert (∀ default,
              ConfigFile.get_from
                (ConfigFile.assign_at (ConfigFile.config self)
                   (removelast keys) (List.last keys "") v).2 keys default
              = ConfigFile.other v) as Hget.
    { intros default. rewrite get_from_at_path.
      rewrite <- (removelast_last keys "") at 3 by apply py_split_nonempty.
      by rewrite assign_at_reaches. }
    destruct open_fails; cbn [fst snd ConfigFile.config].
    + split; [| done]. split; [done |]. by intros [? | [? _]].
    + destruct (ConfigFile.serialisable _) eqn:Hser;
        cbn [fst snd ConfigFile.config ConfigFile.config_file].
      * split; [| done]. split; [done |]. intros [? | [_ Hs]]; [done |].
        rewrite Hser in Hs. done.
      * split; [| done]. split; [| done]. intros _. right. by split.
  - cbn [fst snd]. split; [| split; [| done]].
    + split; [by left | done].
    + intros _. rewrite assign_at_failed_keeps by done. by destruct self.
Qed.

(** X29. [update] leaves every other setting alone: for a key whose path
    parts from the path of the updated key, [get] answers after the update
    what it answered before, also where the update has created
    dictionaries on its way. *)
Theorem update_keeps_other_keys {V : Type} `{ConfigFile.Serialisable V}
    (open_fails : bool)
    (self : ConfigFile.Config V) (key other_key : string) (v : V)
    (default : ConfigFile.value V) :
  (ConfigFile.update open_fails self key v).1 ≠ ConfigFile.TypeError →
  ConfigFile.parts_from (py_split full_stop key) (py_split full_stop other_key) →
  ConfigFile.get (ConfigFile.update open_fails self key v).2 other_key default
  = ConfigFile.get self other_key default.
Proof.
  unfold ConfigFile.update, ConfigFile.get. cbv zeta.
  set (keys := py_split full_stop key).
  destruct (ConfigFile.assign_at (ConfigFile.config self) (removelast keys)
              (List.last keys "") v).1 eqn:Hok; [| done].
  intros _ (common & a & b & p' & q' & Hp & Hq & Hab).
  assert (ConfigFile.at_path
            (ConfigFile.assign_at (ConfigFile.config self) (removelast keys)
               (List.last keys "") v).2 (py_split full_stop other_key)
          = ConfigFile.at_path (ConfigFile.config self)
              (py_split full_stop other_key)) as Hat.
  { rewrite Hq. apply (assign_at_frame common a b p'); [| done | done].
    rewrite removelast_last by apply py_split_nonempty. exact Hp. }
  destruct open_fails; [| destruct (ConfigFile.serialisable _)];
    cbn [snd ConfigFile.config]; by rewrite !get_from_at_path, Hat.
Qed.

(** ** The monitoring loop: a URL that keeps failing *)

Lemma scanned_urls_app (l1 l2 : list monitor_event) :
  scanned_urls (l1 ++ l2) = scanned_urls l1 ++ scanned_urls l2.
Proof. unfold scanned_urls. apply flat_map_app. Qed.

(** X30. A URL whose scan keeps raising starves the URLs after it: when
    the scan of the first URL raises in every world it may meet, then
    however many passes the loop makes, that URL is the only one ever
    scanned, once in each pass, and nothing is recorded. *)
Theorem failing_url_starves_the_rest (L : PyLib) (config : Config)
    (worlds : nat → World) (cycles : nat) (url : string)
    (urls_after : list string) (interval : Z) (s : monitor_state) :
  (∀ n, ∃ e, (run_scan L (worlds n) config (m_db s) url).1 = Raised e) →
  ∃ new,
    m_log (monitor_urls L config worlds cycles (url :: urls_after) interval s)
    = m_log s ++ new
    ∧ scanned_urls new = List.repeat url cycles
    ∧ m_db (monitor_urls L config worlds cycles (url :: urls_after)
              interval s)
      = m_db s.
Proof.
  revert s. induction cycles as [|n IH]; intros s Hfails; simpl.
  - exists []. by rewrite app_nil_r.
  - destruct (Hfails (m_scans s)) as [e He].
    pose proof (raised_scan_keeps_db L config _ _ _ e He) as Hdb.
    set (s1 := monitor_cycle L config worlds (url :: urls_after) interval s).
    assert (m_db s1 = m_db s
            ∧ m_log s1
              = m_log s
                ++ [mon_scan url
                      (trace (run_scan L (worlds (m_scans s)) config
                                (m_db s) url).2) (Raised e);
                    mon_sleep 60]) as [Hdb1 Hlog1].
    { unfold s1, monitor_cycle. cbn [scan_each]. unfold monitored_scan.
      rewrite He. unfold sleep. cbn [m_db m_log]. rewrite Hdb.
      by rewrite <- app_assoc. }
    destruct (IH s1) as (new & Hlog & Hurls & Hdb').
    { intros k. rewrite Hdb1. apply Hfails. }
    eexists. rewrite Hlog, Hlog1, <- app_assoc. split; [reflexivity |].
    rewrite scanned_urls_app, Hurls. split; [done |]. by rewrite Hdb'.
Qed.
(* ===================================================================== *)
(** * The further properties on the examples *)
(* ===================================================================== *)

Lemma extracted_snapshots_in_bounds_witness :
  extract_xpath_structure Demo.lib Demo.page_hello
  = Returned Demo.structure_hello
  ∧ dict_get (default [] (elements Demo.structure_hello)) "/html/body/p"
    = Some (mkElementSnapshot "p" "Hello" "")
  ∧ snapshot_in_bounds (mkElementSnapshot "p" "Hello" "").
Proof.
  assert (extract_xpath_structure Demo.lib Demo.page_hello
          = Returned Demo.structure_hello) as H1 by reflexivity.
  assert (dict_get (default [] (elements Demo.structure_hello))
            "/html/body/p"
          = Some (mkElementSnapshot "p" "Hello" "")) as H2
    by (vm_compute; reflexivity).
  refine (conj H1 (conj H2 _)).
  exact (extracted_snapshots_in_bounds Demo.lib Demo.page_hello _ _ _ H1 H2).
Defined.

Lemma extracted_paths_are_element_paths_witness :
  extract_xpath_structure Cases.lib Cases.page_link
  = Returned (Cases.structure_link "/start")
  ∧ Cases.link_path
    ∈ dict_keys (default [] (attributes (Cases.structure_link "/start")))
  ∧ Cases.link_path
    ∈ dict_keys (default [] (elements (Cases.structure_link "/start"))).
Proof.
  assert (extract_xpath_structure Cases.lib Cases.page_link
          = Returned (Cases.structure_link "/start")) as H1 by reflexivity.
  assert (Cases.link_path
          ∈ dict_keys
              (default [] (attributes (Cases.structure_link "/start"))))
    as H2 by (vm_compute; apply list_elem_of_here).
  refine (conj H1 (conj H2 _)).
  exact (extracted_paths_are_element_paths Cases.lib Cases.page_link _ _ H1
           (or_introl H2)).
Defined.

Lemma extracted_attributes_nonempty_witness :
  extract_xpath_structure Cases.lib Cases.page_link
  = Returned (Cases.structure_link "/start")
  ∧ dict_get (default [] (attributes (Cases.structure_link "/start")))
      Cases.link_path
    = Some [("href", "/start")]
  ∧ ∃ doc x, html_fromstring Cases.lib Cases.page_link = Returned doc
             ∧ x ∈ lxml.iter doc
             ∧ _get_element_xpath x = Cases.link_path
             ∧ lxml.attrib x = [("href", "/start")].
Proof.
  assert (extract_xpath_structure Cases.lib Cases.page_link
          = Returned (Cases.structure_link "/start")) as H1 by reflexivity.
  assert (dict_get (default [] (attributes (Cases.structure_link "/start")))
            Cases.link_path
          = Some [("href", "/start")]) as H2 by (vm_compute; reflexivity).
  refine (conj H1 (conj H2 _)).
  exact (proj2 (extracted_attributes_nonempty Cases.lib Cases.page_link _ _ _
                  H1 H2)).
Defined.

Lemma text_beyond_bound_is_invisible_witness :
  Forall2 same_up_to_bound_element
    (lxml.iter (Cases.doc_long " and more"))
    (lxml.iter (Cases.doc_long ", or less"))
  ∧ _compare_elements Demo.lib
      (default [] (elements (extract_from_document
                               (Cases.doc_long " and more"))))
      (default [] (elements (extract_from_document
                               (Cases.doc_long ", or less")))) 0
    = [].
Proof.
  assert (Forall2 same_up_to_bound_element
            (lxml.iter (Cases.doc_long " and more"))
            (lxml.iter (Cases.doc_long ", or less"))) as H.
  { unfold Cases.doc_long, Demo.doc_of, Demo.leaf.
    cbn [lxml.iter flat_map app].
    constructor; [| constructor; [| constructor; [| constructor]]].
    - split; [reflexivity |]. split; [reflexivity |]. split; [reflexivity |].
      split; left; reflexivity.
    - split; [reflexivity |]. split; [reflexivity |]. split; [reflexivity |].
      split; left; reflexivity.
    - split; [reflexivity |]. split; [reflexivity |]. split; [reflexivity |].
      split; [| left; reflexivity].
      right. exists Cases.hundred, " and more", ", or less".
      split; [reflexivity |]. split; [reflexivity |].
      split; [reflexivity |]. split; vm_compute; reflexivity. }
  split; [exact H |].
  exact (proj1 (proj2 (proj2
           (text_beyond_bound_is_invisible Demo.lib _ _ 0 H)))).
Defined.

Lemma changes_share_timestamp_witness :
  Cases.text_changed
  ∈ compare_structures Demo.lib Demo.structure_hello Cases.structure_goodbye 0
  ∧ timestamp Cases.text_changed = 0%Z.
Proof.
  assert (Cases.text_changed
          ∈ compare_structures Demo.lib Demo.structure_hello
              Cases.structure_goodbye 0) as H
    by (vm_compute; apply list_elem_of_here).
  split; [exact H |].
  exact (changes_share_timestamp Demo.lib _ _ 0 _ H).
Defined.

Lemma diff_is_mirrored_witness :
  Cases.text_changed
  ∈ compare_structures Demo.lib Demo.structure_hello Cases.structure_goodbye 0
  ∧ ∃ tg, mkChangeDetails element_text_changed "/html/body/p"
            (Some "Goodbye") (Some "Hello") tg 60
          ∈ compare_structures Demo.lib Cases.structure_goodbye
              Demo.structure_hello 60.
Proof.
  assert (Cases.text_changed
          ∈ compare_structures Demo.lib Demo.structure_hello
              Cases.structure_goodbye 0) as H
    by (vm_compute; apply list_elem_of_here).
  split; [exact H |].
  exact (proj2 (diff_is_mirrored Demo.lib _ _ 0 60 _ H) eq_refl).
Defined.

Lemma attribute_changes_classified_witness :
  Cases.link_moved
  ∈ compare_structures Demo.lib (Cases.structure_link "/start")
      (Cases.structure_link "/moved") 0
  ∧ old_value Cases.link_moved ≠ new_value Cases.link_moved
  ∧ element_type Cases.link_moved = "attribute".
Proof.
  assert (Cases.link_moved
          ∈ compare_structures Demo.lib (Cases.structure_link "/start")
              (Cases.structure_link "/moved") 0) as H
    by (vm_compute; apply list_elem_of_here).
  split; [exact H |].
  destruct (attribute_changes_classified Demo.lib _ _ 0 _ H eq_refl)
    as (Hne & Hty & _).
  exact (conj Hne Hty).
Defined.

Lemma element_paths_reported_once_witness :
  NoDup (dict_keys (default [] (elements Demo.structure_hello)))
  ∧ NoDup (dict_keys (default [] (elements (Cases.structure_link "/start"))))
  ∧ NoDup (xpath <$> _compare_elements Demo.lib
             (default [] (elements Demo.structure_hello))
             (default [] (elements (Cases.structure_link "/start"))) 0).
Proof.
  assert (NoDup (dict_keys (default [] (elements Demo.structure_hello))))
    as H1 by (apply (bool_decide_unpack _); vm_compute; exact I).
  assert (NoDup (dict_keys
                   (default [] (elements (Cases.structure_link "/start")))))
    as H2 by (apply (bool_decide_unpack _); vm_compute; exact I).
  refine (conj H1 (conj H2 _)).
  exact (element_paths_reported_once Demo.lib _ _ 0 H1 H2).
Defined.

Lemma get_last_scan_is_latest_witness :
  sqlite_read_fails (Demo.world Demo.page_hello) = false
  ∧ ((get_last_scan (Demo.world Demo.page_hello) Demo.url
        (mkState Demo.db_after_hello [])).1
     = Returned None
     ↔ ∀ r, r ∈ scan_history Demo.db_after_hello → sh_url r ≠ Demo.url).
Proof.
  split; [reflexivity |].
  exact (proj1 (proj2 (get_last_scan_is_latest (Demo.world Demo.page_hello)
                         Demo.url (mkState Demo.db_after_hello [])
                         eq_refl))).
Defined.

Lemma save_then_get_last_scan_witness :
  (∀ r, r ∈ scan_history Demo.db_after_hello → sh_url r = Demo.url →
        (sh_scan_time r < clock (Demo.world Demo.page_goodbye))%Z)
  ∧ ((save_scan_result (Demo.world Demo.page_goodbye) Demo.url
        Demo.hash_goodbye "{}" [];;
      get_last_scan (Demo.world Demo.page_goodbye) Demo.url)
       (mkState Demo.db_after_hello [])).1
    = Returned (Some (Demo.hash_goodbye, "{}")).
Proof.
  assert (∀ r, r ∈ scan_history Demo.db_after_hello → sh_url r = Demo.url →
               (sh_scan_time r < clock (Demo.world Demo.page_goodbye))%Z)
    as H.
  { intros r Hr _. apply list_elem_of_singleton in Hr. by subst r. }
  split; [exact H |].
  exact (proj1 (save_then_get_last_scan (Demo.world Demo.page_goodbye)
                  (Demo.world Demo.page_goodbye) Demo.url Demo.hash_goodbye
                  "{}" [] (mkState Demo.db_after_hello [])
                  eq_refl eq_refl H)).
Defined.

Lemma first_scan_is_baseline_witness :
  (∀ r, r ∈ scan_history Cases.db_other → sh_url r ≠ Demo.url)
  ∧ ∃ current_structure,
      extract_xpath_structure Demo.lib Demo.page_hello
      = Returned current_structure
      ∧ (run_scan Demo.lib (Demo.world Demo.page_hello) Demo.config_mail
           Cases.db_other Demo.url).1
        = Returned false
      ∧ trace (run_scan Demo.lib (Demo.world Demo.page_hello)
                 Demo.config_mail Cases.db_other Demo.url).2
        = [ev_fetch_page Demo.url;
           ev_extract_xpath_structure Demo.page_hello;
           ev_get_last_scan Demo.url;
           ev_save_scan_result Demo.url
             (md5_hexdigest Demo.lib Demo.page_hello)
             (json_dumps Demo.lib current_structure) []]
      ∧ scan_history (db (run_scan Demo.lib (Demo.world Demo.page_hello)
                            Demo.config_mail Cases.db_other Demo.url).2)
        = scan_history Cases.db_other
          ++ [mkScanRow (next_id (sh_id <$> scan_history Cases.db_other))
                Demo.url (clock (Demo.world Demo.page_hello))
                (md5_hexdigest Demo.lib Demo.page_hello)
                (json_dumps Demo.lib current_structure) 0]
      ∧ detected_changes
          (db (run_scan Demo.lib (Demo.world Demo.page_hello)
                 Demo.config_mail Cases.db_other Demo.url).2)
        = detected_changes Cases.db_other.
Proof.
  assert (∀ r, r ∈ scan_history Cases.db_other → sh_url r ≠ Demo.url) as H.
  { intros r Hr. apply list_elem_of_singleton in Hr. by subst r. }
  split; [exact H |].
  exact (first_scan_is_baseline Demo.lib (Demo.world Demo.page_hello)
           Demo.config_mail Cases.db_other Demo.url Demo.page_hello
           eq_refl eq_refl eq_refl eq_refl eq_refl H).
Defined.

Lemma changed_scan_reports_diff_witness :
  latest_row (scan_history Demo.db_after_hello) Demo.url = Some Demo.row_hello
  ∧ sh_html_hash Demo.row_hello ≠ md5_hexdigest Demo.lib Demo.page_goodbye
  ∧ json_loads Demo.lib (sh_xpath_structure Demo.row_hello)
    = Returned (json_structure Demo.structure_hello)
  ∧ (run_scan Demo.lib (Demo.world Demo.page_goodbye) Demo.config_mail
       Demo.db_after_hello Demo.url).1
    = Returned
        (0 <? length (compare_structures Demo.lib Demo.structure_hello
                        Cases.structure_goodbye
                        (clock (Demo.world Demo.page_goodbye))))%nat.
Proof.
  assert (latest_row (scan_history Demo.db_after_hello) Demo.url
          = Some Demo.row_hello) as H1 by reflexivity.
  assert (sh_html_hash Demo.row_hello
          ≠ md5_hexdigest Demo.lib Demo.page_goodbye) as H2
    by (by vm_compute).
  assert (json_loads Demo.lib (sh_xpath_structure Demo.row_hello)
          = Returned (json_structure Demo.structure_hello)) as H3
    by reflexivity.
  refine (conj H1 (conj H2 (conj H3 _))).
  destruct (changed_scan_reports_diff Demo.lib
              (Demo.world Demo.page_goodbye) Demo.config_mail
              Demo.db_after_hello Demo.url Demo.page_goodbye Demo.row_hello
              Demo.structure_hello eq_refl eq_refl eq_refl eq_refl eq_refl
              H1 H2 H3)
    as (cs & Hcs & Hres & _).
  assert (cs = Cases.structure_goodbye) as -> by (by injection Hcs as <-).
  exact Hres.
Defined.

Lemma scan_verdict_matches_record_witness :
  (run_scan Demo.lib (Demo.world Demo.page_goodbye) Demo.config_mail
     Demo.db_after_hello Demo.url).1
  = Returned true
  ∧ ∃ r rows,
      scan_history (db (run_scan Demo.lib (Demo.world Demo.page_goodbye)
                          Demo.config_mail Demo.db_after_hello Demo.url).2)
      = scan_history Demo.db_after_hello ++ [r]
      ∧ sh_url r = Demo.url ∧ 0 < sh_changes_detected r
      ∧ detected_changes
          (db (run_scan Demo.lib (Demo.world Demo.page_goodbye)
                 Demo.config_mail Demo.db_after_hello Demo.url).2)
        = detected_changes Demo.db_after_hello ++ rows
      ∧ length rows = sh_changes_detected r
      ∧ Forall (λ c, dc_scan_id c = sh_id r) rows.
Proof.
  assert ((run_scan Demo.lib (Demo.world Demo.page_goodbye) Demo.config_mail
             Demo.db_after_hello Demo.url).1
          = Returned true) as H by (vm_compute; reflexivity).
  split; [exact H |].
  exact (scan_verdict_matches_record Demo.lib (Demo.world Demo.page_goodbye)
           Demo.config_mail Demo.db_after_hello Demo.url true H).
Defined.

Lemma scan_preserves_consistency_witness :
  db_consistent Demo.db_after_hello
  ∧ db_consistent
      (db (run_scan Demo.lib (Demo.world Demo.page_goodbye) Demo.config_mail
             Demo.db_after_hello Demo.url).2).
Proof.
  assert (db_consistent Demo.db_after_hello) as H.
  { split; [apply NoDup_singleton |]. split; [apply NoDup_nil_2 |].
    split; [apply Forall_nil_2 |]. by repeat constructor. }
  split; [exact H |].
  exact (scan_preserves_consistency Demo.lib (Demo.world Demo.page_goodbye)
           Demo.config_mail Demo.db_after_hello Demo.url H).
Defined.

Lemma rescan_same_content_witness :
  diff_stage_returns Demo.lib Demo.db_after_blank Demo.url Demo.page_hello
  = true
  ∧ (∀ r, r ∈ scan_history Demo.db_after_blank → sh_url r = Demo.url →
          (sh_scan_time r < clock (Demo.world Demo.page_hello))%Z)
  ∧ (run_scan Demo.lib (Cases.world_at Demo.page_hello Cases.later)
       Demo.config_mail
       (db (run_scan Demo.lib (Demo.world Demo.page_hello) Demo.config_mail
              Demo.db_after_blank Demo.url).2)
       Demo.url).1
    = Returned false.
Proof.
  assert (diff_stage_returns Demo.lib Demo.db_after_blank Demo.url
            Demo.page_hello = true) as H1 by reflexivity.
  assert (∀ r, r ∈ scan_history Demo.db_after_blank → sh_url r = Demo.url →
               (sh_scan_time r < clock (Demo.world Demo.page_hello))%Z)
    as H2.
  { intros r Hr _. apply list_elem_of_singleton in Hr. by subst r. }
  refine (conj H1 (conj H2 _)).
  destruct (rescan_same_content Demo.lib (Demo.world Demo.page_hello)
              (Cases.world_at Demo.page_hello Cases.later) Demo.config_mail
              Demo.db_after_blank Demo.url Demo.page_hello
              eq_refl eq_refl eq_refl eq_refl eq_refl eq_refl eq_refl H1
              eq_refl H2)
    as (cs & _ & Hrun).
  cbv zeta in Hrun. by rewrite Hrun.
Defined.


Lemma page_with_comment_is_never_recorded_witness :
  NoDup (_get_element_xpath <$> lxml.iter Cases.doc_comment)
  ∧ lxml.Comment (Some " note ") None (Some Cases.comment_path)
    ∈ lxml.iter Cases.doc_comment
  ∧ diff_stage_returns Cases.lib Demo.db_after_hello Demo.url
      Cases.page_comment = true
  ∧ (run_scan Cases.lib (Demo.world Cases.page_comment) Demo.config_mail
       Demo.db_after_hello Demo.url).1
    = Raised TypeError
  ∧ db (run_scan Cases.lib (Demo.world Cases.page_comment) Demo.config_mail
          Demo.db_after_hello Demo.url).2
    = Demo.db_after_hello
  ∧ length (List.filter is_send_alert
              (trace (run_scan Cases.lib (Demo.world Cases.page_comment)
                        Demo.config_mail Demo.db_after_hello Demo.url).2))
    = 1.
Proof.
  assert (NoDup (_get_element_xpath <$> lxml.iter Cases.doc_comment)) as Hnd
    by (apply (bool_decide_unpack _); vm_compute; exact I).
  assert (lxml.Comment (Some " note ") None (Some Cases.comment_path)
          ∈ lxml.iter Cases.doc_comment) as Hc
    by (vm_compute; do 2 apply list_elem_of_further; apply list_elem_of_here).
  assert (diff_stage_returns Cases.lib Demo.db_after_hello Demo.url
            Cases.page_comment = true) as Hd by (by vm_compute).
  split; [exact Hnd |]. split; [exact Hc |]. split; [exact Hd |].
  destruct (page_with_comment_is_never_recorded Cases.lib
              (Demo.world Cases.page_comment) Demo.config_mail
              Demo.db_after_hello Demo.url Cases.page_comment
              Cases.doc_comment
              (lxml.Comment (Some " note ") None (Some Cases.comment_path))
              eq_refl eq_refl eq_refl Hnd Hc eq_refl)
    as (_ & Hdb & _ & Hend).
  destruct (Hend eq_refl Hd) as [Hres Halerts].
  split; [exact Hres |]. split; [exact Hdb |].
  rewrite Halerts. by vm_compute.
Defined.

Lemma failed_scan_ends_cycle_witness :
  (scan_each Demo.lib Demo.config_quiet Cases.worlds_second_fails
     [Cases.url_a] Cases.monitor_start).1
  = Returned tt
  ∧ scanned_urls
      (m_log (monitor_cycle Demo.lib Demo.config_quiet
                Cases.worlds_second_fails
                [Cases.url_a; Cases.url_b; Cases.url_c] 3600
                Cases.monitor_start))
    = [Cases.url_a; Cases.url_b]
  ∧ last (m_log (monitor_cycle Demo.lib Demo.config_quiet
                   Cases.worlds_second_fails
                   [Cases.url_a; Cases.url_b; Cases.url_c] 3600
                   Cases.monitor_start))
    = Some (mon_sleep 60).
Proof.
  assert ((scan_each Demo.lib Demo.config_quiet Cases.worlds_second_fails
             [Cases.url_a] Cases.monitor_start).1
          = Returned tt) as H1 by (vm_compute; reflexivity).
  split; [exact H1 |].
  change [Cases.url_a; Cases.url_b; Cases.url_c]
    with ([Cases.url_a] ++ Cases.url_b :: [Cases.url_c]).
  rewrite (failed_scan_ends_cycle Demo.lib Demo.config_quiet
             Cases.worlds_second_fails [Cases.url_a] [Cases.url_c]
             Cases.url_b 3600 Cases.monitor_start sqlite3_Error H1 eq_refl).
  split; by vm_compute.
Defined.

Lemma monitoring_keeps_store_witness :
  db_consistent (m_db Cases.monitor_start)
  ∧ db_consistent
      (m_db (monitor_urls Demo.lib Demo.config_quiet
               Cases.worlds_second_fails 2
               [Cases.url_a; Cases.url_b; Cases.url_c] 3600
               Cases.monitor_start)).
Proof.
  assert (db_consistent (m_db Cases.monitor_start)) as H.
  { split; [apply NoDup_nil_2 |]. split; [apply NoDup_nil_2 |].
    split; apply Forall_nil_2. }
  split; [exact H |].
  exact (proj1 (monitoring_keeps_store Demo.lib Demo.config_quiet
                  Cases.worlds_second_fails 2
                  [Cases.url_a; Cases.url_b; Cases.url_c] 3600
                  Cases.monitor_start H)).
Defined.

Lemma get_after_update_witness :
  (ConfigFile.update false Cases.settings "email.smtp.port" "587").1
  ≠ ConfigFile.TypeError
  ∧ ConfigFile.get
      (ConfigFile.update false Cases.settings "email.smtp.port" "587").2
      "email.smtp.port" (ConfigFile.other "none")
    = ConfigFile.other "587".
Proof.
  assert ((ConfigFile.update false Cases.settings "email.smtp.port" "587").1
          ≠ ConfigFile.TypeError) as H by (by vm_compute).
  split; [exact H |].
  exact (proj1 (get_after_update false Cases.settings "email.smtp.port" "587"
                  (ConfigFile.other "none") H)).
Defined.

Lemma update_keeps_other_keys_witness :
  ConfigFile.parts_from (py_split full_stop "email.smtp.port")
    (py_split full_stop "email.enabled")
  ∧ ConfigFile.get
      (ConfigFile.update false Cases.settings "email.smtp.port" "587").2
      "email.enabled" (ConfigFile.other "none")
    = ConfigFile.get Cases.settings "email.enabled" (ConfigFile.other "none").
Proof.
  assert (ConfigFile.parts_from (py_split full_stop "email.smtp.port")
            (py_split full_stop "email.enabled")) as H.
  { exists ["email"], "smtp", "enabled", ["port"], []. by vm_compute. }
  split; [exact H |].
  assert ((ConfigFile.update false Cases.settings "email.smtp.port" "587").1
          ≠ ConfigFile.TypeError) as Hok by (by vm_compute).
  exact (update_keeps_other_keys false Cases.settings "email.smtp.port"
           "email.enabled" "587" (ConfigFile.other "none") Hok H).
Defined.

Lemma failing_url_starves_the_rest_witness :
  (∀ n, ∃ e,
     (run_scan Demo.lib (Cases.worlds_hello n) Demo.config_mail
        (m_db Cases.monitor_poisoned) Demo.url).1
     = Raised e)
  ∧ ∃ new,
      m_log (monitor_urls Demo.lib Demo.config_mail Cases.worlds_hello 3
               [Demo.url; Cases.url_a] 3600 Cases.monitor_poisoned)
      = m_log Cases.monitor_poisoned ++ new
      ∧ scanned_urls new = [Demo.url; Demo.url; Demo.url]
      ∧ m_db (monitor_urls Demo.lib Demo.config_mail Cases.worlds_hello 3
                [Demo.url; Cases.url_a] 3600 Cases.monitor_poisoned)
        = m_db Cases.monitor_poisoned.
Proof.
  assert (∀ n, ∃ e,
            (run_scan Demo.lib (Cases.worlds_hello n) Demo.config_mail
               (m_db Cases.monitor_poisoned) Demo.url).1
            = Raised e) as H.
  { intros n. exists AttributeError. reflexivity. }
  split; [exact H |].
  exact (failing_url_starves_the_rest Demo.lib Demo.config_mail
           Cases.worlds_hello 3 Demo.url [Cases.url_a] 3600
           Cases.monitor_poisoned H).
Defined.

(** ** The loop and the configuration object on the examples *)

(** A pass over three URLs in which the second scan cannot read the
    database: the third URL is not scanned, and the loop waits a minute. *)
Example cycle_with_failed_scan :
  map (λ e, match e with
            | mon_scan url _ outcome => (url, Some outcome)
            | mon_sleep seconds => (pretty seconds, None)
            end)
    (m_log (monitor_cycle Demo.lib Demo.config_quiet
              Cases.worlds_second_fails
              [Cases.url_a; Cases.url_b; Cases.url_c] 3600
              Cases.monitor_start))
  = [(Cases.url_a, Some (Returned false)); ("5", None);
     (Cases.url_b, Some (Raised sqlite3_Error)); ("60", None)].
Proof. by vm_compute. Qed.

(** [split] keeps empty pieces, and the empty string has one piece. *)
Example split_keeps_empty_pieces :
  py_split full_stop "email..port" = ["email"; ""; "port"]
  ∧ py_split full_stop "" = [""]
  ∧ py_split full_stop "urls" = ["urls"].
Proof. by vm_compute. Qed.

(** [update] below a setting that is not a dictionary raises and changes
    nothing; [update] of a new section creates it. *)
Example update_below_a_number :
  ConfigFile.update false Cases.settings "scan_interval.unit" "s"
  = (ConfigFile.TypeError, Cases.settings).
Proof. by vm_compute. Qed.

(** [update] with a value that [json.dump] cannot write: the value is in
    memory, and the file is lost. *)
Example update_with_a_set :
  ConfigFile.update false Cases.settings_on_file "email.tags"
    (Cases.python_set ["a"])
  = (ConfigFile.TypeError,
     ConfigFile.mkConfig
       (ConfigFile.dictionary
          [("scan_interval", ConfigFile.other (Cases.text "3600"));
           ("email",
            ConfigFile.dictionary
              [("tags", ConfigFile.other (Cases.python_set ["a"]))])])
       None).
Proof. by vm_compute. Qed.

Example update_creates_sections :
  ConfigFile.config
    (ConfigFile.update true Cases.settings "email.smtp.port" "587").2
  = ConfigFile.dictionary
      [("email",
        ConfigFile.dictionary
          [("enabled", ConfigFile.other "false");
           ("smtp", ConfigFile.dictionary [("port", ConfigFile.other "587")])]);
       ("scan_interval", ConfigFile.other "3600")]
  ∧ (ConfigFile.update true Cases.settings "email.smtp.port" "587").1
    = ConfigFile.OSError
  ∧ ConfigFile.config_file
      (ConfigFile.update true Cases.settings "email.smtp.port" "587").2
    = None.
Proof. by vm_compute. Qed.
